(** * rocBLAS: dispatch wrappers, 64-bit batch shims and client test harnesses

    A shallow embedding of
    - [library/src/src64/blas2/rocblas_hpmv_kernels_64.cpp]
      (the 64-bit batch-chunking shim of HPMV),
    - [library/src/blas3/rocblas_trtri_strided_batched.cpp]
      (the C entry points of strided-batched TRTRI),
    - [clients/include/testing_nrm2.hpp], [clients/include/blas1/testing_dot.hpp]
      and the SPR2-batched client harness,
    followed by the properties established about them.

    Part I holds the definitions, Part II the theorems. *)

From Stdlib Require Import String.
From Stdlib Require Import ZArith List Bool Lia.
Import ListNotations.
Local Open Scope Z_scope.

(* ===================================================================== *)
(** * Part I: definitions                                                 *)
(* ===================================================================== *)

(** ** Types shared by the whole library *)

(** The status codes of [rocblas_status] (rocblas-types.h). *)
Inductive rocblas_status : Set :=
| rocblas_status_success
| rocblas_status_invalid_handle
| rocblas_status_not_implemented
| rocblas_status_invalid_pointer
| rocblas_status_invalid_size
| rocblas_status_memory_error
| rocblas_status_internal_error
| rocblas_status_perf_degraded
| rocblas_status_size_query_mismatch
| rocblas_status_size_increased
| rocblas_status_size_unchanged
| rocblas_status_invalid_value
| rocblas_status_continue
| rocblas_status_check_numerics_fail
| rocblas_status_excluded_from_build
| rocblas_status_arch_mismatch.

Definition rocblas_status_eq_dec (a b : rocblas_status) : {a = b} + {a <> b}.
Proof. decide equality. Defined.

Definition status_eqb (a b : rocblas_status) : bool :=
  if rocblas_status_eq_dec a b then true else false.

Inductive rocblas_fill : Set :=
| rocblas_fill_upper
| rocblas_fill_lower
| rocblas_fill_full.

Inductive rocblas_diagonal : Set :=
| rocblas_diagonal_non_unit
| rocblas_diagonal_unit.

Inductive rocblas_pointer_mode : Set :=
| rocblas_pointer_mode_host
| rocblas_pointer_mode_device.

(** ** Machine integers

    Fixed-width integers are integers of [Z] reduced into their range after
    every operation that can leave it. *)

Definition wrap_signed (w : Z) (z : Z) : Z :=
  (z + 2 ^ (w - 1)) mod 2 ^ w - 2 ^ (w - 1).

Definition to_int32 (z : Z) : Z := wrap_signed 32 z.
Definition to_int64 (z : Z) : Z := wrap_signed 64 z.
Definition to_size_t (z : Z) : Z := z mod 2 ^ 64.

Definition c_i32_max : Z := 2 ^ 31 - 1.
Definition c_i64_max : Z := 2 ^ 63 - 1.
Definition c_i64_min : Z := - 2 ^ 63.

Definition in_int64 (z : Z) : Prop := c_i64_min <= z <= c_i64_max.

(** ** The 64-bit HPMV launcher: [rocblas_hpmv_launcher_64] *)

Module Hpmv64.

(** Device addresses, counted in elements from the start of the buffer the
    caller passed. *)
Definition ptr := Z.

(** Modelled from the spec: [adjust_ptr_batch] of int64_helpers.hpp, which
    is not among the sources; the spec has the shim "advancing per-batch
    pointers by stride", so the pointer of batch [block] lies [block]
    strides after [p]. *)
Definition adjust_ptr_batch (p : ptr) (block stride : Z) : ptr :=
  p + block * stride.

(** The arguments of one call of the 32-bit [rocblas_hpmv_launcher], in
    the order of its parameter list (the handle is part of the state). *)
Record hpmv_call (TScal : Type) : Type := Build_hpmv_call {
  call_uplo : rocblas_fill;
  call_n : Z;
  call_alpha : TScal;
  call_AP : ptr;
  call_offseta : Z;
  call_strideA : Z;
  call_x : ptr;
  call_offsetx : Z;
  call_incx : Z;
  call_stridex : Z;
  call_beta : TScal;
  call_y : ptr;
  call_offsety : Z;
  call_incy : Z;
  call_stridey : Z;
  call_batch_count : Z
}.
Arguments Build_hpmv_call {TScal}.
Arguments call_uplo {TScal}.
Arguments call_n {TScal}.
Arguments call_alpha {TScal}.
Arguments call_AP {TScal}.
Arguments call_offseta {TScal}.
Arguments call_strideA {TScal}.
Arguments call_x {TScal}.
Arguments call_offsetx {TScal}.
Arguments call_incx {TScal}.
Arguments call_stridex {TScal}.
Arguments call_beta {TScal}.
Arguments call_y {TScal}.
Arguments call_offsety {TScal}.
Arguments call_incy {TScal}.
Arguments call_stridey {TScal}.
Arguments call_batch_count {TScal}.

(** The arguments of [rocblas_hpmv_launcher_64] after the handle. *)
Record hpmv_args_64 (TScal : Type) : Type := Build_hpmv_args_64 {
  uplo : rocblas_fill;
  n_64 : Z;
  alpha : TScal;
  AP : ptr;
  offseta : Z;
  strideA : Z;
  x : ptr;
  offsetx : Z;
  incx_64 : Z;
  stridex : Z;
  beta : TScal;
  y : ptr;
  offsety : Z;
  incy_64 : Z;
  stridey : Z;
  batch_count_64 : Z
}.
Arguments Build_hpmv_args_64 {TScal}.
Arguments uplo {TScal}.
Arguments n_64 {TScal}.
Arguments alpha {TScal}.
Arguments AP {TScal}.
Arguments offseta {TScal}.
Arguments strideA {TScal}.
Arguments x {TScal}.
Arguments offsetx {TScal}.
Arguments incx_64 {TScal}.
Arguments stridex {TScal}.
Arguments beta {TScal}.
Arguments y {TScal}.
Arguments offsety {TScal}.
Arguments incy_64 {TScal}.
Arguments stridey {TScal}.
Arguments batch_count_64 {TScal}.

Section Launcher.

(** [TScal] is the scalar argument type, [H] the state of the handle and
    of the device that the 32-bit launcher reads and updates. *)
Context {TScal H : Type}.

(** [c_i64_grid_YZ_chunk] is a constant of int64_helpers.hpp, which is
    not among the sources: the shim is parametric in it. *)
Variable c_i64_grid_YZ_chunk : Z.

(** The 32-bit launcher [rocblas_hpmv_launcher<rocblas_int>] is an opaque
    kernel launcher: it maps the call and the state to a status and a
    new state. *)
Variable rocblas_hpmv_launcher : hpmv_call TScal -> H -> rocblas_status * H.

(** What a run of the shim leaves behind: the status it returns, the
    calls of the 32-bit launcher it made, oldest first, each with the status
    the launcher returned, and the state. *)
Definition run : Type := rocblas_status * list (hpmv_call TScal * rocblas_status) * H.

(** The call made by the loop body at chunk base [b_base]. *)
Definition chunk_call (a : hpmv_args_64 TScal) (b_base : Z) : hpmv_call TScal :=
  let x_ptr := adjust_ptr_batch (x a) b_base (stridex a) in
  let y_ptr := adjust_ptr_batch (y a) b_base (stridey a) in
  let A_ptr := adjust_ptr_batch (AP a) b_base (strideA a) in
  let batch_count :=
    to_int32 (Z.min (to_int64 (batch_count_64 a - b_base)) c_i64_grid_YZ_chunk) in
  let shiftA := offseta a in
  Build_hpmv_call (uplo a) (to_int32 (n_64 a)) (alpha a)
    A_ptr shiftA (strideA a)
    x_ptr (offsetx a) (incx_64 a) (stridex a)
    (beta a)
    y_ptr (offsety a) (incy_64 a) (stridey a)
    batch_count.

(** The [for] loop over [b_base].  [fuel] bounds the number of times the
    loop test is evaluated; [None] means the bound was reached.  [made]
    is the list of calls made so far, newest first.  [b_base] is an
    [int64_t]: the sum [b_base + c_i64_grid_YZ_chunk] is reduced into its
    range, as is the difference [batch_count_64 - b_base] in the loop
    body. *)
Fixpoint batch_loop (fuel : nat) (a : hpmv_args_64 TScal) (b_base : Z)
         (made : list (hpmv_call TScal * rocblas_status)) (h : H) : option run :=
  match fuel with
  | O => None
  | S fuel' =>
      if b_base <? batch_count_64 a then
        let c := chunk_call a b_base in
        let '(status, h') := rocblas_hpmv_launcher c h in
        if status_eqb status rocblas_status_success
        then batch_loop fuel' a (to_int64 (b_base + c_i64_grid_YZ_chunk))
               ((c, status) :: made) h'
        else Some (status, rev ((c, status) :: made), h')
      else Some (rocblas_status_success, rev made, h)
  end.

Definition rocblas_hpmv_launcher_64 (fuel : nat) (h : H) (a : hpmv_args_64 TScal)
  : option run :=
  if (n_64 a =? 0) || (batch_count_64 a =? 0) then
    Some (rocblas_status_success, [], h)
  else if n_64 a >? c_i32_max then
    Some (rocblas_status_invalid_size, [], h)
  else batch_loop fuel a 0 [] h.

(** *** The chunked iteration the shim is meant to perform

    Written from the description, to be compared with the code above:
    the chunk bases are the multiples of the chunk size below the batch
    count, in increasing order; the call at base [b] covers
    [min (batch_count_64 - b) chunk] batches with the three base
    pointers moved [b] strides forward; the calls are made one after
    the other until one does not succeed. *)

Definition chunk_count (batch_count : Z) : nat :=
  Z.to_nat ((batch_count + c_i64_grid_YZ_chunk - 1) / c_i64_grid_YZ_chunk).

Definition chunk_bases (batch_count : Z) : list Z :=
  map (fun i => Z.of_nat i * c_i64_grid_YZ_chunk) (seq 0 (chunk_count batch_count)).

Definition chunk_call_spec (a : hpmv_args_64 TScal) (b_base : Z) : hpmv_call TScal :=
  Build_hpmv_call (uplo a) (n_64 a) (alpha a)
    (AP a + b_base * strideA a) (offseta a) (strideA a)
    (x a + b_base * stridex a) (offsetx a) (incx_64 a) (stridex a)
    (beta a)
    (y a + b_base * stridey a) (offsety a) (incy_64 a) (stridey a)
    (Z.min (batch_count_64 a - b_base) c_i64_grid_YZ_chunk).

Fixpoint iterate_launcher (calls : list (hpmv_call TScal)) (h : H) : run :=
  match calls with
  | [] => (rocblas_status_success, [], h)
  | c :: rest =>
      let '(status, h') := rocblas_hpmv_launcher c h in
      if status_eqb status rocblas_status_success
      then let '(status', made, h'') := iterate_launcher rest h' in
           (status', (c, status) :: made, h'')
      else (status, [(c, status)], h')
  end.

Definition chunked_launcher (h : H) (a : hpmv_args_64 TScal) : run :=
  iterate_launcher (map (chunk_call_spec a) (chunk_bases (batch_count_64 a))) h.

End Launcher.

(** *** Inputs used as examples *)

(** A stateless launcher that accepts every call. *)
Definition accepting_launcher (c : hpmv_call unit) (h : unit) : rocblas_status * unit :=
  (rocblas_status_success, h).

(** A launcher that counts its calls and rejects the second one. *)
Definition second_call_fails (c : hpmv_call unit) (h : nat) : rocblas_status * nat :=
  (if Nat.eqb h 1 then rocblas_status_internal_error else rocblas_status_success, Datatypes.S h).

(** Packed matrices at 100, vectors at 200 and 300, with batch strides 10,
    20 and 30. *)
Definition example_args (n batch_count : Z) : hpmv_args_64 unit :=
  Build_hpmv_args_64 rocblas_fill_upper n tt 100 0 10 200 0 1 20 tt 300 0 1 30 batch_count.

(** The largest batch count of the 64-bit interface, with buffers at 0 and
    unit strides. *)
Definition max_batch_args : hpmv_args_64 unit :=
  Build_hpmv_args_64 rocblas_fill_upper 1 tt 0 0 1 0 0 1 1 tt 0 0 1 1 c_i64_max.

End Hpmv64.

(** ** Strided-batched TRTRI: [rocblas_trtri_strided_batched.cpp] *)

Module Trtri.

(** Pointers: [None] is the null pointer. *)
Definition ptr := option Z.

(** The four element types the C interface is instantiated at. *)
Inductive element_type : Set :=
| float
| double
| rocblas_float_complex
| rocblas_double_complex.

Definition sizeof (T : element_type) : Z :=
  match T with
  | float => 4
  | double => 8
  | rocblas_float_complex => 8
  | rocblas_double_complex => 16
  end.

Definition rocblas_trtri_name (T : element_type) : string :=
  match T with
  | float => "rocblas_strtri_strided_batched"%string
  | double => "rocblas_dtrtri_strided_batched"%string
  | rocblas_float_complex => "rocblas_ctrtri_strided_batched"%string
  | rocblas_double_complex => "rocblas_ztrtri_strided_batched"%string
  end.

(** What the wrapper reads from the handle. *)
Record _rocblas_handle : Type := Build_handle {
  is_device_memory_size_query : bool;
  layer_mode : Z
}.

Definition rocblas_handle := option _rocblas_handle.

(** The arguments after the handle. *)
Record trtri_args : Type := Build_trtri_args {
  uplo : rocblas_fill;
  diag : rocblas_diagonal;
  n : Z;
  A : ptr;
  lda : Z;
  bsa : Z;
  invA : ptr;
  ldinvA : Z;
  bsinvA : Z;
  batch_count : Z
}.

(** The arguments the wrapper hands to [rocblas_trtri_small] and
    [rocblas_trtri_large] after the handle, in the order of the call. *)
Record kernel_args : Type := Build_kernel_args {
  k_uplo : rocblas_fill;
  k_diag : rocblas_diagonal;
  k_n : Z;
  k_A : ptr;
  k_offset_A : Z;
  k_lda : Z;
  k_stride_A : Z;
  k_sub_stride_A : Z;
  k_invA : ptr;
  k_offset_invA : Z;
  k_ldinvA : Z;
  k_stride_invA : Z;
  k_sub_stride_invA : Z;
  k_batch_count : Z;
  k_sub_batch_count : Z
}.

Definition kernel_args_of (a : trtri_args) : kernel_args :=
  Build_kernel_args (uplo a) (diag a) (n a)
    (A a) 0 (lda a) (bsa a) 0
    (invA a) 0 (ldinvA a) (bsinvA a) 0
    (batch_count a) 1.

(** A C++ exception in flight, whatever its type. *)
Inductive cxx_exception : Set :=
| exception (id : nat).

(** A C++ call either returns a value or throws. *)
Inductive outcome (X : Type) : Type :=
| returned (v : X)
| thrown (e : cxx_exception).
Arguments returned {X}.
Arguments thrown {X}.

(** The calls that leave the wrapper, with their arguments. *)
Inductive event : Type :=
| call_set_optimal_device_memory_size (size : Z)
| call_log_trace (name : string) (a : trtri_args)
| call_log_profile (name : string) (a : trtri_args)
| call_rocblas_trtri_arg_check (a : trtri_args)
| call_device_malloc (size : Z)
| call_rocblas_trtri_small (NB : Z) (T : element_type) (k : kernel_args)
| call_rocblas_trtri_large (NB : Z) (T : element_type) (k : kernel_args) (w_C_tmp : Z).

(** The functions and constants of the library that the wrapper uses and
    that are defined in other files (handle.hpp, logging.hpp,
    rocblas_trtri.hpp, utility.hpp, rocblas-types.h): the wrapper is
    parametric in them.  Each function is called at most once in a run, so
    its result is a function of its arguments. *)
Record library : Type := Build_library {
  rocblas_layer_mode_log_trace : Z;
  rocblas_layer_mode_log_profile : Z;
  rocblas_internal_trtri_temp_size : Z -> Z -> Z -> Z;
  set_optimal_device_memory_size : _rocblas_handle -> Z -> outcome rocblas_status;
  log_trace : _rocblas_handle -> string -> trtri_args -> outcome unit;
  log_profile : _rocblas_handle -> string -> trtri_args -> outcome unit;
  rocblas_trtri_arg_check : _rocblas_handle -> trtri_args -> outcome rocblas_status;
  device_malloc : _rocblas_handle -> Z -> outcome ptr;
  rocblas_trtri_small :
    Z -> element_type -> _rocblas_handle -> kernel_args -> outcome rocblas_status;
  rocblas_trtri_large :
    Z -> element_type -> _rocblas_handle -> kernel_args -> Z -> outcome rocblas_status;
  exception_to_rocblas_status : cxx_exception -> rocblas_status
}.

(** A computation leaves the list of the calls it made, oldest first, and
    returns or throws. *)
Definition M (X : Type) : Type := list event * outcome X.

Definition ret {X : Type} (v : X) : M X := ([], returned v).

Definition bind {X Y : Type} (m : M X) (f : X -> M Y) : M Y :=
  match m with
  | (t, returned v) => let '(t', r) := f v in (t ++ t', r)
  | (t, thrown e) => (t, thrown e)
  end.

Definition call {X : Type} (ev : event) (r : outcome X) : M X := ([ev], r).

Notation "x <- m ;; k" := (bind m (fun x => k))
  (at level 61, m at next level, right associativity).

Section Wrapper.

Variable L : library.

(** [rocblas_trtri_strided_batched_impl<NB, T>]. *)
Definition rocblas_trtri_strided_batched_impl
           (NB : Z) (T : element_type) (handle : rocblas_handle) (a : trtri_args)
  : M rocblas_status :=
  match handle with
  | None => ret rocblas_status_invalid_handle
  | Some h =>
      let size :=
        to_size_t (rocblas_internal_trtri_temp_size L NB (n a) (batch_count a) * sizeof T) in
      if is_device_memory_size_query h then
        if (n a <=? NB) || (batch_count a =? 0)
        then ret rocblas_status_size_unchanged
        else call (call_set_optimal_device_memory_size size)
                  (set_optimal_device_memory_size L h size)
      else
        let layer_mode := layer_mode h in
        _ <- (if negb (Z.land layer_mode (rocblas_layer_mode_log_trace L) =? 0)
              then call (call_log_trace (rocblas_trtri_name T) a)
                        (log_trace L h (rocblas_trtri_name T) a)
              else ret tt) ;;
        _ <- (if negb (Z.land layer_mode (rocblas_layer_mode_log_profile L) =? 0)
              then call (call_log_profile (rocblas_trtri_name T) a)
                        (log_profile L h (rocblas_trtri_name T) a)
              else ret tt) ;;
        arg_status <- call (call_rocblas_trtri_arg_check a)
                           (rocblas_trtri_arg_check L h a) ;;
        if negb (status_eqb arg_status rocblas_status_continue) then ret arg_status
        else if n a <=? NB then
          call (call_rocblas_trtri_small NB T (kernel_args_of a))
               (rocblas_trtri_small L NB T h (kernel_args_of a))
        else
          w_C_tmp <- call (call_device_malloc size) (device_malloc L h size) ;;
          match w_C_tmp with
          | None => ret rocblas_status_memory_error
          | Some w =>
              call (call_rocblas_trtri_large NB T (kernel_args_of a) w)
                   (rocblas_trtri_large L NB T h (kernel_args_of a) w)
          end
  end.

(** The function-try-block of the C entry points: [catch(...)] turns
    whatever was thrown into a status. *)
Definition try_catch_all (m : M rocblas_status) : list event * rocblas_status :=
  match m with
  | (t, returned status) => (t, status)
  | (t, thrown e) => (t, exception_to_rocblas_status L e)
  end.

Definition rocblas_strtri_strided_batched
           (handle : rocblas_handle) (uplo : rocblas_fill) (diag : rocblas_diagonal)
           (n : Z) (A : ptr) (lda bsa : Z) (invA : ptr) (ldinvA bsinvA batch_count : Z)
  : list event * rocblas_status :=
  let NB := 16 in
  try_catch_all
    (rocblas_trtri_strided_batched_impl NB float handle
       (Build_trtri_args uplo diag n A lda bsa invA ldinvA bsinvA batch_count)).

Definition rocblas_dtrtri_strided_batched
           (handle : rocblas_handle) (uplo : rocblas_fill) (diag : rocblas_diagonal)
           (n : Z) (A : ptr) (lda bsa : Z) (invA : ptr) (ldinvA bsinvA batch_count : Z)
  : list event * rocblas_status :=
  let NB := 16 in
  try_catch_all
    (rocblas_trtri_strided_batched_impl NB double handle
       (Build_trtri_args uplo diag n A lda bsa invA ldinvA bsinvA batch_count)).

Definition rocblas_ctrtri_strided_batched
           (handle : rocblas_handle) (uplo : rocblas_fill) (diag : rocblas_diagonal)
           (n : Z) (A : ptr) (lda bsa : Z) (invA : ptr) (ldinvA bsinvA batch_count : Z)
  : list event * rocblas_status :=
  let NB := 16 in
  try_catch_all
    (rocblas_trtri_strided_batched_impl NB rocblas_float_complex handle
       (Build_trtri_args uplo diag n A lda bsa invA ldinvA bsinvA batch_count)).

Definition rocblas_ztrtri_strided_batched
           (handle : rocblas_handle) (uplo : rocblas_fill) (diag : rocblas_diagonal)
           (n : Z) (A : ptr) (lda bsa : Z) (invA : ptr) (ldinvA bsinvA batch_count : Z)
  : list event * rocblas_status :=
  let NB := 16 in
  try_catch_all
    (rocblas_trtri_strided_batched_impl NB rocblas_double_complex handle
       (Build_trtri_args uplo diag n A lda bsa invA ldinvA bsinvA batch_count)).

(** The size of the temporary device memory, as the wrapper computes it. *)
Definition temp_size_in_bytes (NB : Z) (T : element_type) (a : trtri_args) : Z :=
  to_size_t (rocblas_internal_trtri_temp_size L NB (n a) (batch_count a) * sizeof T).

(** The logging calls of a run that gets past them. *)
Definition logging_calls (T : element_type) (h : _rocblas_handle) (a : trtri_args)
  : list event :=
  (if Z.land (layer_mode h) (rocblas_layer_mode_log_trace L) =? 0 then []
   else [call_log_trace (rocblas_trtri_name T) a])
  ++ (if Z.land (layer_mode h) (rocblas_layer_mode_log_profile L) =? 0 then []
      else [call_log_profile (rocblas_trtri_name T) a]).

(** Logging is enabled only by the layer mode, and returns when it is
    called. *)
Definition logging_returns (T : element_type) (h : _rocblas_handle) (a : trtri_args)
  : Prop :=
  (Z.land (layer_mode h) (rocblas_layer_mode_log_trace L) <> 0 ->
   log_trace L h (rocblas_trtri_name T) a = returned tt)
  /\ (Z.land (layer_mode h) (rocblas_layer_mode_log_profile L) <> 0 ->
      log_profile L h (rocblas_trtri_name T) a = returned tt).

End Wrapper.

(** An entry point [entry] of element type [T] returns the status its
    wrapper returns, or the status [exception_to_rocblas_status] makes of
    what the wrapper throws; the calls made are those of the wrapper. *)
Definition returns_status_of_impl (L : library) (T : element_type)
           (entry : rocblas_handle -> rocblas_fill -> rocblas_diagonal -> Z -> ptr -> Z -> Z ->
                    ptr -> Z -> Z -> Z -> list event * rocblas_status) : Prop :=
  forall handle uplo diag n A lda bsa invA ldinvA bsinvA batch_count,
    let impl :=
      rocblas_trtri_strided_batched_impl L 16 T handle
        (Build_trtri_args uplo diag n A lda bsa invA ldinvA bsinvA batch_count) in
    let result := entry handle uplo diag n A lda bsa invA ldinvA bsinvA batch_count in
    (exists status, impl = (fst result, returned status) /\ snd result = status)
    \/ (exists e, impl = (fst result, thrown e)
                  /\ snd result = exception_to_rocblas_status L e).

Definition is_kernel_launch (ev : event) : bool :=
  match ev with
  | call_rocblas_trtri_small _ _ _ => true
  | call_rocblas_trtri_large _ _ _ _ => true
  | _ => false
  end.

(** *** Inputs used as examples *)

(** A library in which every call succeeds, allocations land at address
    4096, the trace bit is 1 and the profile bit is 4. *)
Definition example_library : library :=
  Build_library 1 4
    (fun NB n batch_count => n * n * batch_count)
    (fun _ _ => returned rocblas_status_success)
    (fun _ _ _ => returned tt)
    (fun _ _ _ => returned tt)
    (fun _ _ => returned rocblas_status_continue)
    (fun _ _ => returned (Some 4096))
    (fun _ _ _ _ => returned rocblas_status_success)
    (fun _ _ _ _ _ => returned rocblas_status_success)
    (fun _ => rocblas_status_internal_error).

Definition example_args (n batch_count : Z) : trtri_args :=
  Build_trtri_args rocblas_fill_upper rocblas_diagonal_non_unit n
    (Some 1024) n (n * n) (Some 2048) n (n * n) batch_count.

End Trtri.

(** ** The client test harnesses *)

(** The harnesses are templates over the element type [T].  They build
    [T(0)] and [T(1)], the validation they exercise compares a scalar with
    zero, and the unit check compares two elements. *)
Class Element (T : Type) : Type := Build_Element {
  T_of_int : Z -> T;
  T_is_zero : T -> bool;
  T_unit_check : T -> T -> bool;
  T_is_zero_0 : T_is_zero (T_of_int 0) = true;
  T_is_zero_1 : T_is_zero (T_of_int 1) = false;
  T_unit_check_0 : T_unit_check (T_of_int 0) (T_of_int 0) = true
}.

#[export] Instance Element_Z : Element Z :=
  Build_Element Z (fun k => k) (fun v => v =? 0) Z.eqb eq_refl eq_refl eq_refl.

Module Client.

Inductive hipError_t : Set :=
| hipSuccess
| hipErrorOutOfMemory
| hipErrorInvalidValue.

Definition hip_ok (e : hipError_t) : bool :=
  match e with
  | hipSuccess => true
  | _ => false
  end.

(** A test leaves the list of its steps, oldest first, and ends with a
    value, or with [None] when a fatal check stopped it.  The checking
    macros ([CHECK_HIP_ERROR], [CHECK_DEVICE_ALLOCATION],
    [CHECK_ROCBLAS_ERROR], [EXPECT_ROCBLAS_STATUS], [DAPI_EXPECT],
    [DAPI_CHECK]) are defined in headers that are not among the sources;
    they are taken as fatal: the test function returns at the first one that
    fails. *)
Definition test (step X : Type) : Type := list step * option X.

Definition ret {step X : Type} (v : X) : test step X := ([], Some v).

Definition bind {step X Y : Type} (m : test step X) (f : X -> test step Y) : test step Y :=
  match m with
  | (t, Some v) => let '(t', r) := f v in (t ++ t', r)
  | (t, None) => (t, None)
  end.

Definition did {step : Type} (s : step) : test step unit := ([s], Some tt).

Definition fatal {step : Type} (ok : bool) : test step unit :=
  ([], if ok then Some tt else None).

Notation "x <- m ;; k" := (bind m (fun x => k))
  (at level 61, m at next level, right associativity).

Fixpoint for_each {step X : Type} (l : list X) (body : X -> test step unit) : test step unit :=
  match l with
  | [] => ret tt
  | v :: l' => _ <- body v ;; for_each l' body
  end.

(** [for(int iter = 0; iter < count; iter++)]. *)
Definition for_iter {step : Type} (count : Z) (body : test step unit) : test step unit :=
  for_each (seq 0 (Z.to_nat count)) (fun _ => body).

Definition finished {step X : Type} (t : test step X) : bool :=
  match snd t with
  | Some _ => true
  | None => false
  end.

End Client.

(** ** The SPR2-batched client: [testing_spr2_batched.hpp] *)

Module Spr2Batched.
Import Client.

(** The objects the harness passes by address. *)
Inductive buffer : Set :=
| alpha_h
| zero_h
| alpha_d
| zero_d
| dAp_1
| dx
| dy.

(** The arguments of one call of [rocblas_spr2_batched].  [None] is
    [nullptr]; a handle is described by its pointer mode, and the scalar
    pointer by the object it points to and the value stored there. *)
Record call (T : Type) : Type := Build_call {
  handle : option rocblas_pointer_mode;
  uplo : rocblas_fill;
  N : Z;
  alpha : option (buffer * T);
  x : option buffer;
  incx : Z;
  y : option buffer;
  incy : Z;
  AP : option buffer;
  batch_count : Z
}.
Arguments Build_call {T}.
Arguments handle {T}.
Arguments uplo {T}.
Arguments N {T}.
Arguments alpha {T}.
Arguments x {T}.
Arguments incx {T}.
Arguments y {T}.
Arguments incy {T}.
Arguments AP {T}.
Arguments batch_count {T}.

(** Modelled from the spec: the argument validation of
    [rocblas_spr2_batched], whose implementation is not among the sources.
    The wrappers "validate handle/arguments" before they delegate to a
    launcher; the statuses are those the client harness expects: a null
    handle is [rocblas_status_invalid_handle]; a fill mode other than upper
    and lower is [rocblas_status_invalid_value]; [N < 0], [incx = 0],
    [incy = 0] or [batch_count < 0] is [rocblas_status_invalid_size];
    [N = 0] or [batch_count = 0] is a quick return with success; a null
    [alpha] is [rocblas_status_invalid_pointer]; [alpha] pointing to zero is
    a quick return with success; in host pointer mode a null [x], [y] or
    [AP] is [rocblas_status_invalid_pointer]; what is left goes to the
    kernel launcher. *)
Definition rocblas_spr2_batched {T : Type} `{Element T}
           (launcher : call T -> rocblas_status) (c : call T) : rocblas_status :=
  match handle c with
  | None => rocblas_status_invalid_handle
  | Some pointer_mode =>
      match uplo c with
      | rocblas_fill_full => rocblas_status_invalid_value
      | _ =>
          if (N c <? 0) || (incx c =? 0) || (incy c =? 0) || (batch_count c <? 0)
          then rocblas_status_invalid_size
          else if (N c =? 0) || (batch_count c =? 0)
          then rocblas_status_success
          else
            match alpha c with
            | None => rocblas_status_invalid_pointer
            | Some (_, value) =>
                if T_is_zero value then rocblas_status_success
                else
                  match pointer_mode, x c, y c, AP c with
                  | rocblas_pointer_mode_host, Some _, Some _, Some _ => launcher c
                  | rocblas_pointer_mode_host, _, _, _ => rocblas_status_invalid_pointer
                  | rocblas_pointer_mode_device, _, _, _ => launcher c
                  end
            end
      end
  end.

(** The steps of the harness. *)
Inductive step (T : Type) : Type :=
| local_handle
| rocblas_set_pointer_mode (mode : rocblas_pointer_mode) (status : rocblas_status)
| device_vector (b : buffer) (size : Z)
| device_batch_matrix (b : buffer) (M N lda batch_count : Z)
| device_batch_vector (b : buffer) (N inc batch_count : Z)
| hipMemcpy (dst src : buffer) (e : hipError_t)
| memcheck (b : buffer) (e : hipError_t)
| api_call (c : call T) (status : rocblas_status).
Arguments local_handle {T}.
Arguments rocblas_set_pointer_mode {T}.
Arguments device_vector {T}.
Arguments device_batch_matrix {T}.
Arguments device_batch_vector {T}.
Arguments hipMemcpy {T}.
Arguments memcheck {T}.
Arguments api_call {T}.

(** What the harness gets from the library and the runtime: the function
    under test (the 32-bit or the 64-bit interface, as [arg.api] selects)
    and the results of the runtime calls. *)
Record runtime (T : Type) : Type := Build_runtime {
  rocblas_spr2_batched_fn : call T -> rocblas_status;
  set_pointer_mode_status : rocblas_pointer_mode -> rocblas_status;
  hipMemcpy_status : buffer -> buffer -> hipError_t;
  memcheck_status : buffer -> hipError_t;
  rocblas_packed_matrix_size : Z -> Z;
  default_pointer_mode : rocblas_pointer_mode
}.
Arguments Build_runtime {T}.
Arguments rocblas_spr2_batched_fn {T}.
Arguments set_pointer_mode_status {T}.
Arguments hipMemcpy_status {T}.
Arguments memcheck_status {T}.
Arguments rocblas_packed_matrix_size {T}.
Arguments default_pointer_mode {T}.

(** The arguments of the test that [testing_spr2_batched] reads before its
    early return; [arg_uplo] is [char2rocblas_fill(arg.uplo)]. *)
Record test_arguments : Type := Build_test_arguments {
  arg_N : Z;
  arg_incx : Z;
  arg_incy : Z;
  arg_batch_count : Z;
  arg_uplo : rocblas_fill
}.

Section Harness.

Context {T : Type} `{Element T}.
Variable R : runtime T.

Definition CHECK_ROCBLAS_ERROR_set_pointer_mode (mode : rocblas_pointer_mode)
  : test (step T) unit :=
  _ <- did (rocblas_set_pointer_mode mode (set_pointer_mode_status R mode)) ;;
  fatal (status_eqb (set_pointer_mode_status R mode) rocblas_status_success).

Definition CHECK_HIP_ERROR_hipMemcpy (dst src : buffer) : test (step T) unit :=
  _ <- did (hipMemcpy dst src (hipMemcpy_status R dst src)) ;;
  fatal (hip_ok (hipMemcpy_status R dst src)).

Definition CHECK_DEVICE_ALLOCATION (b : buffer) : test (step T) unit :=
  _ <- did (memcheck b (memcheck_status R b)) ;;
  fatal (hip_ok (memcheck_status R b)).

Definition DAPI_EXPECT (expected : rocblas_status) (c : call T) : test (step T) unit :=
  _ <- did (api_call c (rocblas_spr2_batched_fn R c)) ;;
  fatal (status_eqb (rocblas_spr2_batched_fn R c) expected).

Definition DAPI_CHECK (c : call T) : test (step T) unit :=
  DAPI_EXPECT rocblas_status_success c.

(** [testing_spr2_batched_bad_arg<T>]. *)
Definition testing_spr2_batched_bad_arg : test (step T) unit :=
  for_each [rocblas_pointer_mode_host; rocblas_pointer_mode_device]
    (fun pointer_mode =>
       _ <- did local_handle ;;
       _ <- CHECK_ROCBLAS_ERROR_set_pointer_mode pointer_mode ;;
       let handle := Some pointer_mode in
       let uplo := rocblas_fill_upper in
       let N := 100 in
       let incx := 1 in
       let incy := 1 in
       let batch_count := 2 in
       _ <- did (device_vector alpha_d 1) ;;
       _ <- did (device_vector zero_d 1) ;;
       pointers <-
         match pointer_mode with
         | rocblas_pointer_mode_device =>
             _ <- CHECK_HIP_ERROR_hipMemcpy alpha_d alpha_h ;;
             _ <- CHECK_HIP_ERROR_hipMemcpy zero_d zero_h ;;
             ret ((alpha_d, T_of_int 1), (zero_d, T_of_int 0))
         | rocblas_pointer_mode_host =>
             ret ((alpha_h, T_of_int 1), (zero_h, T_of_int 0))
         end ;;
       let alpha := Some (fst pointers) in
       let zero := Some (snd pointers) in
       _ <- did (device_batch_matrix dAp_1 1 (rocblas_packed_matrix_size R N) 1 batch_count) ;;
       _ <- did (device_batch_vector dx N incx batch_count) ;;
       _ <- did (device_batch_vector dy N incy batch_count) ;;
       _ <- CHECK_DEVICE_ALLOCATION dx ;;
       _ <- CHECK_DEVICE_ALLOCATION dy ;;
       _ <- CHECK_DEVICE_ALLOCATION dAp_1 ;;
       _ <- DAPI_EXPECT rocblas_status_invalid_handle
              (Build_call None uplo N alpha (Some dx) incx (Some dy) incy (Some dAp_1)
                 batch_count) ;;
       _ <- DAPI_EXPECT rocblas_status_invalid_value
              (Build_call handle rocblas_fill_full N alpha (Some dx) incx (Some dy) incy
                 (Some dAp_1) batch_count) ;;
       _ <- DAPI_EXPECT rocblas_status_invalid_pointer
              (Build_call handle uplo N None (Some dx) incx (Some dy) incy (Some dAp_1)
                 batch_count) ;;
       _ <- match pointer_mode with
            | rocblas_pointer_mode_host =>
                _ <- DAPI_EXPECT rocblas_status_invalid_pointer
                       (Build_call handle uplo N alpha None incx (Some dy) incy (Some dAp_1)
                          batch_count) ;;
                _ <- DAPI_EXPECT rocblas_status_invalid_pointer
                       (Build_call handle uplo N alpha (Some dx) incx None incy (Some dAp_1)
                          batch_count) ;;
                DAPI_EXPECT rocblas_status_invalid_pointer
                  (Build_call handle uplo N alpha (Some dx) incx (Some dy) incy None
                     batch_count)
            | rocblas_pointer_mode_device => ret tt
            end ;;
       _ <- DAPI_CHECK (Build_call handle uplo 0 None None incx None incy None batch_count) ;;
       _ <- DAPI_CHECK (Build_call handle uplo N None None incx None incy None 0) ;;
       DAPI_CHECK (Build_call handle uplo N zero None incx None incy None batch_count)).

(** [testing_spr2_batched<T>], up to its early return.  What follows the
    early return (allocation, initialisation, the GPU and CPU runs and their
    comparison, timing) is the parameter [numerical_test]. *)
Definition testing_spr2_batched (arg : test_arguments) (numerical_test : test (step T) unit)
  : test (step T) unit :=
  let N := arg_N arg in
  let incx := arg_incx arg in
  let incy := arg_incy arg in
  let batch_count := arg_batch_count arg in
  let uplo := arg_uplo arg in
  _ <- did local_handle ;;
  let handle := Some (default_pointer_mode R) in
  let invalid_size := (N <? 0) || (incx =? 0) || (incy =? 0) || (batch_count <? 0) in
  if invalid_size || (N =? 0) || (batch_count =? 0) then
    DAPI_EXPECT (if invalid_size then rocblas_status_invalid_size else rocblas_status_success)
      (Build_call handle uplo N None None incx None incy None batch_count)
  else numerical_test.

End Harness.

(** The runtime calls of the harness succeed. *)
Definition runtime_succeeds {T : Type} (R : runtime T) : Prop :=
  (forall mode, set_pointer_mode_status R mode = rocblas_status_success)
  /\ (forall dst src, hipMemcpy_status R dst src = hipSuccess)
  /\ (forall b, memcheck_status R b = hipSuccess).

(** The scalar pointers [alpha] and [zero] of the bad-argument harness in
    pointer mode [pointer_mode]. *)
Definition alpha_pointer {T : Type} `{Element T} (pointer_mode : rocblas_pointer_mode)
  : option (buffer * T) :=
  Some (match pointer_mode with
        | rocblas_pointer_mode_host => alpha_h
        | rocblas_pointer_mode_device => alpha_d
        end, T_of_int 1).

Definition zero_pointer {T : Type} `{Element T} (pointer_mode : rocblas_pointer_mode)
  : option (buffer * T) :=
  Some (match pointer_mode with
        | rocblas_pointer_mode_host => zero_h
        | rocblas_pointer_mode_device => zero_d
        end, T_of_int 0).

(** The statuses that the [DAPI_EXPECT] lines of
    [testing_spr2_batched_bad_arg] ask of [fn] in pointer mode
    [pointer_mode]. *)
Definition failures_expected {T : Type} `{Element T}
           (fn : call T -> rocblas_status) (pointer_mode : rocblas_pointer_mode) : Prop :=
  let handle := Some pointer_mode in
  let alpha := alpha_pointer pointer_mode in
  fn (Build_call None rocblas_fill_upper 100 alpha (Some dx) 1 (Some dy) 1 (Some dAp_1) 2)
  = rocblas_status_invalid_handle
  /\ fn (Build_call handle rocblas_fill_full 100 alpha (Some dx) 1 (Some dy) 1 (Some dAp_1) 2)
     = rocblas_status_invalid_value
  /\ fn (Build_call handle rocblas_fill_upper 100 None (Some dx) 1 (Some dy) 1 (Some dAp_1) 2)
     = rocblas_status_invalid_pointer
  /\ (pointer_mode = rocblas_pointer_mode_host ->
      fn (Build_call handle rocblas_fill_upper 100 alpha None 1 (Some dy) 1 (Some dAp_1) 2)
      = rocblas_status_invalid_pointer
      /\ fn (Build_call handle rocblas_fill_upper 100 alpha (Some dx) 1 None 1 (Some dAp_1) 2)
         = rocblas_status_invalid_pointer
      /\ fn (Build_call handle rocblas_fill_upper 100 alpha (Some dx) 1 (Some dy) 1 None 2)
         = rocblas_status_invalid_pointer).

(** The statuses that the [DAPI_CHECK] lines of
    [testing_spr2_batched_bad_arg] ask of [fn] in pointer mode
    [pointer_mode]: [N == 0], [batch_count == 0] and [alpha == 0], each with
    all data pointers null. *)
Definition quick_returns_expected {T : Type} `{Element T}
           (fn : call T -> rocblas_status) (pointer_mode : rocblas_pointer_mode) : Prop :=
  let handle := Some pointer_mode in
  fn (Build_call handle rocblas_fill_upper 0 None None 1 None 1 None 2)
  = rocblas_status_success
  /\ fn (Build_call handle rocblas_fill_upper 100 None None 1 None 1 None 0)
     = rocblas_status_success
  /\ fn (Build_call handle rocblas_fill_upper 100 (zero_pointer pointer_mode) None 1 None 1
           None 2)
     = rocblas_status_success.

(** *** Inputs used as examples *)

(** A runtime in which every call succeeds, around a function under test. *)
Definition example_runtime {T : Type} (fn : call T -> rocblas_status) : runtime T :=
  Build_runtime fn
    (fun _ => rocblas_status_success)
    (fun _ _ => hipSuccess)
    (fun _ => hipSuccess)
    (fun n => n * (n + 1) / 2)
    rocblas_pointer_mode_host.

Definition example_launcher (c : call Z) : rocblas_status := rocblas_status_success.

End Spr2Batched.

(** ** The NRM2 client: [testing_nrm2.hpp] *)

(** The floating-point operations the NRM2 harness uses on results and
    tolerances.  They are kept abstract: nothing is assumed about rounding. *)
Class Floating (F : Type) : Type := Build_Floating {
  F_of_int : Z -> F;
  F_pow : F -> F -> F;
  F_mul : F -> F -> F;
  F_div : F -> F -> F;
  F_sub : F -> F -> F;
  F_abs : F -> F;
  F_opp : F -> F
}.

(** The integers as a stand-in, for examples. *)
#[export] Instance Floating_Z : Floating Z :=
  Build_Floating Z (fun k => k) Z.pow Z.mul Z.div Z.sub Z.abs Z.opp.

Module Nrm2.
Import Client.

(** The objects the harness passes by address; [rocblas_result_1] and
    [rocblas_result_2] are its local variables. *)
Inductive buffer : Set :=
| dx
| hx
| d_rocblas_result
| d_rocblas_result_2
| res
| rocblas_result_1
| rocblas_result_2.

(** The arguments of one call of [rocblas_nrm2]; [None] is [nullptr] and a
    handle is described by its pointer mode. *)
Record call : Type := Build_call {
  handle : option rocblas_pointer_mode;
  N : Z;
  x : option buffer;
  incx : Z;
  result : option buffer
}.

(** Modelled from the spec: the argument validation of [rocblas_nrm2],
    whose implementation is not among the sources.  The wrappers "validate
    handle/arguments" before they delegate to a launcher; the statuses are
    those the client harness expects: a null handle is
    [rocblas_status_invalid_handle]; [N <= 0] or [incx <= 0] is a quick
    return that stores zero; a null [x] or [result] is
    [rocblas_status_invalid_pointer]; what is left goes to the kernel
    launcher.  The second component is the value stored through [result],
    if any. *)
Definition rocblas_nrm2 {F : Type} `{Floating F}
           (launcher : call -> rocblas_status * option F) (c : call)
  : rocblas_status * option F :=
  match handle c with
  | None => (rocblas_status_invalid_handle, None)
  | Some _ =>
      if (N c <=? 0) || (incx c <=? 0) then
        match result c with
        | None => (rocblas_status_invalid_pointer, None)
        | Some _ => (rocblas_status_success, Some (F_of_int 0))
        end
      else
        match x c, result c with
        | Some _, Some _ => launcher c
        | _, _ => (rocblas_status_invalid_pointer, None)
        end
  end.

(** The steps of the harness. *)
Inductive step (F : Type) : Type :=
| local_handle
| device_vector (b : buffer) (size : Z)
| host_vector (b : buffer) (size : Z)
| memcheck (b : buffer) (e : hipError_t)
| rocblas_set_pointer_mode (mode : rocblas_pointer_mode) (status : rocblas_status)
| api_call (c : call) (status : rocblas_status) (stored : option F)
| rocblas_seedrand
| rocblas_init (b : buffer) (M N lda : Z)
| hipMemcpy (dst src : buffer) (bytes : Z) (e : hipError_t)
| get_time_us_no_sync
| get_time_us_sync
| cblas_nrm2 (N : Z) (b : buffer) (incx : Z) (value : F)
| near_check_general (cpu gpu abs_error : F) (ok : bool)
| print_results (cpu gpu_host_ptr gpu_dev_ptr : F)
| rocblas_get_stream (status : rocblas_status)
| log_args (rocblas_error_1 rocblas_error_2 : F).
Arguments local_handle {F}.
Arguments device_vector {F}.
Arguments host_vector {F}.
Arguments memcheck {F}.
Arguments rocblas_set_pointer_mode {F}.
Arguments api_call {F}.
Arguments rocblas_seedrand {F}.
Arguments rocblas_init {F}.
Arguments hipMemcpy {F}.
Arguments get_time_us_no_sync {F}.
Arguments get_time_us_sync {F}.
Arguments cblas_nrm2 {F}.
Arguments near_check_general {F}.
Arguments print_results {F}.
Arguments rocblas_get_stream {F}.
Arguments log_args {F}.

(** What the harness gets from the library, the runtime and the reference
    BLAS: the function under test for either value of [FORTRAN], the results
    of the runtime calls, the reference result for the data that
    [rocblas_init] puts in [hx], the verdict of [near_check_general], the
    contents of variables that were never written, and the constants of the
    element type. *)
Record runtime (F : Type) : Type := Build_runtime {
  rocblas_nrm2_template : bool -> call -> rocblas_status * option F;
  set_pointer_mode_status : rocblas_pointer_mode -> rocblas_status;
  memcheck_status : buffer -> hipError_t;
  hipMemcpy_status : buffer -> buffer -> hipError_t;
  get_stream_status : rocblas_status;
  cblas_nrm2_value : Z -> Z -> F;
  near_check : F -> F -> F -> bool;
  uninitialized : F;
  sizeof_T : Z;
  sizeof_real_t : Z;
  digits10 : Z
}.
Arguments Build_runtime {F}.
Arguments rocblas_nrm2_template {F}.
Arguments set_pointer_mode_status {F}.
Arguments memcheck_status {F}.
Arguments hipMemcpy_status {F}.
Arguments get_stream_status {F}.
Arguments cblas_nrm2_value {F}.
Arguments near_check {F}.
Arguments uninitialized {F}.
Arguments sizeof_T {F}.
Arguments sizeof_real_t {F}.
Arguments digits10 {F}.

Record test_arguments : Type := Build_test_arguments {
  arg_fortran : bool;
  arg_N : Z;
  arg_incx : Z;
  arg_unit_check : bool;
  arg_norm_check : bool;
  arg_timing : bool;
  arg_cold_iters : Z;
  arg_iters : Z
}.

Section Harness.

Context {F : Type} `{Floating F}.
Variable R : runtime F.

Definition CHECK_ROCBLAS_ERROR_set_pointer_mode (mode : rocblas_pointer_mode)
  : test (step F) unit :=
  _ <- did (rocblas_set_pointer_mode mode (set_pointer_mode_status R mode)) ;;
  fatal (status_eqb (set_pointer_mode_status R mode) rocblas_status_success).

Definition CHECK_HIP_ERROR_hipMemcpy (dst src : buffer) (bytes : Z) : test (step F) unit :=
  _ <- did (hipMemcpy dst src bytes (hipMemcpy_status R dst src)) ;;
  fatal (hip_ok (hipMemcpy_status R dst src)).

Definition CHECK_memcheck (b : buffer) : test (step F) unit :=
  _ <- did (memcheck b (memcheck_status R b)) ;;
  fatal (hip_ok (memcheck_status R b)).

(** A call of the function under test; the value is what the result object
    holds afterwards. *)
Definition rocblas_nrm2_fn (FORTRAN : bool) (c : call) : test (step F) (rocblas_status * F) :=
  let returned := rocblas_nrm2_template R FORTRAN c in
  _ <- did (api_call c (fst returned) (snd returned)) ;;
  ret (fst returned,
       match snd returned with
       | Some v => v
       | None => uninitialized R
       end).

Definition EXPECT_ROCBLAS_STATUS (FORTRAN : bool) (c : call) (expected : rocblas_status)
  : test (step F) F :=
  r <- rocblas_nrm2_fn FORTRAN c ;;
  _ <- fatal (status_eqb (fst r) expected) ;;
  ret (snd r).

Definition CHECK_ROCBLAS_ERROR (FORTRAN : bool) (c : call) : test (step F) F :=
  EXPECT_ROCBLAS_STATUS FORTRAN c rocblas_status_success.

(** [testing_nrm2_bad_arg<T>]. *)
Definition testing_nrm2_bad_arg (arg : test_arguments) : test (step F) unit :=
  let FORTRAN := arg_fortran arg in
  let N := 100 in
  let incx := 1 in
  let safe_size := 100 in
  _ <- did local_handle ;;
  _ <- did (device_vector dx safe_size) ;;
  _ <- did (device_vector d_rocblas_result 1) ;;
  _ <- CHECK_memcheck dx ;;
  _ <- CHECK_memcheck d_rocblas_result ;;
  _ <- CHECK_ROCBLAS_ERROR_set_pointer_mode rocblas_pointer_mode_device ;;
  let handle := Some rocblas_pointer_mode_device in
  _ <- EXPECT_ROCBLAS_STATUS FORTRAN (Build_call handle N None incx (Some d_rocblas_result))
         rocblas_status_invalid_pointer ;;
  _ <- EXPECT_ROCBLAS_STATUS FORTRAN (Build_call handle N (Some dx) incx None)
         rocblas_status_invalid_pointer ;;
  _ <- EXPECT_ROCBLAS_STATUS FORTRAN (Build_call None N (Some dx) incx (Some d_rocblas_result))
         rocblas_status_invalid_handle ;;
  ret tt.

(** The tolerance of the unit check:
    [pow(10.0, -(digits10 / 2.0)) * cpu_result], then [abs_error *= 2.0]. *)
Definition abs_error_of (cpu_result : F) : F :=
  let abs_error :=
    F_mul (F_pow (F_of_int 10) (F_opp (F_div (F_of_int (digits10 R)) (F_of_int 2))))
          cpu_result in
  let tolerance := F_of_int 2 in
  F_mul abs_error tolerance.

(** [testing_nrm2<T>]. *)
Definition testing_nrm2 (arg : test_arguments) : test (step F) unit :=
  let FORTRAN := arg_fortran arg in
  let N := arg_N arg in
  let incx := arg_incx arg in
  _ <- did local_handle ;;
  if (N <=? 0) || (incx <=? 0) then
    _ <- did (host_vector res 1) ;;
    _ <- CHECK_memcheck res ;;
    _ <- CHECK_ROCBLAS_ERROR_set_pointer_mode rocblas_pointer_mode_host ;;
    _ <- CHECK_ROCBLAS_ERROR FORTRAN
           (Build_call (Some rocblas_pointer_mode_host) N None incx (Some res)) ;;
    ret tt
  else
    let size_x := to_size_t (N * to_size_t incx) in
    _ <- did (device_vector dx size_x) ;;
    _ <- did (device_vector d_rocblas_result_2 1) ;;
    _ <- CHECK_memcheck dx ;;
    _ <- CHECK_memcheck d_rocblas_result_2 ;;
    _ <- did (host_vector hx size_x) ;;
    _ <- did rocblas_seedrand ;;
    _ <- did (rocblas_init hx 1 N incx) ;;
    _ <- CHECK_HIP_ERROR_hipMemcpy dx hx (to_size_t (to_size_t (sizeof_T R * N) * incx)) ;;
    errors <-
      (if arg_unit_check arg || arg_norm_check arg then
         _ <- CHECK_ROCBLAS_ERROR_set_pointer_mode rocblas_pointer_mode_host ;;
         result_1 <- CHECK_ROCBLAS_ERROR FORTRAN
                       (Build_call (Some rocblas_pointer_mode_host) N (Some dx) incx
                          (Some rocblas_result_1)) ;;
         _ <- CHECK_ROCBLAS_ERROR_set_pointer_mode rocblas_pointer_mode_device ;;
         result_2 <- CHECK_ROCBLAS_ERROR FORTRAN
                       (Build_call (Some rocblas_pointer_mode_device) N (Some dx) incx
                          (Some d_rocblas_result_2)) ;;
         _ <- CHECK_HIP_ERROR_hipMemcpy rocblas_result_2 d_rocblas_result_2 (sizeof_real_t R) ;;
         _ <- did get_time_us_no_sync ;;
         let cpu_result := cblas_nrm2_value R N incx in
         _ <- did (cblas_nrm2 N hx incx cpu_result) ;;
         _ <- did get_time_us_no_sync ;;
         let abs_error := abs_error_of cpu_result in
         _ <- (if arg_unit_check arg then
                 _ <- did (near_check_general cpu_result result_1 abs_error
                             (near_check R cpu_result result_1 abs_error)) ;;
                 did (near_check_general cpu_result result_2 abs_error
                        (near_check R cpu_result result_2 abs_error))
               else ret tt) ;;
         (if arg_norm_check arg then
            _ <- did (print_results cpu_result result_1 result_2) ;;
            ret (F_abs (F_div (F_sub cpu_result result_1) cpu_result),
                 F_abs (F_div (F_sub cpu_result result_2) cpu_result))
          else ret (uninitialized R, uninitialized R))
       else ret (uninitialized R, uninitialized R)) ;;
    if arg_timing arg then
      let number_cold_calls := arg_cold_iters arg in
      let number_hot_calls := arg_iters arg in
      let timed_call :=
        Build_call (Some rocblas_pointer_mode_device) N (Some dx) incx (Some d_rocblas_result_2) in
      _ <- CHECK_ROCBLAS_ERROR_set_pointer_mode rocblas_pointer_mode_device ;;
      _ <- for_iter number_cold_calls (_ <- rocblas_nrm2_fn FORTRAN timed_call ;; ret tt) ;;
      _ <- did (rocblas_get_stream (get_stream_status R)) ;;
      _ <- fatal (status_eqb (get_stream_status R) rocblas_status_success) ;;
      _ <- did get_time_us_sync ;;
      _ <- for_iter number_hot_calls (_ <- rocblas_nrm2_fn FORTRAN timed_call ;; ret tt) ;;
      _ <- did get_time_us_sync ;;
      did (log_args (fst errors) (snd errors))
    else ret tt.

(** A step is in order unless it is a comparison that failed. *)
Definition step_ok (s : step F) : bool :=
  match s with
  | near_check_general _ _ _ ok => ok
  | _ => true
  end.

(** The test passes when no fatal check stopped it and no comparison
    failed. *)
Definition passed {X : Type} (t : test (step F) X) : bool :=
  finished t && forallb step_ok (fst t).

End Harness.

(** The statuses that the [EXPECT_ROCBLAS_STATUS] lines of
    [testing_nrm2_bad_arg] ask of [fn]. *)
Definition failures_expected {F : Type} (fn : call -> rocblas_status * option F) : Prop :=
  let handle := Some rocblas_pointer_mode_device in
  fst (fn (Build_call handle 100 None 1 (Some d_rocblas_result)))
  = rocblas_status_invalid_pointer
  /\ fst (fn (Build_call handle 100 (Some dx) 1 None)) = rocblas_status_invalid_pointer
  /\ fst (fn (Build_call None 100 (Some dx) 1 (Some d_rocblas_result)))
     = rocblas_status_invalid_handle.

(** The runtime calls of the harness succeed. *)
Definition runtime_succeeds {F : Type} (R : runtime F) : Prop :=
  (forall mode, set_pointer_mode_status R mode = rocblas_status_success)
  /\ (forall dst src, hipMemcpy_status R dst src = hipSuccess)
  /\ (forall b, memcheck_status R b = hipSuccess)
  /\ get_stream_status R = rocblas_status_success.

(** *** Inputs used as examples *)

(** A runtime in which every call succeeds, around a function under test;
    the reference result is [N * incx] and the comparison asks for
    [|cpu - gpu| <= abs_error]. *)
Definition example_runtime (fn : call -> rocblas_status * option Z) : runtime Z :=
  Build_runtime (fun _ => fn)
    (fun _ => rocblas_status_success)
    (fun _ => hipSuccess)
    (fun _ _ => hipSuccess)
    rocblas_status_success
    (fun N incx => N * incx)
    (fun cpu gpu abs_error => Z.abs (cpu - gpu) <=? abs_error)
    0 4 4 6.

Definition example_launcher (c : call) : rocblas_status * option Z :=
  (rocblas_status_success, Some (N c * incx c)).

End Nrm2.

(** ** The DOT client: [blas1/testing_dot.hpp] *)

Module Dot.
Import Client.

(** The objects the harness passes by address; [gpu_0] is a local
    variable. *)
Inductive buffer : Set :=
| dx
| dy
| d_rocblas_result
| h_rocblas_result
| gpu_0.

(** The arguments of one call of [rocblas_dot] or [rocblas_dotc]; [None] is
    [nullptr] and a handle is described by its pointer mode. *)
Record call : Type := Build_call {
  handle : option rocblas_pointer_mode;
  N : Z;
  x : option buffer;
  incx : Z;
  y : option buffer;
  incy : Z;
  result : option buffer
}.

(** Modelled from the spec: the argument validation of [rocblas_dot] and
    [rocblas_dotc] ([CONJ] tells them apart), whose implementation is not
    among the sources.  The wrappers "validate handle/arguments" before they
    delegate to a launcher; the statuses are those the client harness
    expects: a null handle is [rocblas_status_invalid_handle]; [N <= 0] is a
    quick return that stores zero through [result]; a null [x], [y] or
    [result] is [rocblas_status_invalid_pointer]; what is left goes to the
    kernel launcher.  The second component is the value stored through
    [result], if any. *)
Definition rocblas_dot {T : Type} `{Element T} (CONJ : bool)
           (launcher : bool -> call -> rocblas_status * option T) (c : call)
  : rocblas_status * option T :=
  match handle c with
  | None => (rocblas_status_invalid_handle, None)
  | Some _ =>
      if N c <=? 0 then
        match result c with
        | None => (rocblas_status_invalid_pointer, None)
        | Some _ => (rocblas_status_success, Some (T_of_int 0))
        end
      else
        match x c, y c, result c with
        | Some _, Some _, Some _ => launcher CONJ c
        | _, _, _ => (rocblas_status_invalid_pointer, None)
        end
  end.

(** The steps of the harness. *)
Inductive step (T : Type) : Type :=
| local_handle
| device_vector (b : buffer) (n inc : Z)
| host_vector (b : buffer) (n : Z)
| memcheck (b : buffer) (e : hipError_t)
| rocblas_set_pointer_mode (mode : rocblas_pointer_mode) (status : rocblas_status)
| api_call (c : call) (status : rocblas_status) (stored : option T)
| hipMemcpy (dst src : buffer) (e : hipError_t)
| unit_check_general (cpu gpu : T) (ok : bool).
Arguments local_handle {T}.
Arguments device_vector {T}.
Arguments host_vector {T}.
Arguments memcheck {T}.
Arguments rocblas_set_pointer_mode {T}.
Arguments api_call {T}.
Arguments hipMemcpy {T}.
Arguments unit_check_general {T}.

(** What the harness gets from the library and the runtime: the function
    under test for either value of [CONJ] and of [arg.api == FORTRAN], the
    results of the runtime calls, and the contents of memory that was never
    written. *)
Record runtime (T : Type) : Type := Build_runtime {
  rocblas_dot_template : bool -> bool -> call -> rocblas_status * option T;
  set_pointer_mode_status : rocblas_pointer_mode -> rocblas_status;
  memcheck_status : buffer -> hipError_t;
  hipMemcpy_status : buffer -> buffer -> hipError_t;
  uninitialized : buffer -> T
}.
Arguments Build_runtime {T}.
Arguments rocblas_dot_template {T}.
Arguments set_pointer_mode_status {T}.
Arguments memcheck_status {T}.
Arguments hipMemcpy_status {T}.
Arguments uninitialized {T}.

(** The arguments of the test that [testing_dot] reads before its early
    return. *)
Record test_arguments : Type := Build_test_arguments {
  arg_fortran : bool;
  arg_N : Z;
  arg_incx : Z;
  arg_incy : Z
}.

Section Harness.

Context {T : Type} `{Element T}.
Variable R : runtime T.

Definition CHECK_ROCBLAS_ERROR_set_pointer_mode (mode : rocblas_pointer_mode)
  : test (step T) unit :=
  _ <- did (rocblas_set_pointer_mode mode (set_pointer_mode_status R mode)) ;;
  fatal (status_eqb (set_pointer_mode_status R mode) rocblas_status_success).

Definition CHECK_HIP_ERROR_hipMemcpy (dst src : buffer) : test (step T) unit :=
  _ <- did (hipMemcpy dst src (hipMemcpy_status R dst src)) ;;
  fatal (hip_ok (hipMemcpy_status R dst src)).

Definition CHECK_memcheck (b : buffer) : test (step T) unit :=
  _ <- did (memcheck b (memcheck_status R b)) ;;
  fatal (hip_ok (memcheck_status R b)).

(** A checked call of the function under test; the value is what the
    call stored through [result], if anything. *)
Definition EXPECT_ROCBLAS_STATUS (CONJ FORTRAN : bool) (c : call) (expected : rocblas_status)
  : test (step T) (option T) :=
  let returned := rocblas_dot_template R CONJ FORTRAN c in
  _ <- did (api_call c (fst returned) (snd returned)) ;;
  _ <- fatal (status_eqb (fst returned) expected) ;;
  ret (snd returned).

Definition CHECK_ROCBLAS_ERROR (CONJ FORTRAN : bool) (c : call) : test (step T) (option T) :=
  EXPECT_ROCBLAS_STATUS CONJ FORTRAN c rocblas_status_success.

(** What [b] holds after a call that stored [after_call] there. *)
Definition contents (b : buffer) (after_call : option T) : T :=
  match after_call with
  | Some v => v
  | None => uninitialized R b
  end.

(** [testing_dot_bad_arg<T, CONJ>]. *)
Definition testing_dot_bad_arg (CONJ : bool) (arg : test_arguments) : test (step T) unit :=
  let FORTRAN := arg_fortran arg in
  for_each [rocblas_pointer_mode_host; rocblas_pointer_mode_device]
    (fun pointer_mode =>
       _ <- did local_handle ;;
       _ <- CHECK_ROCBLAS_ERROR_set_pointer_mode pointer_mode ;;
       let handle := Some pointer_mode in
       let N := 100 in
       let incx := 1 in
       let incy := 1 in
       _ <- did (device_vector dx N incx) ;;
       _ <- did (device_vector dy N incy) ;;
       _ <- did (device_vector d_rocblas_result 1 1) ;;
       _ <- CHECK_memcheck dx ;;
       _ <- CHECK_memcheck dy ;;
       _ <- CHECK_memcheck d_rocblas_result ;;
       _ <- EXPECT_ROCBLAS_STATUS CONJ FORTRAN
              (Build_call None N (Some dx) incx (Some dy) incy (Some d_rocblas_result))
              rocblas_status_invalid_handle ;;
       _ <- EXPECT_ROCBLAS_STATUS CONJ FORTRAN
              (Build_call handle N None incx (Some dy) incy (Some d_rocblas_result))
              rocblas_status_invalid_pointer ;;
       _ <- EXPECT_ROCBLAS_STATUS CONJ FORTRAN
              (Build_call handle N (Some dx) incx None incy (Some d_rocblas_result))
              rocblas_status_invalid_pointer ;;
       _ <- EXPECT_ROCBLAS_STATUS CONJ FORTRAN
              (Build_call handle N (Some dx) incx (Some dy) incy None)
              rocblas_status_invalid_pointer ;;
       ret tt).

Definition testing_dotc_bad_arg (arg : test_arguments) : test (step T) unit :=
  testing_dot_bad_arg true arg.

(** [testing_dot<T, CONJ>], up to the end of its early exit.  What follows
    (allocation, initialisation, the GPU and CPU runs and their comparison,
    timing) is the parameter [numerical_test]. *)
Definition testing_dot (CONJ : bool) (arg : test_arguments)
           (numerical_test : test (step T) unit) : test (step T) unit :=
  let FORTRAN := arg_fortran arg in
  let N := arg_N arg in
  let incx := arg_incx arg in
  let incy := arg_incy arg in
  _ <- did local_handle ;;
  if N <=? 0 then
    _ <- did (device_vector d_rocblas_result 1 1) ;;
    _ <- CHECK_memcheck d_rocblas_result ;;
    _ <- did (host_vector h_rocblas_result 1) ;;
    _ <- CHECK_memcheck h_rocblas_result ;;
    _ <- CHECK_ROCBLAS_ERROR_set_pointer_mode rocblas_pointer_mode_device ;;
    on_device <- CHECK_ROCBLAS_ERROR CONJ FORTRAN
                   (Build_call (Some rocblas_pointer_mode_device) N None incx None incy
                      (Some d_rocblas_result)) ;;
    _ <- CHECK_ROCBLAS_ERROR_set_pointer_mode rocblas_pointer_mode_host ;;
    on_host <- CHECK_ROCBLAS_ERROR CONJ FORTRAN
                 (Build_call (Some rocblas_pointer_mode_host) N None incx None incy
                    (Some h_rocblas_result)) ;;
    let cpu_0 := T_of_int 0 in
    _ <- CHECK_HIP_ERROR_hipMemcpy gpu_0 d_rocblas_result ;;
    let gpu_0 := contents d_rocblas_result on_device in
    let gpu_1 := contents h_rocblas_result on_host in
    _ <- did (unit_check_general cpu_0 gpu_0 (T_unit_check cpu_0 gpu_0)) ;;
    _ <- did (unit_check_general cpu_0 gpu_1 (T_unit_check cpu_0 gpu_1)) ;;
    ret tt
  else numerical_test.

Definition testing_dotc (arg : test_arguments) (numerical_test : test (step T) unit)
  : test (step T) unit :=
  testing_dot true arg numerical_test.

(** A step is in order unless it is a comparison that failed. *)
Definition step_ok (s : step T) : bool :=
  match s with
  | unit_check_general _ _ ok => ok
  | _ => true
  end.

(** The test passes when no fatal check stopped it and no comparison
    failed. *)
Definition passed {X : Type} (t : test (step T) X) : bool :=
  finished t && forallb step_ok (fst t).

End Harness.

(** The statuses that the [EXPECT_ROCBLAS_STATUS] lines of
    [testing_dot_bad_arg] ask of [fn] in pointer mode [pointer_mode]. *)
Definition failures_expected {T : Type}
           (fn : call -> rocblas_status * option T) (pointer_mode : rocblas_pointer_mode)
  : Prop :=
  let handle := Some pointer_mode in
  fst (fn (Build_call None 100 (Some dx) 1 (Some dy) 1 (Some d_rocblas_result)))
  = rocblas_status_invalid_handle
  /\ fst (fn (Build_call handle 100 None 1 (Some dy) 1 (Some d_rocblas_result)))
     = rocblas_status_invalid_pointer
  /\ fst (fn (Build_call handle 100 (Some dx) 1 None 1 (Some d_rocblas_result)))
     = rocblas_status_invalid_pointer
  /\ fst (fn (Build_call handle 100 (Some dx) 1 (Some dy) 1 None))
     = rocblas_status_invalid_pointer.

(** The runtime calls of the harness succeed. *)
Definition runtime_succeeds {T : Type} (R : runtime T) : Prop :=
  (forall mode, set_pointer_mode_status R mode = rocblas_status_success)
  /\ (forall dst src, hipMemcpy_status R dst src = hipSuccess)
  /\ (forall b, memcheck_status R b = hipSuccess).

(** *** Inputs used as examples *)

(** A runtime in which every call succeeds, around a function under test;
    memory that was never written holds 77. *)
Definition example_runtime (fn : bool -> call -> rocblas_status * option Z) : runtime Z :=
  Build_runtime (fun CONJ _ => fn CONJ)
    (fun _ => rocblas_status_success)
    (fun _ => hipSuccess)
    (fun _ _ => hipSuccess)
    (fun _ => 77).

Definition example_launcher (CONJ : bool) (c : call) : rocblas_status * option Z :=
  (rocblas_status_success, Some (N c)).

End Dot.

(** ** The 64-bit HPMV launcher: what a run leaves behind *)

Module Hpmv64Trace.
Import Hpmv64.

(** The number of batches handed to the 32-bit launcher by a list of
    calls: the sum of their batch counts. *)
Definition batches_launched {TScal : Type}
           (made : list (hpmv_call TScal * rocblas_status)) : Z :=
  fold_right (fun launched total => call_batch_count (fst launched) + total) 0 made.

(** The call of the 32-bit launcher with the arguments of the 64-bit one. *)
Definition same_call {TScal : Type} (a : hpmv_args_64 TScal) : hpmv_call TScal :=
  Build_hpmv_call (uplo a) (n_64 a) (alpha a)
    (AP a) (offseta a) (strideA a)
    (x a) (offsetx a) (incx_64 a) (stridex a)
    (beta a)
    (y a) (offsety a) (incy_64 a) (stridey a)
    (batch_count_64 a).

(** [launched_from launcher h made h'] says that the calls [made] are made
    one after the other from the state [h]: each recorded status is the one
    the launcher returns in the state the call before it left, and [h'] is
    the state the last call leaves. *)
Fixpoint launched_from {TScal H : Type}
         (launcher : hpmv_call TScal -> H -> rocblas_status * H)
         (h : H) (made : list (hpmv_call TScal * rocblas_status)) (h' : H) : Prop :=
  match made with
  | [] => h' = h
  | (c, status) :: rest =>
      fst (launcher c h) = status
      /\ launched_from launcher (snd (launcher c h)) rest h'
  end.

(** A launcher that counts its calls and rejects every call. *)
Definition rejecting_launcher (c : hpmv_call unit) (h : nat) : rocblas_status * nat :=
  (rocblas_status_memory_error, Datatypes.S h).

End Hpmv64Trace.

(** ** Strided-batched TRTRI: the calls of a run *)

Module TrtriCalls.
Import Trtri.

(** [raises L h ev e]: the library call recorded as [ev], made with the
    handle [h], throws [e]. *)
Definition raises (L : library) (h : _rocblas_handle) (ev : event) (e : cxx_exception)
  : Prop :=
  match ev with
  | call_set_optimal_device_memory_size size =>
      set_optimal_device_memory_size L h size = thrown e
  | call_log_trace name a => log_trace L h name a = thrown e
  | call_log_profile name a => log_profile L h name a = thrown e
  | call_rocblas_trtri_arg_check a => rocblas_trtri_arg_check L h a = thrown e
  | call_device_malloc size => device_malloc L h size = thrown e
  | call_rocblas_trtri_small NB T k => rocblas_trtri_small L NB T h k = thrown e
  | call_rocblas_trtri_large NB T k w => rocblas_trtri_large L NB T h k w = thrown e
  end.

(** A logging call, if [ev] is one, is made under the name [name] and with
    the arguments [a]. *)
Definition logs_as (name : string) (a : trtri_args) (ev : event) : Prop :=
  match ev with
  | call_log_trace name' a' => name' = name /\ a' = a
  | call_log_profile name' a' => name' = name /\ a' = a
  | _ => True
  end.

(** *** Inputs used as examples *)

(** The example library with a [device_malloc] that throws. *)
Definition out_of_memory_library : library :=
  Build_library 1 4
    (fun NB n batch_count => n * n * batch_count)
    (fun _ _ => returned rocblas_status_success)
    (fun _ _ _ => returned tt)
    (fun _ _ _ => returned tt)
    (fun _ _ => returned rocblas_status_continue)
    (fun _ _ => thrown (exception 7))
    (fun _ _ _ _ => returned rocblas_status_success)
    (fun _ _ _ _ _ => returned rocblas_status_success)
    (fun _ => rocblas_status_memory_error).

(** The example library with an argument check that finds [invA] null. *)
Definition checking_library : library :=
  Build_library 1 4
    (fun NB n batch_count => n * n * batch_count)
    (fun _ _ => returned rocblas_status_success)
    (fun _ _ _ => returned tt)
    (fun _ _ _ => returned tt)
    (fun _ a => returned (match invA a with
                          | None => rocblas_status_invalid_pointer
                          | Some _ => rocblas_status_continue
                          end))
    (fun _ _ => returned (Some 4096))
    (fun _ _ _ _ => returned rocblas_status_success)
    (fun _ _ _ _ _ => returned rocblas_status_success)
    (fun _ => rocblas_status_internal_error).

(** The example library with a small-matrix kernel that returns [status]. *)
Definition library_returning (status : rocblas_status) : library :=
  Build_library 1 4
    (fun NB n batch_count => n * n * batch_count)
    (fun _ _ => returned rocblas_status_success)
    (fun _ _ _ => returned tt)
    (fun _ _ _ => returned tt)
    (fun _ _ => returned rocblas_status_continue)
    (fun _ _ => returned (Some 4096))
    (fun _ _ _ _ => returned status)
    (fun _ _ _ _ _ => returned rocblas_status_success)
    (fun _ => rocblas_status_internal_error).

(** Arguments without a result matrix. *)
Definition null_invA_args (n batch_count : Z) : trtri_args :=
  Build_trtri_args rocblas_fill_upper rocblas_diagonal_non_unit n
    (Some 1024) n (n * n) None n (n * n) batch_count.

End TrtriCalls.

(** ** The NRM2 client: the calls of a run *)

Module Nrm2Calls.
Import Client Nrm2.

(** The calls of the function under test in a list of steps, oldest
    first. *)
Definition api_calls {F : Type} (t : list (step F)) : list call :=
  flat_map (fun s => match s with
                     | api_call c _ _ => [c]
                     | _ => []
                     end) t.

(** What a step that allocates [dx] or [hx], or copies [hx] to [dx], has
    to say when the vector has [elements] elements of [bytes_per_element]
    bytes each. *)
Definition moves_whole_vector {F : Type} (elements bytes_per_element : Z) (s : step F)
  : Prop :=
  match s with
  | device_vector dx size => size = elements
  | host_vector hx size => size = elements
  | hipMemcpy dx hx bytes _ => bytes = bytes_per_element * elements
  | _ => True
  end.

(** A function under test that fails every call. *)
Definition failing_launcher (c : call) : rocblas_status * option Z :=
  (rocblas_status_internal_error, None).

End Nrm2Calls.

(** ** The numerical tests of the clients *)

(** The NaN policies and matrix types that the clients hand to
    [rocblas_init_vector] and [rocblas_init_matrix] (rocblas_init.hpp). *)
Inductive rocblas_check_nan_init : Set :=
| rocblas_client_never_set_nan
| rocblas_client_alpha_sets_nan
| rocblas_client_beta_sets_nan.

Inductive rocblas_check_matrix_type : Set :=
| rocblas_client_general_matrix
| rocblas_client_hermitian_matrix
| rocblas_client_symmetric_matrix
| rocblas_client_triangular_matrix
| rocblas_client_diagonally_dominant_triangular_matrix.

(** *** The DOT client after its early exit: [blas1/testing_dot.hpp] *)

Module DotNumerical.
Import Client.

(** The objects the numerical test passes by address; [rocblas_result_1]
    and [rocblas_result_2] are local variables. *)
Inductive buffer : Set :=
| hx
| hy
| dx
| dy
| d_rocblas_result_2
| rocblas_result_1
| rocblas_result_2.

(** The values of [arg.api] (rocblas_arguments.hpp). *)
Inductive rocblas_client_api : Set :=
| C
| C_64
| FORTRAN
| FORTRAN_64
| INTERNAL
| INTERNAL_64.

Definition api_eqb (a b : rocblas_client_api) : bool :=
  match a, b with
  | C, C | C_64, C_64 | FORTRAN, FORTRAN | FORTRAN_64, FORTRAN_64
  | INTERNAL, INTERNAL | INTERNAL_64, INTERNAL_64 => true
  | _, _ => false
  end.

(** The arguments of one call of [rocblas_dot] or [rocblas_dotc]; a handle
    is described by its pointer mode. *)
Record call : Type := Build_call {
  handle : rocblas_pointer_mode;
  N : Z;
  x : buffer;
  incx : Z;
  y : buffer;
  incy : Z;
  result : buffer
}.

(** The arguments of one call of [rocblas_internal_dot_template]: a vector
    is given by its buffer and the number of elements the pointer was moved
    forward; the last argument, the workspace, is [nullptr]. *)
Record internal_call : Type := Build_internal_call {
  i_handle : rocblas_pointer_mode;
  i_n : Z;
  i_x : buffer * Z;
  i_shiftx : Z;
  i_incx : Z;
  i_stridex : Z;
  i_y : buffer * Z;
  i_shifty : Z;
  i_incy : Z;
  i_stridey : Z;
  i_batch_count : Z;
  i_results : buffer;
  i_workspace : option buffer
}.

(** The steps of the numerical test; [T] is the element type and [D] is
    [double].  [rocblas_init_vector] records the arguments that follow [arg]
    in the call. *)
Inductive step (T D : Type) : Type :=
| host_vector (b : buffer) (n inc : Z)
| device_vector (b : buffer) (n inc : Z) (HMM : bool)
| memcheck (b : buffer) (e : hipError_t)
| rocblas_init_vector (b : buffer) (nan_init : rocblas_check_nan_init) (flags : list bool)
| transfer_from (dst src : buffer) (e : hipError_t)
| rocblas_set_pointer_mode (mode : rocblas_pointer_mode) (status : rocblas_status)
| pre_test
| post_test
| api_call (c : call) (status : rocblas_status) (stored : option T)
| internal_api_call (c : internal_call) (status : rocblas_status) (stored : option T)
| get_time_us_no_sync
| cblas_dot (CONJ : bool) (N : Z) (x : buffer) (incx : Z) (y : buffer) (incy : Z) (value : T)
| near_check_general (cpu gpu : T) (tol : D) (ok : bool)
| unit_check_general (cpu gpu : T) (ok : bool)
| hipMemcpy (dst src : buffer) (e : hipError_t)
| rocblas_get_stream (status : rocblas_status)
| get_time_us_sync
| log_args (rocblas_error_1 rocblas_error_2 : D).
Arguments host_vector {T D}.
Arguments device_vector {T D}.
Arguments memcheck {T D}.
Arguments rocblas_init_vector {T D}.
Arguments transfer_from {T D}.
Arguments rocblas_set_pointer_mode {T D}.
Arguments pre_test {T D}.
Arguments post_test {T D}.
Arguments api_call {T D}.
Arguments internal_api_call {T D}.
Arguments get_time_us_no_sync {T D}.
Arguments cblas_dot {T D}.
Arguments near_check_general {T D}.
Arguments unit_check_general {T D}.
Arguments hipMemcpy {T D}.
Arguments rocblas_get_stream {T D}.
Arguments get_time_us_sync {T D}.
Arguments log_args {T D}.

(** What the numerical test gets from the library, the runtime and the
    reference BLAS: the function under test for either value of [CONJ] and
    of [arg.api == FORTRAN], the internal template, the results of the
    runtime calls, the reference result for the data that
    [rocblas_init_vector] puts in the host vectors, the verdict of
    [near_check_general], the contents of memory and of variables that were
    never written, what [std::is_same_v] says of the element type, and the
    arithmetic of the error [double(rocblas_abs((cpu - gpu) / cpu))]. *)
Record runtime (T D : Type) : Type := Build_runtime {
  rocblas_dot_template : bool -> bool -> call -> rocblas_status * option T;
  rocblas_internal_dot_template : internal_call -> rocblas_status * option T;
  set_pointer_mode_status : rocblas_pointer_mode -> rocblas_status;
  memcheck_status : buffer -> hipError_t;
  transfer_status : buffer -> buffer -> hipError_t;
  hipMemcpy_status : buffer -> buffer -> hipError_t;
  get_stream_status : rocblas_status;
  cblas_dot_value : bool -> Z -> Z -> buffer -> Z -> T;
  near_check : T -> T -> D -> bool;
  uninitialized : buffer -> T;
  uninitialized_double : D;
  T_is_rocblas_half : bool;
  T_is_float : bool;
  sum_error_tolerance : D;
  T_sub : T -> T -> T;
  T_div : T -> T -> T;
  rocblas_abs : T -> D
}.
Arguments Build_runtime {T D}.
Arguments rocblas_dot_template {T D}.
Arguments rocblas_internal_dot_template {T D}.
Arguments set_pointer_mode_status {T D}.
Arguments memcheck_status {T D}.
Arguments transfer_status {T D}.
Arguments hipMemcpy_status {T D}.
Arguments get_stream_status {T D}.
Arguments cblas_dot_value {T D}.
Arguments near_check {T D}.
Arguments uninitialized {T D}.
Arguments uninitialized_double {T D}.
Arguments T_is_rocblas_half {T D}.
Arguments T_is_float {T D}.
Arguments sum_error_tolerance {T D}.
Arguments T_sub {T D}.
Arguments T_div {T D}.
Arguments rocblas_abs {T D}.

(** The fields of [Arguments] that the numerical test reads; [arg_algo]
    is [arg.algo] as the truth value the conditions take it for. *)
Record test_arguments : Type := Build_test_arguments {
  arg_api : rocblas_client_api;
  arg_N : Z;
  arg_incx : Z;
  arg_incy : Z;
  arg_HMM : bool;
  arg_algo : bool;
  arg_unit_check : bool;
  arg_norm_check : bool;
  arg_pointer_mode_host : bool;
  arg_pointer_mode_device : bool;
  arg_timing : bool;
  arg_cold_iters : Z;
  arg_iters : Z;
  arg_lda : Z;
  arg_ldb : Z;
  arg_stride_x : Z;
  arg_stride_y : Z
}.

Section Harness.

Context {T D : Type} `{Element T} `{Floating D}.
Variable R : runtime T D.

Definition CHECK_ROCBLAS_ERROR_set_pointer_mode (mode : rocblas_pointer_mode)
  : test (step T D) unit :=
  _ <- did (rocblas_set_pointer_mode mode (set_pointer_mode_status R mode)) ;;
  fatal (status_eqb (set_pointer_mode_status R mode) rocblas_status_success).

Definition CHECK_DEVICE_ALLOCATION (b : buffer) : test (step T D) unit :=
  _ <- did (memcheck b (memcheck_status R b)) ;;
  fatal (hip_ok (memcheck_status R b)).

Definition CHECK_HIP_ERROR_transfer_from (dst src : buffer) : test (step T D) unit :=
  _ <- did (transfer_from dst src (transfer_status R dst src)) ;;
  fatal (hip_ok (transfer_status R dst src)).

Definition CHECK_HIP_ERROR_hipMemcpy (dst src : buffer) : test (step T D) unit :=
  _ <- did (hipMemcpy dst src (hipMemcpy_status R dst src)) ;;
  fatal (hip_ok (hipMemcpy_status R dst src)).

(** A call of the function under test whose status is not looked at. *)
Definition rocblas_dot_fn (CONJ FORTRAN : bool) (c : call)
  : test (step T D) (rocblas_status * option T) :=
  let returned := rocblas_dot_template R CONJ FORTRAN c in
  _ <- did (api_call c (fst returned) (snd returned)) ;;
  ret returned.

(** A checked call; the value is what the call stored through its result
    pointer, if anything. *)
Definition CHECK_ROCBLAS_ERROR (CONJ FORTRAN : bool) (c : call)
  : test (step T D) (option T) :=
  returned <- rocblas_dot_fn CONJ FORTRAN c ;;
  _ <- fatal (status_eqb (fst returned) rocblas_status_success) ;;
  ret (snd returned).

Definition CHECK_ROCBLAS_ERROR_internal (c : internal_call) : test (step T D) (option T) :=
  let returned := rocblas_internal_dot_template R c in
  _ <- did (internal_api_call c (fst returned) (snd returned)) ;;
  _ <- fatal (status_eqb (fst returned) rocblas_status_success) ;;
  ret (snd returned).

(** What [b] holds after a call that stored [after_call] there. *)
Definition contents (b : buffer) (after_call : option T) : T :=
  match after_call with
  | Some v => v
  | None => uninitialized R b
  end.

(** [double(rocblas_abs((cpu_result - gpu_result) / cpu_result))]. *)
Definition relative_error (cpu_result gpu_result : T) : D :=
  rocblas_abs R (T_div R (T_sub R cpu_result gpu_result) cpu_result).

(** The comparison of a GPU result with the reference under [unit_check]:
    for [rocblas_half] and [N > 10000] a [near_check_general] with the
    tolerance [N * sum_error_tolerance<T>], otherwise a
    [unit_check_general]. *)
Definition check_result (N : Z) (cpu_result gpu_result : T) : test (step T D) unit :=
  if T_is_rocblas_half R && (N >? 10000) then
    let tol := F_mul (F_of_int N) (sum_error_tolerance R) in
    did (near_check_general cpu_result gpu_result tol
           (near_check R cpu_result gpu_result tol))
  else
    did (unit_check_general cpu_result gpu_result (T_unit_check cpu_result gpu_result)).

(** [testing_dot<T, CONJ>] after its early exit: the code that runs for
    [N > 0], from the allocation of the host vectors to the end. *)
Definition testing_dot_numerical (CONJ : bool) (arg : test_arguments) : test (step T D) unit :=
  let FORTRAN_api := api_eqb (arg_api arg) FORTRAN in
  let N := arg_N arg in
  let incx := arg_incx arg in
  let incy := arg_incy arg in
  let HMM := arg_HMM arg in
  _ <- did (host_vector hx N incx) ;;
  _ <- did (host_vector hy N incy) ;;
  _ <- did (device_vector dx N incx HMM) ;;
  _ <- did (device_vector dy N incy HMM) ;;
  _ <- did (device_vector d_rocblas_result_2 1 1 HMM) ;;
  _ <- CHECK_DEVICE_ALLOCATION dx ;;
  _ <- CHECK_DEVICE_ALLOCATION dy ;;
  _ <- CHECK_DEVICE_ALLOCATION d_rocblas_result_2 ;;
  _ <- did (rocblas_init_vector hx rocblas_client_alpha_sets_nan [true]) ;;
  _ <- did (rocblas_init_vector hy rocblas_client_alpha_sets_nan [false; true]) ;;
  _ <- CHECK_HIP_ERROR_transfer_from dx hx ;;
  _ <- CHECK_HIP_ERROR_transfer_from dy hy ;;
  let dy_ptr := if arg_algo arg then dx else dy in
  let hy_ptr := if arg_algo arg then hx else hy in
  let incy := if arg_algo arg then incx else incy in
  errors <-
    (if arg_unit_check arg || arg_norm_check arg then
       result_1 <-
         (if arg_pointer_mode_host arg then
            _ <- CHECK_ROCBLAS_ERROR_set_pointer_mode rocblas_pointer_mode_host ;;
            stored <- CHECK_ROCBLAS_ERROR CONJ FORTRAN_api
                        (Build_call rocblas_pointer_mode_host N dx incx dy_ptr incy
                           rocblas_result_1) ;;
            ret (contents rocblas_result_1 stored)
          else ret (uninitialized R rocblas_result_1)) ;;
       on_device <-
         (if arg_pointer_mode_device arg then
            _ <- CHECK_ROCBLAS_ERROR_set_pointer_mode rocblas_pointer_mode_device ;;
            _ <- did pre_test ;;
            stored <-
              (if negb (api_eqb (arg_api arg) INTERNAL) then
                 CHECK_ROCBLAS_ERROR CONJ FORTRAN_api
                   (Build_call rocblas_pointer_mode_device N dx incx dy_ptr incy
                      d_rocblas_result_2)
               else if T_is_float R then
                 let offset_x := arg_lda arg in
                 let offset_y := arg_ldb arg in
                 CHECK_ROCBLAS_ERROR_internal
                   (Build_internal_call rocblas_pointer_mode_device N
                      (dx, offset_x) (- offset_x) incx (arg_stride_x arg)
                      (dy_ptr, offset_y) (- offset_y) incy (arg_stride_y arg)
                      1 d_rocblas_result_2 None)
               else ret None) ;;
            _ <- did post_test ;;
            ret (contents d_rocblas_result_2 stored)
          else ret (uninitialized R d_rocblas_result_2)) ;;
       _ <- did get_time_us_no_sync ;;
       let cpu_result := cblas_dot_value R CONJ N incx hy_ptr incy in
       _ <- did (cblas_dot CONJ N hx incx hy_ptr incy cpu_result) ;;
       _ <- did get_time_us_no_sync ;;
       rocblas_error_1 <-
         (if arg_pointer_mode_host arg then
            _ <- (if arg_unit_check arg then check_result N cpu_result result_1
                  else ret tt) ;;
            ret (if arg_norm_check arg then relative_error cpu_result result_1
                 else uninitialized_double R)
          else ret (uninitialized_double R)) ;;
       rocblas_error_2 <-
         (if arg_pointer_mode_device arg then
            _ <- CHECK_HIP_ERROR_hipMemcpy rocblas_result_2 d_rocblas_result_2 ;;
            let result_2 := on_device in
            _ <- (if arg_unit_check arg then check_result N cpu_result result_2
                  else ret tt) ;;
            ret (if arg_norm_check arg then relative_error cpu_result result_2
                 else uninitialized_double R)
          else ret (uninitialized_double R)) ;;
       ret (rocblas_error_1, rocblas_error_2)
     else ret (uninitialized_double R, uninitialized_double R)) ;;
  if arg_timing arg then
    let number_cold_calls := arg_cold_iters arg in
    let number_hot_calls := arg_iters arg in
    let timed_call :=
      Build_call rocblas_pointer_mode_device N dx incx dy_ptr incy d_rocblas_result_2 in
    _ <- CHECK_ROCBLAS_ERROR_set_pointer_mode rocblas_pointer_mode_device ;;
    _ <- for_iter number_cold_calls (_ <- rocblas_dot_fn CONJ FORTRAN_api timed_call ;; ret tt) ;;
    _ <- did (rocblas_get_stream (get_stream_status R)) ;;
    _ <- fatal (status_eqb (get_stream_status R) rocblas_status_success) ;;
    _ <- did get_time_us_sync ;;
    _ <- for_iter number_hot_calls (_ <- rocblas_dot_fn CONJ FORTRAN_api timed_call ;; ret tt) ;;
    _ <- did get_time_us_sync ;;
    did (log_args (fst errors) (snd errors))
  else ret tt.

(** [testing_dotc<T>] after the early exit. *)
Definition testing_dotc_numerical (arg : test_arguments) : test (step T D) unit :=
  testing_dot_numerical true arg.

(** A step is in order unless it is a comparison that failed. *)
Definition step_ok (s : step T D) : bool :=
  match s with
  | near_check_general _ _ _ ok => ok
  | unit_check_general _ _ ok => ok
  | _ => true
  end.

(** The test passes when no fatal check stopped it and no comparison
    failed. *)
Definition passed {X : Type} (t : test (step T D) X) : bool :=
  finished t && forallb step_ok (fst t).

(** The verdict of the comparison that [check_result] makes. *)
Definition result_matches (N : Z) (cpu_result gpu_result : T) : bool :=
  if T_is_rocblas_half R && (N >? 10000)
  then near_check R cpu_result gpu_result (F_mul (F_of_int N) (sum_error_tolerance R))
  else T_unit_check cpu_result gpu_result.

End Harness.

(** What a step that names the vectors of the dot product has to name
    when the second vector is [second] on the device and [second_host] on
    the host, with increment [incy]. *)
Definition names_vectors {T D : Type} (length first_inc : Z)
           (second second_host : buffer) (second_inc : Z) (s : step T D) : Prop :=
  match s with
  | api_call c _ _ =>
      N c = length /\ x c = dx /\ incx c = first_inc
      /\ y c = second /\ incy c = second_inc
  | internal_api_call c _ _ =>
      i_n c = length /\ fst (i_x c) = dx /\ i_incx c = first_inc
      /\ fst (i_y c) = second /\ i_incy c = second_inc
      /\ snd (i_x c) + i_shiftx c = 0 /\ snd (i_y c) + i_shifty c = 0
  | cblas_dot _ N' x' incx' y' incy' _ =>
      N' = length /\ x' = hx /\ incx' = first_inc
      /\ y' = second_host /\ incy' = second_inc
  | _ => True
  end.

(** The runtime calls of the numerical test succeed. *)
Definition runtime_succeeds {T D : Type} (R : runtime T D) : Prop :=
  (forall mode, set_pointer_mode_status R mode = rocblas_status_success)
  /\ (forall b, memcheck_status R b = hipSuccess)
  /\ (forall dst src, transfer_status R dst src = hipSuccess)
  /\ (forall dst src, hipMemcpy_status R dst src = hipSuccess)
  /\ get_stream_status R = rocblas_status_success.

(** *** Inputs used as examples *)

(** A runtime in which every call succeeds, around a function under test;
    the element type is not [rocblas_half] and [is_float] says whether it is
    [float]; the reference result is [N], memory that was never written
    holds 77, and the comparison asks for [|cpu - gpu| <= tol]. *)
Definition example_runtime (fn : bool -> call -> rocblas_status * option Z) (is_float : bool)
  : runtime Z Z :=
  Build_runtime (fun CONJ _ => fn CONJ)
    (fun c => (rocblas_status_success, Some (i_n c)))
    (fun _ => rocblas_status_success)
    (fun _ => hipSuccess)
    (fun _ _ => hipSuccess)
    (fun _ _ => hipSuccess)
    rocblas_status_success
    (fun _ N _ _ _ => N)
    (fun cpu gpu tol => Z.abs (cpu - gpu) <=? tol)
    (fun _ => 77)
    0
    false is_float 1
    Z.sub Z.div Z.abs.

Definition example_launcher (CONJ : bool) (c : call) : rocblas_status * option Z :=
  (rocblas_status_success, Some (N c)).

Definition example_arguments (api : rocblas_client_api) (algo timing : bool)
  : test_arguments :=
  Build_test_arguments api 5 1 2 false algo true false true true timing 1 2 0 0 0 0.

End DotNumerical.

(** *** The SPR2-batched client after its early return: [testing_spr2_batched.hpp] *)

Module Spr2BatchedNumerical.
Import Client.

(** The objects the numerical test passes by address; [h_alpha] is a local
    variable. *)
Inductive buffer : Set :=
| hA
| hAp_1
| hAp_2
| hAp_gold
| hAp_copy
| hx
| hy
| halpha
| h_alpha
| dAp_1
| dAp_2
| dx
| dy
| d_alpha.

(** The arguments of one call of [rocblas_spr2_batched]; a handle is
    described by its pointer mode, the batched vectors and matrices by the
    object whose [ptr_on_device()] is passed. *)
Record call : Type := Build_call {
  handle : rocblas_pointer_mode;
  uplo : rocblas_fill;
  N : Z;
  alpha : buffer;
  x : buffer;
  incx : Z;
  y : buffer;
  incy : Z;
  AP : buffer;
  batch_count : Z
}.

(** A norm error of the harness: a local variable that was never assigned,
    or what [norm_check_general] returned for two matrices. *)
Inductive norm_error : Set :=
| never_assigned
| norm_of (expected actual : buffer).

(** The steps of the numerical test; [T] is the element type.  The
    initialisation steps record the arguments that follow [arg] in the
    call. *)
Inductive step (T : Type) : Type :=
| host_batch_matrix (b : buffer) (M N lda batch_count : Z)
| host_batch_vector (b : buffer) (N inc batch_count : Z)
| host_vector (b : buffer) (n : Z)
| memcheck (b : buffer) (e : hipError_t)
| assign_halpha (value : T)
| device_batch_matrix (b : buffer) (M N lda batch_count : Z)
| device_batch_vector (b : buffer) (N inc batch_count : Z)
| device_vector (b : buffer) (n : Z)
| rocblas_init_matrix (b : buffer) (nan_init : rocblas_check_nan_init)
                      (matrix_type : rocblas_check_matrix_type) (flags : list bool)
| rocblas_init_vector (b : buffer) (nan_init : rocblas_check_nan_init) (flags : list bool)
| regular_to_packed (upper : bool) (src dst : buffer) (N : Z)
| copy_from (dst src : buffer)
| transfer_from (dst src : buffer) (e : hipError_t)
| rocblas_set_pointer_mode (mode : rocblas_pointer_mode) (status : rocblas_status)
| pre_test
| post_test
| api_call (c : call) (status : rocblas_status)
| unit_check_general (M N lda : Z) (expected actual : buffer) (batch_count : Z)
| get_time_us_no_sync
| ref_spr2 (uplo : rocblas_fill) (N : Z) (alpha : T) (x : buffer * Z) (incx : Z)
           (y : buffer * Z) (incy : Z) (AP : buffer * Z)
| norm_check_general (norm_type : string) (M N lda : Z) (expected actual : buffer)
                     (batch_count : Z)
| rocblas_get_stream (status : rocblas_status)
| get_time_us_sync
| log_args (rocblas_error_host rocblas_error_device : norm_error).
Arguments host_batch_matrix {T}.
Arguments host_batch_vector {T}.
Arguments host_vector {T}.
Arguments memcheck {T}.
Arguments assign_halpha {T}.
Arguments device_batch_matrix {T}.
Arguments device_batch_vector {T}.
Arguments device_vector {T}.
Arguments rocblas_init_matrix {T}.
Arguments rocblas_init_vector {T}.
Arguments regular_to_packed {T}.
Arguments copy_from {T}.
Arguments transfer_from {T}.
Arguments rocblas_set_pointer_mode {T}.
Arguments pre_test {T}.
Arguments post_test {T}.
Arguments api_call {T}.
Arguments unit_check_general {T}.
Arguments get_time_us_no_sync {T}.
Arguments ref_spr2 {T}.
Arguments norm_check_general {T}.
Arguments rocblas_get_stream {T}.
Arguments get_time_us_sync {T}.
Arguments log_args {T}.

(** What the numerical test gets from the library and the runtime: the
    function under test (the 32-bit or the 64-bit interface, as [arg.api]
    selects) and the results of the runtime calls. *)
Record runtime : Type := Build_runtime {
  rocblas_spr2_batched_fn : call -> rocblas_status;
  set_pointer_mode_status : rocblas_pointer_mode -> rocblas_status;
  memcheck_status : buffer -> hipError_t;
  transfer_status : buffer -> buffer -> hipError_t;
  get_stream_status : rocblas_status;
  rocblas_packed_matrix_size : Z -> Z
}.

(** The fields of [Arguments] that the numerical test reads; [arg_uplo] is
    [char2rocblas_fill(arg.uplo)] and [arg_alpha] is [arg.get_alpha<T>()]. *)
Record test_arguments (T : Type) : Type := Build_test_arguments {
  arg_N : Z;
  arg_incx : Z;
  arg_incy : Z;
  arg_batch_count : Z;
  arg_alpha : T;
  arg_uplo : rocblas_fill;
  arg_unit_check : bool;
  arg_norm_check : bool;
  arg_repeatability_check : bool;
  arg_timing : bool;
  arg_cold_iters : Z;
  arg_iters : Z
}.
Arguments Build_test_arguments {T}.
Arguments arg_N {T}.
Arguments arg_incx {T}.
Arguments arg_incy {T}.
Arguments arg_batch_count {T}.
Arguments arg_alpha {T}.
Arguments arg_uplo {T}.
Arguments arg_unit_check {T}.
Arguments arg_norm_check {T}.
Arguments arg_repeatability_check {T}.
Arguments arg_timing {T}.
Arguments arg_cold_iters {T}.
Arguments arg_iters {T}.

Definition is_upper (uplo : rocblas_fill) : bool :=
  match uplo with
  | rocblas_fill_upper => true
  | _ => false
  end.

Section Harness.

Context {T : Type}.
Variable R : runtime.

Definition CHECK_ROCBLAS_ERROR_set_pointer_mode (mode : rocblas_pointer_mode)
  : test (step T) unit :=
  _ <- did (rocblas_set_pointer_mode mode (set_pointer_mode_status R mode)) ;;
  fatal (status_eqb (set_pointer_mode_status R mode) rocblas_status_success).

(** [CHECK_HIP_ERROR] and [CHECK_DEVICE_ALLOCATION] of a [memcheck()]. *)
Definition CHECK_memcheck (b : buffer) : test (step T) unit :=
  _ <- did (memcheck b (memcheck_status R b)) ;;
  fatal (hip_ok (memcheck_status R b)).

Definition CHECK_HIP_ERROR_transfer_from (dst src : buffer) : test (step T) unit :=
  _ <- did (transfer_from dst src (transfer_status R dst src)) ;;
  fatal (hip_ok (transfer_status R dst src)).

(** [DAPI_DISPATCH]: a call whose status is not looked at. *)
Definition DAPI_DISPATCH (c : call) : test (step T) unit :=
  did (api_call c (rocblas_spr2_batched_fn R c)).

(** [DAPI_CHECK]: a call that has to return success. *)
Definition DAPI_CHECK (c : call) : test (step T) unit :=
  _ <- did (api_call c (rocblas_spr2_batched_fn R c)) ;;
  fatal (status_eqb (rocblas_spr2_batched_fn R c) rocblas_status_success).

(** The block under [if(arg.timing)]; [errors] are the two norm errors.
    [total_calls] is an [int], the sum is reduced into its range. *)
Definition timing_block (arg : test_arguments T) (errors : norm_error * norm_error)
  : test (step T) unit :=
  let N := arg_N arg in
  let incx := arg_incx arg in
  let incy := arg_incy arg in
  let batch_count := arg_batch_count arg in
  let uplo := arg_uplo arg in
  if arg_timing arg then
    let number_cold_calls := arg_cold_iters arg in
    let total_calls := to_int32 (number_cold_calls + arg_iters arg) in
    _ <- CHECK_ROCBLAS_ERROR_set_pointer_mode rocblas_pointer_mode_host ;;
    _ <- did (rocblas_get_stream (get_stream_status R)) ;;
    _ <- fatal (status_eqb (get_stream_status R) rocblas_status_success) ;;
    _ <- for_each (seq 0 (Z.to_nat total_calls))
           (fun iter =>
              _ <- (if Z.of_nat iter =? number_cold_calls then did get_time_us_sync
                    else ret tt) ;;
              DAPI_DISPATCH
                (Build_call rocblas_pointer_mode_host uplo N h_alpha dx incx dy incy dAp_1
                   batch_count)) ;;
    _ <- did get_time_us_sync ;;
    did (log_args (fst errors) (snd errors))
  else ret tt.

(** [testing_spr2_batched<T>] after its early return: the code that runs
    for sizes that are valid and not zero, from [size_A] to the end.  The
    [return] that ends the repeatability check leaves the function before
    the reference run and before [timing_block].  The index [b] of the
    reference loop is a [size_t], and so is the bound it is compared
    with. *)
Definition testing_spr2_batched_numerical (arg : test_arguments T) : test (step T) unit :=
  let N := arg_N arg in
  let incx := arg_incx arg in
  let incy := arg_incy arg in
  let batch_count := arg_batch_count arg in
  let h_alpha_value := arg_alpha arg in
  let uplo := arg_uplo arg in
  let size_A := to_size_t (rocblas_packed_matrix_size R N) in
  _ <- did (host_batch_matrix hA N N N batch_count) ;;
  _ <- did (host_batch_matrix hAp_1 1 size_A 1 batch_count) ;;
  _ <- did (host_batch_matrix hAp_2 1 size_A 1 batch_count) ;;
  _ <- did (host_batch_matrix hAp_gold 1 size_A 1 batch_count) ;;
  _ <- did (host_batch_vector hx N incx batch_count) ;;
  _ <- did (host_batch_vector hy N incy batch_count) ;;
  _ <- did (host_vector halpha 1) ;;
  _ <- CHECK_memcheck hA ;;
  _ <- CHECK_memcheck hAp_1 ;;
  _ <- CHECK_memcheck hAp_2 ;;
  _ <- CHECK_memcheck hAp_gold ;;
  _ <- CHECK_memcheck hx ;;
  _ <- CHECK_memcheck hy ;;
  _ <- did (assign_halpha h_alpha_value) ;;
  _ <- did (device_batch_matrix dAp_1 1 size_A 1 batch_count) ;;
  _ <- did (device_batch_matrix dAp_2 1 size_A 1 batch_count) ;;
  _ <- did (device_batch_vector dx N incx batch_count) ;;
  _ <- did (device_batch_vector dy N incy batch_count) ;;
  _ <- did (device_vector d_alpha 1) ;;
  _ <- CHECK_memcheck dAp_1 ;;
  _ <- CHECK_memcheck dAp_2 ;;
  _ <- CHECK_memcheck dx ;;
  _ <- CHECK_memcheck dy ;;
  _ <- CHECK_memcheck d_alpha ;;
  _ <- did (rocblas_init_matrix hA rocblas_client_never_set_nan
              rocblas_client_symmetric_matrix [true]) ;;
  _ <- did (rocblas_init_vector hx rocblas_client_alpha_sets_nan [false; true]) ;;
  _ <- did (rocblas_init_vector hy rocblas_client_alpha_sets_nan []) ;;
  _ <- did (regular_to_packed (is_upper uplo) hA hAp_1 N) ;;
  _ <- did (copy_from hAp_2 hAp_1) ;;
  _ <- did (copy_from hAp_gold hAp_1) ;;
  _ <- CHECK_HIP_ERROR_transfer_from dAp_1 hAp_1 ;;
  _ <- CHECK_HIP_ERROR_transfer_from dx hx ;;
  _ <- CHECK_HIP_ERROR_transfer_from dy hy ;;
  if arg_unit_check arg || arg_norm_check arg then
    _ <- CHECK_HIP_ERROR_transfer_from dAp_2 hAp_1 ;;
    _ <- CHECK_HIP_ERROR_transfer_from d_alpha halpha ;;
    _ <- CHECK_ROCBLAS_ERROR_set_pointer_mode rocblas_pointer_mode_host ;;
    _ <- did pre_test ;;
    _ <- DAPI_CHECK
           (Build_call rocblas_pointer_mode_host uplo N h_alpha dx incx dy incy dAp_1
              batch_count) ;;
    _ <- did post_test ;;
    _ <- CHECK_ROCBLAS_ERROR_set_pointer_mode rocblas_pointer_mode_device ;;
    _ <- did pre_test ;;
    _ <- DAPI_CHECK
           (Build_call rocblas_pointer_mode_device uplo N d_alpha dx incx dy incy dAp_2
              batch_count) ;;
    _ <- did post_test ;;
    if arg_repeatability_check arg then
      _ <- did (host_batch_matrix hAp_copy 1 size_A 1 batch_count) ;;
      _ <- CHECK_memcheck hAp_copy ;;
      _ <- CHECK_HIP_ERROR_transfer_from hAp_2 dAp_2 ;;
      for_iter (arg_iters arg)
        (_ <- DAPI_CHECK
                (Build_call rocblas_pointer_mode_device uplo N d_alpha dx incx dy incy dAp_2
                   batch_count) ;;
         _ <- CHECK_HIP_ERROR_transfer_from hAp_copy dAp_2 ;;
         did (unit_check_general 1 size_A 1 hAp_2 hAp_copy batch_count))
    else
      _ <- did get_time_us_no_sync ;;
      _ <- for_each (seq 0 (Z.to_nat (to_size_t batch_count)))
             (fun b =>
                did (ref_spr2 uplo N h_alpha_value (hx, Z.of_nat b) incx (hy, Z.of_nat b) incy
                       (hAp_gold, Z.of_nat b))) ;;
      _ <- did get_time_us_no_sync ;;
      _ <- CHECK_HIP_ERROR_transfer_from hAp_1 dAp_1 ;;
      _ <- CHECK_HIP_ERROR_transfer_from hAp_2 dAp_2 ;;
      _ <- (if arg_unit_check arg then
              _ <- did (unit_check_general 1 size_A 1 hAp_gold hAp_1 batch_count) ;;
              did (unit_check_general 1 size_A 1 hAp_gold hAp_2 batch_count)
            else ret tt) ;;
      errors <-
        (if arg_norm_check arg then
           _ <- did (norm_check_general "F" 1 size_A 1 hAp_gold hAp_1 batch_count) ;;
           _ <- did (norm_check_general "F" 1 size_A 1 hAp_gold hAp_2 batch_count) ;;
           ret (norm_of hAp_gold hAp_1, norm_of hAp_gold hAp_2)
         else ret (never_assigned, never_assigned)) ;;
      timing_block arg errors
  else timing_block arg (never_assigned, never_assigned).

End Harness.

(** The steps of the reference run and of the timing block. *)
Definition is_reference_or_timing {T : Type} (s : step T) : bool :=
  match s with
  | ref_spr2 _ _ _ _ _ _ _ _ => true
  | get_time_us_no_sync => true
  | norm_check_general _ _ _ _ _ _ _ => true
  | rocblas_get_stream _ => true
  | get_time_us_sync => true
  | log_args _ _ => true
  | _ => false
  end.

(** The calls of the function under test in a list of steps, oldest
    first. *)
Definition api_calls {T : Type} (t : list (step T)) : list call :=
  flat_map (fun s => match s with
                     | api_call c _ => [c]
                     | _ => []
                     end) t.

(** The number of times a list of steps reads the clock of the stream. *)
Definition time_samples {T : Type} (t : list (step T)) : nat :=
  length (filter (fun s => match s with
                           | get_time_us_sync => true
                           | _ => false
                           end) t).

(** The runtime calls of the numerical test succeed. *)
Definition runtime_succeeds (R : runtime) : Prop :=
  (forall mode, set_pointer_mode_status R mode = rocblas_status_success)
  /\ (forall b, memcheck_status R b = hipSuccess)
  /\ (forall dst src, transfer_status R dst src = hipSuccess)
  /\ get_stream_status R = rocblas_status_success.

(** *** Inputs used as examples *)

(** A runtime in which every call succeeds, around a function under
    test. *)
Definition example_runtime (fn : call -> rocblas_status) : runtime :=
  Build_runtime fn
    (fun _ => rocblas_status_success)
    (fun _ => hipSuccess)
    (fun _ _ => hipSuccess)
    rocblas_status_success
    (fun n => n * (n + 1) / 2).

Definition example_launcher (c : call) : rocblas_status := rocblas_status_success.

(** A function under test that fails every call. *)
Definition failing_launcher (c : call) : rocblas_status := rocblas_status_internal_error.

End Spr2BatchedNumerical.

(* ===================================================================== *)
(** * Part II: theorems                                                   *)
(* ===================================================================== *)

(** ** Machine integers *)

Lemma to_int64_in_range (z : Z) : in_int64 z -> to_int64 z = z.
Proof.
  unfold in_int64, c_i64_min, c_i64_max, to_int64, wrap_signed.
  intros Hz. rewrite Z.mod_small; lia.
Qed.

Lemma to_int32_in_range (z : Z) : - 2 ^ 31 <= z <= c_i32_max -> to_int32 z = z.
Proof.
  unfold c_i32_max, to_int32, wrap_signed.
  intros Hz. rewrite Z.mod_small; lia.
Qed.

Lemma status_eqb_eq (a b : rocblas_status) : status_eqb a b = true <-> a = b.
Proof.
  unfold status_eqb. destruct (rocblas_status_eq_dec a b); split; congruence.
Qed.

Lemma status_eqb_neq (a b : rocblas_status) : status_eqb a b = false <-> a <> b.
Proof.
  unfold status_eqb. destruct (rocblas_status_eq_dec a b); split; congruence.
Qed.

(** ** The test monad of the clients *)

Module ClientFacts.
Import Client.

Lemma bind_assoc {step X Y Z : Type}
      (m : test step X) (f : X -> test step Y) (g : Y -> test step Z) :
  bind (bind m f) g = bind m (fun v => bind (f v) g).
Proof.
  destruct m as [t [v|]]; cbn [bind]; [|reflexivity].
  destruct (f v) as [t1 [w|]]; cbn [bind]; [|reflexivity].
  destruct (g w) as [t2 r]. now rewrite app_assoc.
Qed.

(** Whether a test runs to its end is decided by its fatal checks. *)
Lemma finished_did {step Y : Type} (s : step) (f : unit -> test step Y) :
  finished (bind (did s) f) = finished (f tt).
Proof. unfold did, finished. cbn [bind]. destruct (f tt) as [t r]. reflexivity. Qed.

Lemma finished_fatal {step Y : Type} (ok : bool) (f : unit -> test step Y) :
  finished (bind (fatal ok) f) = ok && finished (f tt).
Proof.
  unfold fatal, finished. destruct ok; cbn [bind andb snd]; [|reflexivity].
  destruct (f tt) as [t r]. reflexivity.
Qed.

Lemma finished_ret {step X Y : Type} (v : X) (f : X -> test step Y) :
  finished (bind (ret v) f) = finished (f v).
Proof. unfold ret, finished. cbn [bind]. destruct (f v) as [t r]. reflexivity. Qed.

Lemma finished_fatal_last {step : Type} (ok : bool) :
  finished (fatal (step := step) ok) = ok.
Proof. destruct ok; reflexivity. Qed.

End ClientFacts.

(** [run_checks] turns [finished t] into the conjunction of the fatal checks
    of [t]; [split_checks H] splits such a conjunction. *)
Ltac run_checks :=
  repeat (cbv beta;
          first [ rewrite ClientFacts.bind_assoc
                | rewrite ClientFacts.finished_did
                | rewrite ClientFacts.finished_fatal
                | rewrite ClientFacts.finished_ret
                | rewrite ClientFacts.finished_fatal_last ]).

Ltac split_checks H :=
  repeat (let Hc := fresh "Hcheck" in
          apply andb_true_iff in H; destruct H as [Hc H]).

(** ** The 64-bit HPMV launcher *)

Module Hpmv64Facts.
Import Hpmv64.

Section Chunks.

Context {TScal H : Type}.
Variable chunk : Z.
Variable launcher : hpmv_call TScal -> H -> rocblas_status * H.

(** The number of chunks is the batch count divided by the chunk size,
    rounded up. *)
Lemma chunk_count_bounds (bc : Z) :
  0 < chunk -> 1 <= bc ->
  (Z.of_nat (chunk_count chunk bc) - 1) * chunk < bc
  /\ bc <= Z.of_nat (chunk_count chunk bc) * chunk
  /\ Z.of_nat (chunk_count chunk bc) = (bc + chunk - 1) / chunk.
Proof.
  intros Hc Hbc. unfold chunk_count.
  pose proof (Z.div_mod (bc + chunk - 1) chunk ltac:(lia)) as Hdm.
  pose proof (Z.mod_pos_bound (bc + chunk - 1) chunk Hc) as Hmod.
  assert (Hq : 0 <= (bc + chunk - 1) / chunk) by (apply Z.div_pos; lia).
  rewrite Z2Nat.id by exact Hq.
  repeat split; nia.
Qed.

(** Inside the ranges of its integer types the loop body builds the call
    of the description. *)
Lemma chunk_call_in_range (a : hpmv_args_64 TScal) (b_base : Z) :
  0 < chunk <= c_i32_max ->
  1 <= n_64 a <= c_i32_max ->
  batch_count_64 a <= c_i64_max ->
  0 <= b_base < batch_count_64 a ->
  chunk_call chunk a b_base = chunk_call_spec chunk a b_base.
Proof.
  intros Hc Hn Hbc Hb. unfold chunk_call, chunk_call_spec, adjust_ptr_batch.
  rewrite (to_int32_in_range (n_64 a)) by (unfold c_i32_max in *; lia).
  rewrite (to_int64_in_range (batch_count_64 a - b_base))
    by (unfold in_int64, c_i64_min, c_i64_max in *; lia).
  rewrite to_int32_in_range by (unfold c_i32_max in *; lia).
  reflexivity.
Qed.

(** The loop started at the [i]-th chunk base with [k] chunks left runs
    the launcher over these [k] chunks. *)
Lemma batch_loop_refines (a : hpmv_args_64 TScal) :
  0 < chunk <= c_i32_max ->
  1 <= n_64 a <= c_i32_max ->
  1 <= batch_count_64 a ->
  Z.of_nat (chunk_count chunk (batch_count_64 a)) * chunk <= c_i64_max ->
  forall (k i fuel : nat) made h,
    (i + k)%nat = chunk_count chunk (batch_count_64 a) ->
    (k < fuel)%nat ->
    batch_loop chunk launcher fuel a (Z.of_nat i * chunk) made h
    = Some (let '(s, cs, h') :=
              iterate_launcher launcher
                (map (chunk_call_spec chunk a)
                   (map (fun j => Z.of_nat j * chunk) (seq i k))) h in
            (s, rev made ++ cs, h')).
Proof.
  intros Hc Hn Hbc Hmax.
  destruct (chunk_count_bounds (batch_count_64 a) ltac:(lia) Hbc) as (Hlo & Hhi & _).
  induction k as [|k IH]; intros i fuel made h Hik Hfuel.
  - destruct fuel as [|fuel]; [lia|]. cbn [batch_loop seq map iterate_launcher].
    replace (Z.of_nat i * chunk <? batch_count_64 a) with false
      by (symmetry; apply Z.ltb_ge; rewrite <- Hik in Hhi; nia).
    now rewrite app_nil_r.
  - destruct fuel as [|fuel]; [lia|]. cbn [batch_loop seq map iterate_launcher].
    assert (Hlt : Z.of_nat i * chunk < batch_count_64 a)
      by (rewrite <- Hik in Hlo; nia).
    replace (Z.of_nat i * chunk <? batch_count_64 a) with true
      by (symmetry; apply Z.ltb_lt; exact Hlt).
    rewrite chunk_call_in_range by (try assumption; lia).
    destruct (launcher (chunk_call_spec chunk a (Z.of_nat i * chunk)) h) as [s h1].
    destruct (status_eqb s rocblas_status_success).
    + replace (to_int64 (Z.of_nat i * chunk + chunk)) with (Z.of_nat (S i) * chunk).
      * rewrite (IH (S i) fuel) by lia.
        destruct (iterate_launcher _ _ h1) as [[s' cs] h2].
        cbn [rev]. now rewrite <- app_assoc.
      * rewrite to_int64_in_range; [lia|].
        unfold in_int64, c_i64_min. rewrite <- Hik in Hmax. nia.
    + reflexivity.
Qed.

(** What [iterate_launcher] leaves behind: the calls made are the first
    calls of its list, each recorded with the status it returned; the
    status is success exactly when the whole list was launched and every
    call returned success; otherwise the last call made is the first one
    that did not return success, and its status is the one returned. *)
Lemma iterate_launcher_stops (calls : list (hpmv_call TScal)) :
  forall h s made h',
    iterate_launcher launcher calls h = (s, made, h') ->
    (exists rest, calls = map fst made ++ rest)
    /\ (s = rocblas_status_success <->
        map fst made = calls
        /\ Forall (fun launched => snd launched = rocblas_status_success) made)
    /\ (s <> rocblas_status_success ->
        exists before c,
          made = before ++ [(c, s)]
          /\ Forall (fun launched => snd launched = rocblas_status_success) before).
Proof.
  induction calls as [|c rest IH]; intros h s made h' Hrun; cbn [iterate_launcher] in Hrun.
  - injection Hrun as <- <- <-. repeat split.
    + now exists [].
    + constructor.
    + congruence.
  - destruct (launcher c h) as [s1 h1] eqn:Hcall.
    destruct (status_eqb s1 rocblas_status_success) eqn:Hs1.
    + apply status_eqb_eq in Hs1. subst s1.
      destruct (iterate_launcher launcher rest h1) as [[s2 made2] h2] eqn:Hrest.
      injection Hrun as <- <- <-.
      destruct (IH _ _ _ _ Hrest) as ([tl Htl] & Hall & Hfail).
      split; [|split; [split|]].
      * exists tl. cbn [map fst app]. now rewrite <- Htl.
      * intros Hs. split.
        -- cbn [map fst]. f_equal. now apply Hall.
        -- constructor; [reflexivity|]. now apply Hall.
      * intros [Hcalls Hstatus]. apply Hall. split.
        -- cbn [map fst] in Hcalls. now injection Hcalls.
        -- now inversion Hstatus.
      * intros Hs. destruct (Hfail Hs) as (before & c' & -> & Hbefore).
        exists ((c, rocblas_status_success) :: before), c'.
        split; [reflexivity|]. now constructor.
    + injection Hrun as <- <- <-. apply status_eqb_neq in Hs1.
      split; [|split; [split|]].
      * now exists rest.
      * congruence.
      * intros [_ Hstatus]. inversion Hstatus as [|? ? Hhead _]. cbn in Hhead. congruence.
      * intros _. exists [], c. split; [reflexivity | constructor].
Qed.

(** Every chunk base is a multiple of the chunk size below the batch
    count, and the bases come in increasing order. *)
Lemma chunk_bases_nth (bc : Z) (i : nat) :
  0 < chunk -> 1 <= bc ->
  (i < chunk_count chunk bc)%nat ->
  nth_error (chunk_bases chunk bc) i = Some (Z.of_nat i * chunk)
  /\ 0 <= Z.of_nat i * chunk < bc.
Proof.
  intros Hc Hbc Hi. unfold chunk_bases. split.
  - rewrite nth_error_map, nth_error_seq.
    destruct (Nat.ltb_spec i (chunk_count chunk bc)); [reflexivity | lia].
  - destruct (chunk_count_bounds bc Hc Hbc) as (Hlo & _ & _). nia.
Qed.

Lemma chunk_bases_length (bc : Z) :
  length (chunk_bases chunk bc) = chunk_count chunk bc.
Proof. unfold chunk_bases. now rewrite length_map, length_seq. Qed.

Lemma chunk_bases_in (bc b : Z) :
  0 < chunk -> 1 <= bc ->
  In b (chunk_bases chunk bc) -> 0 <= b < bc.
Proof.
  intros Hc Hbc Hin. unfold chunk_bases in Hin.
  apply in_map_iff in Hin. destruct Hin as (i & <- & Hi).
  apply in_seq in Hi.
  destruct (chunk_count_bounds bc Hc Hbc) as (Hlo & _ & _). nia.
Qed.

(** The calls of the chunked iteration are calls at bases inside the
    batch. *)
Lemma chunked_launcher_calls (a : hpmv_args_64 TScal) :
  0 < chunk ->
  1 <= batch_count_64 a ->
  forall h s cs h' c,
    chunked_launcher chunk launcher h a = (s, cs, h') ->
    In c (map fst cs) ->
    exists b, 0 <= b < batch_count_64 a /\ c = chunk_call_spec chunk a b.
Proof.
  intros Hc Hbc h s cs h' c Hspec Hin. unfold chunked_launcher in Hspec.
  destruct (iterate_launcher_stops _ _ _ _ _ Hspec) as ([rest Hrest] & _).
  assert (Hin' : In c (map (chunk_call_spec chunk a)
                         (chunk_bases chunk (batch_count_64 a)))).
  { rewrite Hrest. apply in_or_app. left. exact Hin. }
  apply in_map_iff in Hin'. destruct Hin' as (b & Hcall & Hb).
  exists b. split; [|symmetry; exact Hcall].
  exact (chunk_bases_in _ _ Hc Hbc Hb).
Qed.

End Chunks.

(** *** Beyond the range of [int64_t]

    When the launcher accepts every call, the loop reaches every chunk
    base below the batch count, and after the last of them it adds the
    chunk size once more: the sum is reduced into [int64_t]. *)

Section Visits.

Context {TScal H : Type}.
Variable chunk : Z.
Variable launcher : hpmv_call TScal -> H -> rocblas_status * H.
Hypothesis launcher_accepts :
  forall c h, fst (launcher c h) = rocblas_status_success.

Lemma batch_loop_made_extends (a : hpmv_args_64 TScal) :
  forall fuel b made h s cs h',
    batch_loop chunk launcher fuel a b made h = Some (s, cs, h') ->
    exists later, cs = rev made ++ later.
Proof.
  induction fuel as [|fuel IH]; intros b made h s cs h' Hrun;
    cbn [batch_loop] in Hrun; [discriminate|].
  destruct (b <? batch_count_64 a).
  - destruct (launcher (chunk_call chunk a b) h) as [s1 h1].
    destruct (status_eqb s1 rocblas_status_success).
    + destruct (IH _ _ _ _ _ _ Hrun) as [later ->].
      exists ((chunk_call chunk a b, s1) :: later). cbn [rev]. now rewrite <- app_assoc.
    + injection Hrun as <- <- <-. exists [(chunk_call chunk a b, s1)].
      reflexivity.
  - injection Hrun as <- <- <-. exists []. now rewrite app_nil_r.
Qed.

Lemma batch_loop_step (a : hpmv_args_64 TScal) :
  forall fuel b made h r,
    batch_loop chunk launcher fuel a b made h = Some r ->
    b < batch_count_64 a ->
    exists fuel' h',
      batch_loop chunk launcher fuel' a (to_int64 (b + chunk))
        ((chunk_call chunk a b, rocblas_status_success) :: made) h' = Some r.
Proof.
  intros [|fuel] b made h r Hrun Hb; cbn [batch_loop] in Hrun; [discriminate|].
  replace (b <? batch_count_64 a) with true in Hrun
    by (symmetry; now apply Z.ltb_lt).
  pose proof (launcher_accepts (chunk_call chunk a b) h) as Hacc.
  destruct (launcher (chunk_call chunk a b) h) as [s1 h1].
  cbn [fst] in Hacc. subst s1.
  replace (status_eqb rocblas_status_success rocblas_status_success) with true in Hrun
    by reflexivity.
  now exists fuel, h1.
Qed.

Lemma batch_loop_visits (a : hpmv_args_64 TScal) :
  0 < chunk ->
  batch_count_64 a <= c_i64_max ->
  forall fuel h r,
    batch_loop chunk launcher fuel a 0 [] h = Some r ->
    forall k : nat,
      Z.of_nat k * chunk < batch_count_64 a ->
      exists fuel' made h',
        batch_loop chunk launcher fuel' a (Z.of_nat k * chunk) made h' = Some r.
Proof.
  intros Hc Hbc fuel h r Hrun.
  induction k as [|k IH]; intros Hk.
  - now exists fuel, [], h.
  - destruct IH as (fuel1 & made1 & h1 & Hrun1); [nia|].
    destruct (batch_loop_step a _ _ _ _ _ Hrun1 ltac:(nia)) as (fuel2 & h2 & Hrun2).
    rewrite to_int64_in_range in Hrun2
      by (unfold in_int64, c_i64_min, c_i64_max in *; nia).
    exists fuel2,
      ((chunk_call chunk a (Z.of_nat k * chunk), rocblas_status_success) :: made1), h2.
    now replace (Z.of_nat (S k) * chunk) with (Z.of_nat k * chunk + chunk) by lia.
Qed.

(** A base [b] that the loop reaches after the last chunk, still below
    the batch count, is the base of one more call. *)
Lemma batch_loop_call_after_overflow (a : hpmv_args_64 TScal) (K : Z) :
  0 < chunk ->
  batch_count_64 a <= c_i64_max ->
  0 <= K ->
  K * chunk < batch_count_64 a ->
  to_int64 (K * chunk + chunk) < batch_count_64 a ->
  forall fuel h s cs h',
    batch_loop chunk launcher fuel a 0 [] h = Some (s, cs, h') ->
    In (chunk_call chunk a (to_int64 (K * chunk + chunk))) (map fst cs).
Proof.
  intros Hc Hbc HK HKc Hwrap fuel h s cs h' Hrun.
  destruct (batch_loop_visits a Hc Hbc _ _ _ Hrun (Z.to_nat K)) as (f1 & m1 & h1 & Hrun1);
    [rewrite Z2Nat.id by exact HK; exact HKc|].
  rewrite Z2Nat.id in Hrun1 by exact HK.
  destruct (batch_loop_step a _ _ _ _ _ Hrun1 HKc) as (f2 & h2 & Hrun2).
  destruct (batch_loop_step a _ _ _ _ _ Hrun2 Hwrap) as (f3 & h3 & Hrun3).
  destruct (batch_loop_made_extends a _ _ _ _ _ _ _ Hrun3) as [later ->].
  rewrite map_app. apply in_or_app. left.
  rewrite map_rev. apply -> in_rev. now left.
Qed.

(** If the sum that follows the last chunk base leaves [int64_t] and
    comes back negative, the shim differs from the chunked iteration
    whatever the fuel. *)
Lemma launcher_64_leaves_int64 (a : hpmv_args_64 TScal) (K : Z) (h : H) :
  0 < chunk ->
  1 <= n_64 a <= c_i32_max ->
  1 <= batch_count_64 a <= c_i64_max ->
  strideA a <> 0 ->
  0 <= K ->
  K * chunk < batch_count_64 a ->
  to_int64 (K * chunk + chunk) < 0 ->
  ~ exists fuel : nat,
      rocblas_hpmv_launcher_64 chunk launcher fuel h a
      = Some (chunked_launcher chunk launcher h a).
Proof.
  intros Hc Hn Hbc Hstride HK HKc Hneg [fuel Hrun].
  unfold rocblas_hpmv_launcher_64 in Hrun.
  replace (n_64 a =? 0) with false in Hrun by (symmetry; apply Z.eqb_neq; lia).
  replace (batch_count_64 a =? 0) with false in Hrun by (symmetry; apply Z.eqb_neq; lia).
  replace (n_64 a >? c_i32_max) with false in Hrun
    by (symmetry; rewrite Z.gtb_ltb; apply Z.ltb_ge; lia).
  cbn [orb] in Hrun.
  destruct (chunked_launcher chunk launcher h a) as [[s cs] h'] eqn:Hspec.
  assert (Hin : In (chunk_call chunk a (to_int64 (K * chunk + chunk))) (map fst cs)).
  { apply (batch_loop_call_after_overflow a K Hc ltac:(lia) HK HKc ltac:(lia)
             fuel h s cs h' Hrun). }
  destruct (chunked_launcher_calls chunk launcher a Hc ltac:(lia) _ _ _ _ _ Hspec Hin)
    as (b & Hb & Hcall).
  apply (f_equal call_AP) in Hcall.
  cbn [call_AP chunk_call_spec chunk_call] in Hcall.
  unfold adjust_ptr_batch in Hcall.
  nia.
Qed.

(** This happens at the largest batch count for every chunk size of at
    most [c_i32_max] that does not divide [c_i64_max]. *)
Lemma launcher_64_leaves_int64_at_max (a : hpmv_args_64 TScal) (h : H) :
  0 < chunk <= c_i32_max ->
  c_i64_max mod chunk <> 0 ->
  1 <= n_64 a <= c_i32_max ->
  batch_count_64 a = c_i64_max ->
  strideA a <> 0 ->
  ~ exists fuel : nat,
      rocblas_hpmv_launcher_64 chunk launcher fuel h a
      = Some (chunked_launcher chunk launcher h a).
Proof.
  intros Hc Hdiv Hn Hbc Hstride.
  pose proof (Z.div_mod c_i64_max chunk ltac:(lia)) as Hdm.
  pose proof (Z.mod_pos_bound c_i64_max chunk ltac:(lia)) as Hmod.
  assert (Hq : 0 <= c_i64_max / chunk) by (apply Z.div_pos; unfold c_i64_max; lia).
  assert (Hbc' : 1 <= batch_count_64 a <= c_i64_max) by (rewrite Hbc; unfold c_i64_max; lia).
  assert (HK : c_i64_max / chunk * chunk < batch_count_64 a) by (rewrite Hbc; lia).
  assert (Hrange : 2 ^ 63 <= c_i64_max / chunk * chunk + chunk < 2 ^ 63 + 2 ^ 31)
    by (unfold c_i64_max, c_i32_max in *; lia).
  assert (Hneg : to_int64 (c_i64_max / chunk * chunk + chunk) < 0).
  { unfold to_int64, wrap_signed.
    replace (c_i64_max / chunk * chunk + chunk + 2 ^ (64 - 1))
      with (c_i64_max / chunk * chunk + chunk - 2 ^ 63 + 1 * 2 ^ 64) by lia.
    rewrite Z.mod_add by lia.
    rewrite Z.mod_small by lia. lia. }
  exact (launcher_64_leaves_int64 a (c_i64_max / chunk) h ltac:(lia) Hn Hbc' Hstride
           Hq HK Hneg).
Qed.

End Visits.

(** C1 fails as stated: at the largest batch count, with chunks of 65535
    batches and a launcher that accepts every call, no amount of fuel makes
    the shim agree with the chunked iteration.  The last chunk base is
    [c_i64_max - 32767]; adding the chunk size leaves [int64_t], the
    reduced sum is negative, hence below the batch count, and the loop
    makes a call at that base, which is no chunk base. *)
Lemma hpmv_launcher_64_max_batch_count :
  1 <= n_64 max_batch_args <= c_i32_max
  /\ 1 <= batch_count_64 max_batch_args
  /\ ~ exists fuel : nat,
         rocblas_hpmv_launcher_64 65535 accepting_launcher fuel tt max_batch_args
         = Some (chunked_launcher 65535 accepting_launcher tt max_batch_args).
Proof.
  split; [vm_compute; split; congruence|].
  split; [vm_compute; congruence|].
  apply (launcher_64_leaves_int64_at_max 65535 accepting_launcher (fun _ _ => eq_refl)
           max_batch_args tt).
  - vm_compute; split; congruence.
  - vm_compute; congruence.
  - vm_compute; split; congruence.
  - reflexivity.
  - vm_compute; congruence.
Qed.

(** C1, as amended: for [1 <= n_64 <= INT32_MAX] and a batch count of at
    least 1 whose round-up to a multiple of the chunk size still fits
    [int64_t], the shim, given enough fuel for its loop, does what the
    chunked iteration of the 32-bit launcher does: the chunk bases are
    [0, chunk, 2 * chunk, ...] below the batch count, the call at base [b]
    covers [min (batch_count_64 - b) chunk] batches, between 1 and
    [chunk], with [AP], [x] and [y] moved by [b] strides, and the calls
    stop at the first status other than success, which is returned; the
    status is success exactly when all chunks were launched and each
    returned success. *)
Theorem hpmv_launcher_64_chunked :
  forall (TScal H : Type) (chunk : Z)
         (launcher : hpmv_call TScal -> H -> rocblas_status * H)
         (fuel : nat) (h : H) (a : hpmv_args_64 TScal),
    0 < chunk <= c_i32_max ->
    1 <= n_64 a <= c_i32_max ->
    1 <= batch_count_64 a ->
    (batch_count_64 a + chunk - 1) / chunk * chunk <= c_i64_max ->
    (chunk_count chunk (batch_count_64 a) < fuel)%nat ->
    rocblas_hpmv_launcher_64 chunk launcher fuel h a
    = Some (chunked_launcher chunk launcher h a)
    /\ (forall i : nat,
          (i < length (chunk_bases chunk (batch_count_64 a)))%nat ->
          nth_error (chunk_bases chunk (batch_count_64 a)) i = Some (Z.of_nat i * chunk)
          /\ 0 <= Z.of_nat i * chunk < batch_count_64 a)
    /\ (forall b : Z,
          In b (chunk_bases chunk (batch_count_64 a)) ->
          let c := chunk_call_spec chunk a b in
          call_batch_count c = Z.min (batch_count_64 a - b) chunk
          /\ 1 <= call_batch_count c <= chunk
          /\ call_AP c = AP a + b * strideA a
          /\ call_x c = x a + b * stridex a
          /\ call_y c = y a + b * stridey a)
    /\ (forall s made h',
          chunked_launcher chunk launcher h a = (s, made, h') ->
          (exists rest,
              map (chunk_call_spec chunk a) (chunk_bases chunk (batch_count_64 a))
              = map fst made ++ rest)
          /\ (s = rocblas_status_success <->
              map fst made
              = map (chunk_call_spec chunk a) (chunk_bases chunk (batch_count_64 a))
              /\ Forall (fun launched => snd launched = rocblas_status_success) made)
          /\ (s <> rocblas_status_success ->
              exists before c,
                made = before ++ [(c, s)]
                /\ Forall (fun launched => snd launched = rocblas_status_success) before)).
Proof.
  intros TScal H chunk launcher fuel h a Hc Hn Hbc Hmax Hfuel.
  destruct (chunk_count_bounds chunk (batch_count_64 a) ltac:(lia) Hbc) as (Hlo & Hhi & Hq).
  split; [|split; [|split]].
  - unfold rocblas_hpmv_launcher_64.
    replace (n_64 a =? 0) with false by (symmetry; apply Z.eqb_neq; lia).
    replace (batch_count_64 a =? 0) with false by (symmetry; apply Z.eqb_neq; lia).
    replace (n_64 a >? c_i32_max) with false
      by (symmetry; rewrite Z.gtb_ltb; apply Z.ltb_ge; lia).
    cbn [orb].
    change 0 with (Z.of_nat 0 * chunk).
    rewrite (batch_loop_refines chunk launcher a Hc Hn Hbc ltac:(lia)
               (chunk_count chunk (batch_count_64 a)) 0 fuel [] h eq_refl Hfuel).
    unfold chunked_launcher, chunk_bases.
    destruct (iterate_launcher _ _ h) as [[s cs] h']. reflexivity.
  - intros i Hi. rewrite chunk_bases_length in Hi.
    apply chunk_bases_nth; [lia | assumption | assumption].
  - intros b Hb c. apply chunk_bases_in in Hb; [|lia|assumption].
    subst c. cbn [chunk_call_spec call_batch_count call_AP call_x call_y].
    repeat split; lia.
  - intros s made h' Hrun. unfold chunked_launcher in Hrun.
    exact (iterate_launcher_stops launcher _ _ _ _ _ Hrun).
Qed.

Lemma hpmv_launcher_64_chunked_witness :
  (0 < 3 <= c_i32_max
   /\ 1 <= n_64 (example_args 5 7) <= c_i32_max
   /\ 1 <= batch_count_64 (example_args 5 7)
   /\ (batch_count_64 (example_args 5 7) + 3 - 1) / 3 * 3 <= c_i64_max
   /\ (chunk_count 3 (batch_count_64 (example_args 5 7)) < 4)%nat)
  /\ rocblas_hpmv_launcher_64 3 second_call_fails 4 0%nat (example_args 5 7)
     = Some (chunked_launcher 3 second_call_fails 0%nat (example_args 5 7)).
Proof.
  assert (H1 : 0 < 3 <= c_i32_max) by (vm_compute; split; congruence).
  assert (H2 : 1 <= n_64 (example_args 5 7) <= c_i32_max)
    by (vm_compute; split; congruence).
  assert (H3 : 1 <= batch_count_64 (example_args 5 7)) by (vm_compute; congruence).
  assert (H4 : (batch_count_64 (example_args 5 7) + 3 - 1) / 3 * 3 <= c_i64_max)
    by (vm_compute; congruence).
  assert (H5 : (chunk_count 3 (batch_count_64 (example_args 5 7)) < 4)%nat)
    by (vm_compute; repeat constructor).
  split; [repeat split; assumption|].
  exact (proj1 (hpmv_launcher_64_chunked unit nat 3 second_call_fails 4 0%nat
                  (example_args 5 7) H1 H2 H3 H4 H5)).
Defined.

(** C8: with [n_64 = 0] or [batch_count_64 = 0] the shim returns
    [rocblas_status_success] and makes no call of the 32-bit launcher,
    whatever the other arguments, the launcher and the fuel are. *)
Theorem hpmv_launcher_64_quick_return :
  forall (TScal H : Type) (chunk : Z)
         (launcher : hpmv_call TScal -> H -> rocblas_status * H)
         (fuel : nat) (h : H) (a : hpmv_args_64 TScal),
    n_64 a = 0 \/ batch_count_64 a = 0 ->
    rocblas_hpmv_launcher_64 chunk launcher fuel h a
    = Some (rocblas_status_success, [], h).
Proof.
  intros TScal H chunk launcher fuel h a Hzero.
  unfold rocblas_hpmv_launcher_64.
  destruct Hzero as [-> | ->]; cbn [Z.eqb orb]; [reflexivity|].
  now rewrite orb_true_r.
Qed.

Lemma hpmv_launcher_64_quick_return_witness :
  (n_64 (example_args (2 ^ 40) 0) = 0 \/ batch_count_64 (example_args (2 ^ 40) 0) = 0)
  /\ rocblas_hpmv_launcher_64 65535 second_call_fails 0 0%nat (example_args (2 ^ 40) 0)
     = Some (rocblas_status_success, [], 0%nat).
Proof.
  assert (Hz : n_64 (example_args (2 ^ 40) 0) = 0
               \/ batch_count_64 (example_args (2 ^ 40) 0) = 0)
    by (right; reflexivity).
  split; [exact Hz|].
  exact (hpmv_launcher_64_quick_return unit nat 65535 second_call_fails 0 0%nat
           (example_args (2 ^ 40) 0) Hz).
Defined.

(** C9 fails as stated: a dimension above [INT32_MAX] with an empty batch
    is a quick return with [rocblas_status_success]. *)
Lemma hpmv_launcher_64_large_n_empty_batch :
  n_64 (example_args (2 ^ 31) 0) > c_i32_max
  /\ rocblas_hpmv_launcher_64 65535 accepting_launcher 1 tt (example_args (2 ^ 31) 0)
     = Some (rocblas_status_success, [], tt)
  /\ rocblas_hpmv_launcher_64 65535 accepting_launcher 1 tt (example_args (2 ^ 31) 0)
     <> Some (rocblas_status_invalid_size, [], tt).
Proof.
  split; [reflexivity|]. split; [reflexivity|]. vm_compute. discriminate.
Qed.

(** C9, as amended: with [n_64 > c_i32_max] and a batch count other than
    zero the shim returns [rocblas_status_invalid_size] and makes no call
    of the 32-bit launcher. *)
Theorem hpmv_launcher_64_invalid_size :
  forall (TScal H : Type) (chunk : Z)
         (launcher : hpmv_call TScal -> H -> rocblas_status * H)
         (fuel : nat) (h : H) (a : hpmv_args_64 TScal),
    n_64 a > c_i32_max ->
    batch_count_64 a <> 0 ->
    rocblas_hpmv_launcher_64 chunk launcher fuel h a
    = Some (rocblas_status_invalid_size, [], h).
Proof.
  intros TScal H chunk launcher fuel h a Hn Hbc.
  unfold rocblas_hpmv_launcher_64.
  replace (n_64 a =? 0) with false
    by (symmetry; apply Z.eqb_neq; unfold c_i32_max in Hn; lia).
  replace (batch_count_64 a =? 0) with false by (symmetry; now apply Z.eqb_neq).
  replace (n_64 a >? c_i32_max) with true
    by (symmetry; rewrite Z.gtb_ltb; apply Z.ltb_lt; lia).
  reflexivity.
Qed.

Lemma hpmv_launcher_64_invalid_size_witness :
  (n_64 (example_args (2 ^ 31) 70000) > c_i32_max
   /\ batch_count_64 (example_args (2 ^ 31) 70000) <> 0)
  /\ rocblas_hpmv_launcher_64 65535 accepting_launcher 0 tt (example_args (2 ^ 31) 70000)
     = Some (rocblas_status_invalid_size, [], tt).
Proof.
  assert (Hn : n_64 (example_args (2 ^ 31) 70000) > c_i32_max) by reflexivity.
  assert (Hbc : batch_count_64 (example_args (2 ^ 31) 70000) <> 0)
    by (vm_compute; discriminate).
  split; [split; assumption|].
  exact (hpmv_launcher_64_invalid_size unit unit 65535 accepting_launcher 0 tt
           (example_args (2 ^ 31) 70000) Hn Hbc).
Defined.

End Hpmv64Facts.

(** ** Strided-batched TRTRI *)

Module TrtriFacts.
Import Trtri.

Section Wrapper.

Variable L : library.

(** C3: a call with a handle, outside a device-memory-size query, whose
    logging returns and whose argument check returns
    [rocblas_status_continue], selects the kernel by [n]: for [n <= NB]
    it calls [rocblas_trtri_small] and never [device_malloc]; for
    [n > NB] it first asks [device_malloc] for
    [rocblas_internal_trtri_temp_size<NB>(n, batch_count) * sizeof(T)]
    bytes, returns [rocblas_status_memory_error] without a kernel call
    when the allocation comes back null, and otherwise calls
    [rocblas_trtri_large] with the allocation.  The outcome of the wrapper
    is the outcome of the kernel launcher it called.  The four C entry
    points instantiate the wrapper at [NB = 16]. *)
Theorem trtri_impl_selects_kernel_by_size :
  forall (NB : Z) (T : element_type) (h : _rocblas_handle) (a : trtri_args),
    is_device_memory_size_query h = false ->
    logging_returns L T h a ->
    rocblas_trtri_arg_check L h a = returned rocblas_status_continue ->
    (n a <= NB ->
     rocblas_trtri_strided_batched_impl L NB T (Some h) a
     = (logging_calls L T h a
          ++ [call_rocblas_trtri_arg_check a;
              call_rocblas_trtri_small NB T (kernel_args_of a)],
        rocblas_trtri_small L NB T h (kernel_args_of a)))
    /\ (n a > NB ->
        device_malloc L h (temp_size_in_bytes L NB T a) = returned None ->
        rocblas_trtri_strided_batched_impl L NB T (Some h) a
        = (logging_calls L T h a
             ++ [call_rocblas_trtri_arg_check a;
                 call_device_malloc (temp_size_in_bytes L NB T a)],
           returned rocblas_status_memory_error))
    /\ (n a > NB ->
        forall w : Z,
          device_malloc L h (temp_size_in_bytes L NB T a) = returned (Some w) ->
          rocblas_trtri_strided_batched_impl L NB T (Some h) a
          = (logging_calls L T h a
               ++ [call_rocblas_trtri_arg_check a;
                   call_device_malloc (temp_size_in_bytes L NB T a);
                   call_rocblas_trtri_large NB T (kernel_args_of a) w],
             rocblas_trtri_large L NB T h (kernel_args_of a) w))
    /\ (forall handle uplo diag n A lda bsa invA ldinvA bsinvA batch_count,
          let args := Build_trtri_args uplo diag n A lda bsa invA ldinvA bsinvA batch_count in
          rocblas_strtri_strided_batched L handle uplo diag n A lda bsa invA ldinvA bsinvA
            batch_count
          = try_catch_all L (rocblas_trtri_strided_batched_impl L 16 float handle args)
          /\ rocblas_dtrtri_strided_batched L handle uplo diag n A lda bsa invA ldinvA bsinvA
               batch_count
             = try_catch_all L (rocblas_trtri_strided_batched_impl L 16 double handle args)
          /\ rocblas_ctrtri_strided_batched L handle uplo diag n A lda bsa invA ldinvA bsinvA
               batch_count
             = try_catch_all L
                 (rocblas_trtri_strided_batched_impl L 16 rocblas_float_complex handle args)
          /\ rocblas_ztrtri_strided_batched L handle uplo diag n A lda bsa invA ldinvA bsinvA
               batch_count
             = try_catch_all L
                 (rocblas_trtri_strided_batched_impl L 16 rocblas_double_complex handle args)).
Proof.
  intros NB T h a Hquery [Htrace Hprofile] Hcheck.
  assert (Hshape :
            forall k : rocblas_status -> M rocblas_status,
              bind (if negb (Z.land (layer_mode h) (rocblas_layer_mode_log_trace L) =? 0)
                    then call (call_log_trace (rocblas_trtri_name T) a)
                              (log_trace L h (rocblas_trtri_name T) a)
                    else ret tt)
                (fun _ =>
                   bind (if negb (Z.land (layer_mode h) (rocblas_layer_mode_log_profile L) =? 0)
                         then call (call_log_profile (rocblas_trtri_name T) a)
                                   (log_profile L h (rocblas_trtri_name T) a)
                         else ret tt)
                     (fun _ =>
                        bind (call (call_rocblas_trtri_arg_check a)
                                   (rocblas_trtri_arg_check L h a)) k))
              = (logging_calls L T h a
                   ++ call_rocblas_trtri_arg_check a :: fst (k rocblas_status_continue),
                 snd (k rocblas_status_continue))).
  { intros k. unfold logging_calls. rewrite Hcheck.
    destruct (Z.eqb_spec (Z.land (layer_mode h) (rocblas_layer_mode_log_trace L)) 0)
      as [_|Hbit1];
      destruct (Z.eqb_spec (Z.land (layer_mode h) (rocblas_layer_mode_log_profile L)) 0)
      as [_|Hbit2];
      cbn [negb];
      try rewrite (Htrace Hbit1); try rewrite (Hprofile Hbit2);
      unfold bind, call, ret; cbn [app fst snd];
      destruct (k rocblas_status_continue) as [t r]; reflexivity. }
  unfold rocblas_trtri_strided_batched_impl. rewrite Hquery.
  fold (temp_size_in_bytes L NB T a). cbv zeta. rewrite Hshape.
  replace (negb (status_eqb rocblas_status_continue rocblas_status_continue))
    with false by reflexivity.
  repeat split.
  - intros Hn. apply Z.leb_le in Hn. rewrite Hn. reflexivity.
  - intros Hn Hmalloc.
    replace (n a <=? NB) with false by (symmetry; apply Z.leb_gt; lia).
    rewrite Hmalloc. reflexivity.
  - intros Hn w Hmalloc.
    replace (n a <=? NB) with false by (symmetry; apply Z.leb_gt; lia).
    rewrite Hmalloc. reflexivity.
Qed.

Lemma try_catch_all_cases (m : M rocblas_status) :
  (exists status, m = (fst (try_catch_all L m), returned status)
                  /\ snd (try_catch_all L m) = status)
  \/ (exists e, m = (fst (try_catch_all L m), thrown e)
                /\ snd (try_catch_all L m) = exception_to_rocblas_status L e).
Proof.
  destruct m as [t [status|e]]; cbn [try_catch_all fst snd].
  - left. now exists status.
  - right. now exists e.
Qed.

(** C2: each of the four C entry points returns a status for every
    input: the status the wrapper returned, or, when the wrapper threw,
    the status [exception_to_rocblas_status] makes of the exception.
    The result type has no exceptional outcome: nothing is thrown to the
    caller. *)
Theorem trtri_entry_points_return_status :
  returns_status_of_impl L float (rocblas_strtri_strided_batched L)
  /\ returns_status_of_impl L double (rocblas_dtrtri_strided_batched L)
  /\ returns_status_of_impl L rocblas_float_complex (rocblas_ctrtri_strided_batched L)
  /\ returns_status_of_impl L rocblas_double_complex (rocblas_ztrtri_strided_batched L).
Proof.
  repeat split; intros handle uplo diag n A lda bsa invA ldinvA bsinvA batch_count;
    cbv zeta; apply try_catch_all_cases.
Qed.

(** C4: with a handle that is in a device-memory-size query the wrapper
    makes no logging call, no argument check and no kernel call: for
    [n <= NB] or [batch_count = 0] it returns
    [rocblas_status_size_unchanged] without any call, and otherwise its
    only call is [set_optimal_device_memory_size] with
    [rocblas_internal_trtri_temp_size<NB>(n, batch_count) * sizeof(T)],
    whose outcome it returns. *)
Theorem trtri_impl_size_query :
  forall (NB : Z) (T : element_type) (h : _rocblas_handle) (a : trtri_args),
    is_device_memory_size_query h = true ->
    (n a <= NB \/ batch_count a = 0 ->
     rocblas_trtri_strided_batched_impl L NB T (Some h) a
     = ([], returned rocblas_status_size_unchanged))
    /\ (~ (n a <= NB \/ batch_count a = 0) ->
        rocblas_trtri_strided_batched_impl L NB T (Some h) a
        = ([call_set_optimal_device_memory_size (temp_size_in_bytes L NB T a)],
           set_optimal_device_memory_size L h (temp_size_in_bytes L NB T a))).
Proof.
  intros NB T h a Hquery.
  unfold rocblas_trtri_strided_batched_impl. rewrite Hquery.
  fold (temp_size_in_bytes L NB T a). cbv zeta.
  split; intros Hcase.
  - replace ((n a <=? NB) || (batch_count a =? 0)) with true; [reflexivity|].
    symmetry. apply orb_true_iff.
    destruct Hcase as [Hn | Hb]; [left; now apply Z.leb_le | right; now apply Z.eqb_eq].
  - replace ((n a <=? NB) || (batch_count a =? 0)) with false; [reflexivity|].
    symmetry. apply orb_false_iff. split; [apply Z.leb_gt | apply Z.eqb_neq]; lia.
Qed.

(** Without a handle the wrapper returns at once. *)
Lemma trtri_impl_null_handle (NB : Z) (T : element_type) (a : trtri_args) :
  rocblas_trtri_strided_batched_impl L NB T None a
  = ([], returned rocblas_status_invalid_handle).
Proof. reflexivity. Qed.

(** A kernel is launched only after the argument check, and only when
    the check returned [rocblas_status_continue]. *)
Lemma trtri_impl_checks_before_kernel
      (NB : Z) (T : element_type) (handle : rocblas_handle) (a : trtri_args) :
  existsb is_kernel_launch (fst (rocblas_trtri_strided_batched_impl L NB T handle a)) = true ->
  exists h before after,
    handle = Some h
    /\ fst (rocblas_trtri_strided_batched_impl L NB T handle a)
       = before ++ call_rocblas_trtri_arg_check a :: after
    /\ existsb is_kernel_launch before = false
    /\ rocblas_trtri_arg_check L h a = returned rocblas_status_continue.
Proof.
  destruct handle as [h|]; [|discriminate].
  unfold rocblas_trtri_strided_batched_impl. cbv zeta.
  destruct (is_device_memory_size_query h).
  { destruct ((n a <=? NB) || (batch_count a =? 0)); discriminate. }
  intros Hlaunch. exists h, (logging_calls L T h a). unfold logging_calls.
  destruct (Z.land (layer_mode h) (rocblas_layer_mode_log_trace L) =? 0);
    destruct (Z.land (layer_mode h) (rocblas_layer_mode_log_profile L) =? 0);
    cbn [negb] in *;
    try (destruct (log_trace L h (rocblas_trtri_name T) a) as [[]|e1]; [|discriminate]);
    try (destruct (log_profile L h (rocblas_trtri_name T) a) as [[]|e2]; [|discriminate]);
    (destruct (rocblas_trtri_arg_check L h a) as [status|e3]; [|discriminate]);
    (destruct (rocblas_status_eq_dec status rocblas_status_continue) as [->|Hne];
     [|apply status_eqb_neq in Hne; unfold bind, call, ret in Hlaunch;
       rewrite Hne in Hlaunch; discriminate]);
    unfold bind, call, ret in *;
    replace (negb (status_eqb rocblas_status_continue rocblas_status_continue))
      with false in * by reflexivity;
    destruct (n a <=? NB);
    try (destruct (device_malloc L h _) as [[w|]|e4]);
    cbn [app fst snd existsb is_kernel_launch orb] in *;
    try discriminate; eexists; repeat split; reflexivity.
Qed.

End Wrapper.

Lemma trtri_impl_selects_kernel_by_size_witness :
  (is_device_memory_size_query (Build_handle false 5) = false
   /\ logging_returns example_library float (Build_handle false 5) (example_args 32 3)
   /\ rocblas_trtri_arg_check example_library (Build_handle false 5) (example_args 32 3)
      = returned rocblas_status_continue
   /\ n (example_args 32 3) > 16
   /\ device_malloc example_library (Build_handle false 5)
        (temp_size_in_bytes example_library 16 float (example_args 32 3))
      = returned (Some 4096))
  /\ rocblas_trtri_strided_batched_impl example_library 16 float
       (Some (Build_handle false 5)) (example_args 32 3)
     = ([call_log_trace "rocblas_strtri_strided_batched" (example_args 32 3);
         call_log_profile "rocblas_strtri_strided_batched" (example_args 32 3);
         call_rocblas_trtri_arg_check (example_args 32 3);
         call_device_malloc 12288;
         call_rocblas_trtri_large 16 float (kernel_args_of (example_args 32 3)) 4096],
        returned rocblas_status_success).
Proof.
  assert (H1 : is_device_memory_size_query (Build_handle false 5) = false) by reflexivity.
  assert (H2 : logging_returns example_library float (Build_handle false 5)
                 (example_args 32 3)) by (split; intros _; reflexivity).
  assert (H3 : rocblas_trtri_arg_check example_library (Build_handle false 5)
                 (example_args 32 3) = returned rocblas_status_continue) by reflexivity.
  assert (H4 : n (example_args 32 3) > 16) by reflexivity.
  assert (H5 : device_malloc example_library (Build_handle false 5)
                 (temp_size_in_bytes example_library 16 float (example_args 32 3))
               = returned (Some 4096)) by reflexivity.
  split; [repeat split; assumption|].
  exact (proj1 (proj2 (proj2 (trtri_impl_selects_kernel_by_size example_library 16 float
                                (Build_handle false 5) (example_args 32 3) H1 H2 H3)))
           H4 4096 H5).
Defined.

Lemma trtri_impl_size_query_witness :
  (is_device_memory_size_query (Build_handle true 5) = true
   /\ ~ (n (example_args 32 3) <= 16 \/ batch_count (example_args 32 3) = 0))
  /\ rocblas_trtri_strided_batched_impl example_library 16 float
       (Some (Build_handle true 5)) (example_args 32 3)
     = ([call_set_optimal_device_memory_size 12288], returned rocblas_status_success).
Proof.
  assert (H1 : is_device_memory_size_query (Build_handle true 5) = true) by reflexivity.
  assert (H2 : ~ (n (example_args 32 3) <= 16 \/ batch_count (example_args 32 3) = 0))
    by (intros [Hn | Hb]; [apply Hn; reflexivity | discriminate Hb]).
  split; [split; assumption|].
  exact (proj2 (trtri_impl_size_query example_library 16 float
                  (Build_handle true 5) (example_args 32 3) H1) H2).
Defined.

End TrtriFacts.

(** ** The SPR2-batched client *)

Module Spr2BatchedFacts.
Import Client Spr2Batched.

Section Validation.

Context {T : Type} `{Element T}.

Lemma invalid_size_test (c : call T) :
  (N c <? 0) || (incx c =? 0) || (incy c =? 0) || (batch_count c <? 0) = true
  <-> (N c < 0 \/ incx c = 0 \/ incy c = 0 \/ batch_count c < 0).
Proof.
  rewrite !orb_true_iff, !Z.ltb_lt, !Z.eqb_eq. tauto.
Qed.

Variable launcher : call T -> rocblas_status.

Lemma rocblas_spr2_batched_invalid_size (c : call T) (pointer_mode : rocblas_pointer_mode) :
  handle c = Some pointer_mode ->
  uplo c <> rocblas_fill_full ->
  N c < 0 \/ incx c = 0 \/ incy c = 0 \/ batch_count c < 0 ->
  rocblas_spr2_batched launcher c = rocblas_status_invalid_size.
Proof.
  intros Hh Hu Hsize. apply invalid_size_test in Hsize.
  unfold rocblas_spr2_batched. rewrite Hh, Hsize.
  destruct (uplo c); [reflexivity | reflexivity | congruence].
Qed.

Lemma rocblas_spr2_batched_quick_return (c : call T) (pointer_mode : rocblas_pointer_mode) :
  handle c = Some pointer_mode ->
  uplo c <> rocblas_fill_full ->
  ~ (N c < 0 \/ incx c = 0 \/ incy c = 0 \/ batch_count c < 0) ->
  N c = 0 \/ batch_count c = 0
  \/ (exists b value, alpha c = Some (b, value) /\ T_is_zero value = true) ->
  rocblas_spr2_batched launcher c = rocblas_status_success.
Proof.
  intros Hh Hu Hsize Hquick.
  assert (Hsize' : (N c <? 0) || (incx c =? 0) || (incy c =? 0) || (batch_count c <? 0) = false).
  { destruct ((N c <? 0) || (incx c =? 0) || (incy c =? 0) || (batch_count c <? 0)) eqn:E;
      [|reflexivity].
    apply invalid_size_test in E. contradiction. }
  unfold rocblas_spr2_batched. rewrite Hh, Hsize'.
  destruct (uplo c); [| |congruence];
    (destruct Hquick as [HN | [Hb | (b & value & Ha & Hz)]];
     [ rewrite HN; reflexivity
     | rewrite Hb, orb_true_r; reflexivity
     | rewrite Ha, Hz; destruct ((N c =? 0) || (batch_count c =? 0)); reflexivity ]).
Qed.

(** The early return of [testing_spr2_batched] makes one call, with all
    pointers null, and the validation returns what the harness expects. *)
Lemma testing_spr2_batched_early_return
      (R : runtime T) (arg : test_arguments) (numerical_test : test (step T) unit) :
  rocblas_spr2_batched_fn R = rocblas_spr2_batched launcher ->
  arg_uplo arg <> rocblas_fill_full ->
  (arg_N arg <= 0 \/ arg_incx arg = 0 \/ arg_incy arg = 0 \/ arg_batch_count arg <= 0) ->
  let c := Build_call (Some (default_pointer_mode R)) (arg_uplo arg) (arg_N arg) None None
             (arg_incx arg) None (arg_incy arg) None (arg_batch_count arg) in
  testing_spr2_batched R arg numerical_test
  = ([local_handle; api_call c (rocblas_spr2_batched launcher c)], Some tt).
Proof.
  intros Hfn Hu Hearly c.
  unfold testing_spr2_batched, DAPI_EXPECT. cbv zeta. rewrite Hfn. fold c.
  destruct ((arg_N arg <? 0) || (arg_incx arg =? 0) || (arg_incy arg =? 0)
            || (arg_batch_count arg <? 0)) eqn:Hsize.
  - cbn [orb]. apply (invalid_size_test c) in Hsize.
    rewrite (rocblas_spr2_batched_invalid_size c (default_pointer_mode R) eq_refl Hu Hsize).
    reflexivity.
  - assert (Hno : ~ (N c < 0 \/ incx c = 0 \/ incy c = 0 \/ batch_count c < 0)).
    { intros Hyes. apply (invalid_size_test c) in Hyes. cbn in Hyes. congruence. }
    cbn [N incx incy batch_count c] in Hno.
    assert (Hzero : arg_N arg = 0 \/ arg_batch_count arg = 0) by lia.
    cbn [orb].
    replace ((arg_N arg =? 0) || (arg_batch_count arg =? 0)) with true
      by (symmetry; apply orb_true_iff; rewrite !Z.eqb_eq; exact Hzero).
    rewrite (rocblas_spr2_batched_quick_return c (default_pointer_mode R) eq_refl Hu);
      [reflexivity | exact Hno | tauto].
Qed.

(** The validation meets every expectation of the bad-argument harness. *)
Lemma testing_spr2_batched_bad_arg_finishes (R : runtime T) :
  rocblas_spr2_batched_fn R = rocblas_spr2_batched launcher ->
  runtime_succeeds R ->
  finished (testing_spr2_batched_bad_arg R) = true.
Proof.
  intros Hfn (Hmode & Hcpy & Hmem).
  unfold testing_spr2_batched_bad_arg, for_each, DAPI_CHECK, DAPI_EXPECT,
    CHECK_ROCBLAS_ERROR_set_pointer_mode, CHECK_HIP_ERROR_hipMemcpy, CHECK_DEVICE_ALLOCATION.
  rewrite Hfn. rewrite !Hmode, !Hcpy, !Hmem.
  cbn. rewrite !T_is_zero_0, !T_is_zero_1. reflexivity.
Qed.

End Validation.

(** Whatever the function under test is, the bad-argument harness runs to
    its end only if the function returns each status the harness expects. *)
Lemma testing_spr2_batched_bad_arg_asserts {T : Type} `{Element T} (R : runtime T) :
  finished (testing_spr2_batched_bad_arg R) = true ->
  forall pointer_mode : rocblas_pointer_mode,
    failures_expected (rocblas_spr2_batched_fn R) pointer_mode
    /\ quick_returns_expected (rocblas_spr2_batched_fn R) pointer_mode.
Proof.
  unfold testing_spr2_batched_bad_arg, for_each, DAPI_CHECK, DAPI_EXPECT,
    CHECK_ROCBLAS_ERROR_set_pointer_mode, CHECK_HIP_ERROR_hipMemcpy, CHECK_DEVICE_ALLOCATION.
  run_checks. cbn [fst snd]. intros Hall.
  split_checks Hall.
  rewrite status_eqb_eq in *.
  unfold failures_expected, quick_returns_expected, alpha_pointer, zero_pointer.
  intros [|]; cbv zeta; repeat split; try assumption; discriminate.
Qed.

(** Whatever the function under test is, the early return of
    [testing_spr2_batched] runs to its end only if the call with all
    pointers null returns the status the harness expects. *)
Lemma testing_spr2_batched_asserts {T : Type} `{Element T}
      (R : runtime T) (arg : test_arguments) (numerical_test : test (step T) unit) :
  arg_N arg <= 0 \/ arg_incx arg = 0 \/ arg_incy arg = 0 \/ arg_batch_count arg <= 0 ->
  finished (testing_spr2_batched R arg numerical_test) = true ->
  rocblas_spr2_batched_fn R
    (Build_call (Some (default_pointer_mode R)) (arg_uplo arg) (arg_N arg) None None
       (arg_incx arg) None (arg_incy arg) None (arg_batch_count arg))
  = (if (arg_N arg <? 0) || (arg_incx arg =? 0) || (arg_incy arg =? 0)
        || (arg_batch_count arg <? 0)
     then rocblas_status_invalid_size
     else rocblas_status_success).
Proof.
  intros Hearly. unfold testing_spr2_batched, DAPI_EXPECT. cbv zeta.
  replace ((arg_N arg <? 0) || (arg_incx arg =? 0) || (arg_incy arg =? 0)
           || (arg_batch_count arg <? 0) || (arg_N arg =? 0) || (arg_batch_count arg =? 0))
    with true.
  - run_checks. intros Hall. now apply status_eqb_eq.
  - symmetry. rewrite !orb_true_iff, !Z.ltb_lt, !Z.eqb_eq. lia.
Qed.

(** C6: as the harness of [rocblas_spr2_batched] asserts with all data
    pointers null, a call with a handle and a fill mode of upper or lower
    returns [rocblas_status_invalid_size] whenever [N < 0], [incx = 0],
    [incy = 0] or [batch_count < 0]; otherwise it returns
    [rocblas_status_success] whenever [N = 0], [batch_count = 0] or [alpha]
    points to zero, whatever [alpha], [x], [y] and [AP] are otherwise, null
    included.  The early return of [testing_spr2_batched] at these sizes and
    the checks of [testing_spr2_batched_bad_arg] go through on this
    validation; and whatever function the harnesses are run on, they run to
    their end only if the call with all pointers null returns
    [rocblas_status_invalid_size] for an invalid size and
    [rocblas_status_success] for [N = 0] or [batch_count = 0], and only if
    the three quick returns of the bad-argument harness ([N == 0],
    [batch_count == 0], [alpha == 0]) return [rocblas_status_success] in
    both pointer modes. *)
Theorem rocblas_spr2_batched_sizes_and_quick_returns :
  forall (T : Type) (E : Element T) (launcher : call T -> rocblas_status) (c : call T)
         (pointer_mode : rocblas_pointer_mode),
    handle c = Some pointer_mode ->
    uplo c <> rocblas_fill_full ->
    (N c < 0 \/ incx c = 0 \/ incy c = 0 \/ batch_count c < 0 ->
     rocblas_spr2_batched launcher c = rocblas_status_invalid_size)
    /\ (~ (N c < 0 \/ incx c = 0 \/ incy c = 0 \/ batch_count c < 0) ->
        N c = 0 \/ batch_count c = 0
        \/ (exists b value, alpha c = Some (b, value) /\ T_is_zero value = true) ->
        rocblas_spr2_batched launcher c = rocblas_status_success)
    /\ (forall (R : runtime T) (numerical_test : test (step T) unit),
          rocblas_spr2_batched_fn R = rocblas_spr2_batched launcher ->
          N c <= 0 \/ incx c = 0 \/ incy c = 0 \/ batch_count c <= 0 ->
          let all_null :=
            Build_call (Some (default_pointer_mode R)) (uplo c) (N c) None None
              (incx c) None (incy c) None (batch_count c) in
          testing_spr2_batched R
            (Build_test_arguments (N c) (incx c) (incy c) (batch_count c) (uplo c))
            numerical_test
          = ([local_handle; api_call all_null (rocblas_spr2_batched launcher all_null)],
             Some tt)
          /\ rocblas_spr2_batched launcher all_null
             = (if (N c <? 0) || (incx c =? 0) || (incy c =? 0) || (batch_count c <? 0)
                then rocblas_status_invalid_size
                else rocblas_status_success))
    /\ (forall R : runtime T,
          rocblas_spr2_batched_fn R = rocblas_spr2_batched launcher ->
          runtime_succeeds R ->
          finished (testing_spr2_batched_bad_arg R) = true)
    /\ (forall (R : runtime T) (numerical_test : test (step T) unit),
          N c <= 0 \/ incx c = 0 \/ incy c = 0 \/ batch_count c <= 0 ->
          finished (testing_spr2_batched R
                      (Build_test_arguments (N c) (incx c) (incy c) (batch_count c) (uplo c))
                      numerical_test) = true ->
          rocblas_spr2_batched_fn R
            (Build_call (Some (default_pointer_mode R)) (uplo c) (N c) None None
               (incx c) None (incy c) None (batch_count c))
          = (if (N c <? 0) || (incx c =? 0) || (incy c =? 0) || (batch_count c <? 0)
             then rocblas_status_invalid_size
             else rocblas_status_success))
    /\ (forall R : runtime T,
          finished (testing_spr2_batched_bad_arg R) = true ->
          forall mode : rocblas_pointer_mode,
            quick_returns_expected (rocblas_spr2_batched_fn R) mode).
Proof.
  intros T E launcher c pointer_mode Hh Hu.
  split; [|split; [|split; [|split; [|split]]]].
  - exact (rocblas_spr2_batched_invalid_size launcher c pointer_mode Hh Hu).
  - exact (rocblas_spr2_batched_quick_return launcher c pointer_mode Hh Hu).
  - intros R numerical_test Hfn Hearly all_null. split.
    + exact (testing_spr2_batched_early_return launcher R
               (Build_test_arguments (N c) (incx c) (incy c) (batch_count c) (uplo c))
               numerical_test Hfn Hu Hearly).
    + destruct ((N c <? 0) || (incx c =? 0) || (incy c =? 0) || (batch_count c <? 0)) eqn:Hsize.
      * apply (rocblas_spr2_batched_invalid_size launcher all_null (default_pointer_mode R)
                 eq_refl Hu).
        apply (invalid_size_test c). exact Hsize.
      * assert (Hno : ~ (N c < 0 \/ incx c = 0 \/ incy c = 0 \/ batch_count c < 0)).
        { intros Hyes. apply (invalid_size_test c) in Hyes. congruence. }
        apply (rocblas_spr2_batched_quick_return launcher all_null (default_pointer_mode R)
                 eq_refl Hu Hno).
        cbn [N batch_count all_null]. lia.
  - intros R. exact (testing_spr2_batched_bad_arg_finishes launcher R).
  - intros R numerical_test Hearly Hfin.
    exact (testing_spr2_batched_asserts R
             (Build_test_arguments (N c) (incx c) (incy c) (batch_count c) (uplo c))
             numerical_test Hearly Hfin).
  - intros R Hfin mode. exact (proj2 (testing_spr2_batched_bad_arg_asserts R Hfin mode)).
Qed.

Lemma rocblas_spr2_batched_sizes_and_quick_returns_witness :
  (handle (Build_call (Some rocblas_pointer_mode_device) rocblas_fill_lower 100
             (Some (zero_d, 0)) None 1 None 1 None 2)
   = Some rocblas_pointer_mode_device
   /\ uplo (Build_call (Some rocblas_pointer_mode_device) rocblas_fill_lower 100
              (Some (zero_d, 0)) None 1 None 1 None 2)
      <> rocblas_fill_full)
  /\ rocblas_spr2_batched example_launcher
       (Build_call (Some rocblas_pointer_mode_device) rocblas_fill_lower 100
          (Some (zero_d, 0)) None 1 None 1 None 2)
     = rocblas_status_success.
Proof.
  assert (H1 : handle (Build_call (Some rocblas_pointer_mode_device) rocblas_fill_lower 100
                         (Some (zero_d, 0)) None 1 None 1 None 2)
               = Some rocblas_pointer_mode_device) by reflexivity.
  assert (H2 : uplo (Build_call (Some rocblas_pointer_mode_device) rocblas_fill_lower 100
                       (Some (zero_d, 0)) None 1 None 1 None 2)
               <> rocblas_fill_full) by discriminate.
  split; [split; assumption|].
  apply (proj1 (proj2 (rocblas_spr2_batched_sizes_and_quick_returns Z Element_Z
                         example_launcher _ rocblas_pointer_mode_device H1 H2))).
  - cbn. intros [Hn | [Hx | [Hy | Hb]]]; discriminate.
  - right. right. exists zero_d, 0. split; reflexivity.
Defined.

End Spr2BatchedFacts.

(** ** The NRM2 client *)

Module Nrm2Facts.
Import Client Nrm2.

Section Validation.

Context {F : Type} `{Floating F}.
Variable launcher : call -> rocblas_status * option F.

Lemma rocblas_nrm2_null_handle (c : call) :
  handle c = None ->
  rocblas_nrm2 launcher c = (rocblas_status_invalid_handle, None).
Proof. intros Hh. unfold rocblas_nrm2. now rewrite Hh. Qed.

Lemma rocblas_nrm2_null_pointer (c : call) (pointer_mode : rocblas_pointer_mode) :
  handle c = Some pointer_mode ->
  N c > 0 ->
  incx c > 0 ->
  x c = None \/ result c = None ->
  rocblas_nrm2 launcher c = (rocblas_status_invalid_pointer, None).
Proof.
  intros Hh HN Hincx Hnull. unfold rocblas_nrm2. rewrite Hh.
  replace (N c <=? 0) with false by (symmetry; apply Z.leb_gt; lia).
  replace (incx c <=? 0) with false by (symmetry; apply Z.leb_gt; lia).
  cbn [orb]. destruct Hnull as [-> | ->]; [reflexivity|].
  destruct (x c); reflexivity.
Qed.

(** The validation meets every expectation of the bad-argument harness. *)
Lemma testing_nrm2_bad_arg_finishes (R : runtime F) (arg : test_arguments) :
  rocblas_nrm2_template R = (fun _ => rocblas_nrm2 launcher) ->
  runtime_succeeds R ->
  finished (testing_nrm2_bad_arg R arg) = true.
Proof.
  intros Hfn (Hmode & Hcpy & Hmem & Hstream).
  unfold testing_nrm2_bad_arg, EXPECT_ROCBLAS_STATUS, rocblas_nrm2_fn,
    CHECK_ROCBLAS_ERROR_set_pointer_mode, CHECK_memcheck.
  rewrite Hfn. rewrite !Hmode, !Hmem. reflexivity.
Qed.

End Validation.

(** Whatever the function under test is, the bad-argument harness runs to
    its end only if the function returns each status the harness expects. *)
Lemma testing_nrm2_bad_arg_asserts {F : Type} `{Floating F}
      (R : runtime F) (arg : test_arguments) :
  finished (testing_nrm2_bad_arg R arg) = true ->
  failures_expected (rocblas_nrm2_template R (arg_fortran arg)).
Proof.
  unfold testing_nrm2_bad_arg, EXPECT_ROCBLAS_STATUS, rocblas_nrm2_fn,
    CHECK_ROCBLAS_ERROR_set_pointer_mode, CHECK_memcheck.
  cbv zeta. run_checks. cbn [fst snd]. intros Hall.
  split_checks Hall.
  rewrite status_eqb_eq in *. unfold failures_expected. repeat split; assumption.
Qed.

(** C7: for [N > 0], [incx > 0] and [unit_check] enabled, when the runtime
    calls succeed and both GPU calls return [rocblas_status_success],
    [testing_nrm2] goes through these steps in this order: it allocates,
    seeds the random generator and initialises the host input [hx], copies
    [hx] to the device buffer [dx], calls the GPU routine once in host
    pointer mode and once in device pointer mode, both on [dx], calls the
    reference [cblas_nrm2] on [hx], and compares each of the two GPU results
    with the reference result under the tolerance
    [abs_error = (pow(10.0, -(digits10 / 2.0)) * cpu_result) * 2.0].  The test
    passes only if both comparisons hold. *)
Theorem testing_nrm2_unit_check_steps :
  forall (F : Type) (Fl : Floating F) (R : runtime F) (arg : test_arguments),
    arg_N arg > 0 ->
    arg_incx arg > 0 ->
    arg_unit_check arg = true ->
    runtime_succeeds R ->
    let N := arg_N arg in
    let incx := arg_incx arg in
    let host_call :=
      Build_call (Some rocblas_pointer_mode_host) N (Some dx) incx (Some rocblas_result_1) in
    let device_call :=
      Build_call (Some rocblas_pointer_mode_device) N (Some dx) incx (Some d_rocblas_result_2) in
    let on_host := rocblas_nrm2_template R (arg_fortran arg) host_call in
    let on_device := rocblas_nrm2_template R (arg_fortran arg) device_call in
    fst on_host = rocblas_status_success ->
    fst on_device = rocblas_status_success ->
    let result_1 := match snd on_host with Some v => v | None => uninitialized R end in
    let result_2 := match snd on_device with Some v => v | None => uninitialized R end in
    let cpu_result := cblas_nrm2_value R N incx in
    let abs_error :=
      F_mul (F_mul (F_pow (F_of_int 10) (F_opp (F_div (F_of_int (digits10 R)) (F_of_int 2))))
                   cpu_result)
            (F_of_int 2) in
    exists rest,
      fst (testing_nrm2 R arg)
      = [local_handle;
         device_vector dx (to_size_t (N * to_size_t incx));
         device_vector d_rocblas_result_2 1;
         memcheck dx hipSuccess;
         memcheck d_rocblas_result_2 hipSuccess;
         host_vector hx (to_size_t (N * to_size_t incx));
         rocblas_seedrand;
         rocblas_init hx 1 N incx;
         hipMemcpy dx hx (to_size_t (to_size_t (sizeof_T R * N) * incx)) hipSuccess;
         rocblas_set_pointer_mode rocblas_pointer_mode_host rocblas_status_success;
         api_call host_call rocblas_status_success (snd on_host);
         rocblas_set_pointer_mode rocblas_pointer_mode_device rocblas_status_success;
         api_call device_call rocblas_status_success (snd on_device);
         hipMemcpy rocblas_result_2 d_rocblas_result_2 (sizeof_real_t R) hipSuccess;
         get_time_us_no_sync;
         cblas_nrm2 N hx incx cpu_result;
         get_time_us_no_sync;
         near_check_general cpu_result result_1 abs_error
           (near_check R cpu_result result_1 abs_error);
         near_check_general cpu_result result_2 abs_error
           (near_check R cpu_result result_2 abs_error)]
        ++ rest
      /\ (passed (testing_nrm2 R arg) = true ->
          near_check R cpu_result result_1 abs_error = true
          /\ near_check R cpu_result result_2 abs_error = true).
Proof.
  intros F Fl R arg HN Hincx Hunit (Hmode & Hcpy & Hmem & Hstream).
  intros N incx host_call device_call on_host on_device Hs1 Hs2
         result_1 result_2 cpu_result abs_error.
  match goal with
  | |- exists rest, ?trace = ?steps ++ rest /\ _ =>
      assert (Htrace : exists rest, trace = steps ++ rest)
  end.
  { unfold testing_nrm2. cbv zeta.
    fold N incx. fold host_call device_call.
    replace ((N <=? 0) || (incx <=? 0)) with false
      by (symmetry; apply orb_false_iff; split; apply Z.leb_gt; subst N incx; lia).
    rewrite Hunit. cbn [orb].
    unfold CHECK_ROCBLAS_ERROR, EXPECT_ROCBLAS_STATUS, rocblas_nrm2_fn,
      CHECK_ROCBLAS_ERROR_set_pointer_mode, CHECK_HIP_ERROR_hipMemcpy, CHECK_memcheck.
    rewrite !Hmode, !Hmem, !Hcpy.
    fold on_host on_device.
    destruct on_host as [s1 st1] eqn:E1. destruct on_device as [s2 st2] eqn:E2.
    cbn [fst snd] in *. subst s1 s2.
    rewrite ?Hstream.
    change (status_eqb rocblas_status_success rocblas_status_success) with true.
    destruct (arg_norm_check arg); destruct (arg_timing arg);
      try (destruct (for_iter (arg_cold_iters arg) _) as [t1 [[]|]]);
      try (destruct (for_iter (arg_iters arg) _) as [t2 [[]|]]);
      cbn [bind did fatal ret fst snd app hip_ok];
      eexists; cbn [app]; reflexivity. }
  destruct Htrace as [rest Htrace]. exists rest. split; [exact Htrace|].
  unfold passed. rewrite Htrace, forallb_app. cbn [forallb step_ok].
  intros Hpass. apply andb_true_iff in Hpass. destruct Hpass as [_ Hpass].
  apply andb_true_iff in Hpass. destruct Hpass as [Hpass _].
  rewrite !andb_true_l in Hpass.
  apply andb_true_iff in Hpass. destruct Hpass as [H1 H2].
  apply andb_true_iff in H2. destruct H2 as [H2 _].
  split; assumption.
Qed.

Lemma testing_nrm2_unit_check_steps_witness :
  (arg_N (Build_test_arguments false 5 2 true false false 1 2) > 0
   /\ arg_incx (Build_test_arguments false 5 2 true false false 1 2) > 0
   /\ arg_unit_check (Build_test_arguments false 5 2 true false false 1 2) = true
   /\ runtime_succeeds (example_runtime (rocblas_nrm2 example_launcher)))
  /\ exists rest,
      fst (testing_nrm2 (example_runtime (rocblas_nrm2 example_launcher))
             (Build_test_arguments false 5 2 true false false 1 2))
      = [local_handle;
         device_vector dx 10;
         device_vector d_rocblas_result_2 1;
         memcheck dx hipSuccess;
         memcheck d_rocblas_result_2 hipSuccess;
         host_vector hx 10;
         rocblas_seedrand;
         rocblas_init hx 1 5 2;
         hipMemcpy dx hx 40 hipSuccess;
         rocblas_set_pointer_mode rocblas_pointer_mode_host rocblas_status_success;
         api_call (Build_call (Some rocblas_pointer_mode_host) 5 (Some dx) 2
                     (Some rocblas_result_1))
           rocblas_status_success (Some 10);
         rocblas_set_pointer_mode rocblas_pointer_mode_device rocblas_status_success;
         api_call (Build_call (Some rocblas_pointer_mode_device) 5 (Some dx) 2
                     (Some d_rocblas_result_2))
           rocblas_status_success (Some 10);
         hipMemcpy rocblas_result_2 d_rocblas_result_2 4 hipSuccess;
         get_time_us_no_sync;
         cblas_nrm2 5 hx 2 10;
         get_time_us_no_sync;
         near_check_general 10 10 0 true;
         near_check_general 10 10 0 true]
        ++ rest.
Proof.
  assert (H1 : arg_N (Build_test_arguments false 5 2 true false false 1 2) > 0)
    by reflexivity.
  assert (H2 : arg_incx (Build_test_arguments false 5 2 true false false 1 2) > 0)
    by reflexivity.
  assert (H3 : arg_unit_check (Build_test_arguments false 5 2 true false false 1 2) = true)
    by reflexivity.
  assert (H4 : runtime_succeeds (example_runtime (rocblas_nrm2 example_launcher)))
    by (repeat split).
  split; [repeat split; assumption|].
  destruct (testing_nrm2_unit_check_steps Z Floating_Z
              (example_runtime (rocblas_nrm2 example_launcher))
              (Build_test_arguments false 5 2 true false false 1 2)
              H1 H2 H3 H4 eq_refl eq_refl) as [rest [Htrace _]].
  exists rest. exact Htrace.
Defined.

End Nrm2Facts.

(** ** The DOT client *)

Module DotFacts.
Import Client Dot.

Section Validation.

Context {T : Type} `{Element T}.
Variable launcher : bool -> call -> rocblas_status * option T.

Lemma rocblas_dot_null_handle (CONJ : bool) (c : call) :
  handle c = None ->
  rocblas_dot CONJ launcher c = (rocblas_status_invalid_handle, None).
Proof. intros Hh. unfold rocblas_dot. now rewrite Hh. Qed.

Lemma rocblas_dot_null_pointer (CONJ : bool) (c : call) (pointer_mode : rocblas_pointer_mode) :
  handle c = Some pointer_mode ->
  N c > 0 ->
  x c = None \/ y c = None \/ result c = None ->
  rocblas_dot CONJ launcher c = (rocblas_status_invalid_pointer, None).
Proof.
  intros Hh HN Hnull. unfold rocblas_dot. rewrite Hh.
  replace (N c <=? 0) with false by (symmetry; apply Z.leb_gt; lia).
  destruct Hnull as [-> | [-> | ->]]; [reflexivity| |].
  - destruct (x c); reflexivity.
  - destruct (x c); [destruct (y c)|]; reflexivity.
Qed.

Lemma rocblas_dot_quick_return
      (CONJ : bool) (c : call) (pointer_mode : rocblas_pointer_mode) (r : buffer) :
  handle c = Some pointer_mode ->
  N c <= 0 ->
  result c = Some r ->
  rocblas_dot CONJ launcher c = (rocblas_status_success, Some (T_of_int 0)).
Proof.
  intros Hh HN Hr. unfold rocblas_dot. rewrite Hh, Hr.
  replace (N c <=? 0) with true by (symmetry; apply Z.leb_le; lia).
  reflexivity.
Qed.

(** The validation meets every expectation of the bad-argument harness. *)
Lemma testing_dot_bad_arg_finishes (R : runtime T) (CONJ : bool) (arg : test_arguments) :
  rocblas_dot_template R = (fun CONJ _ => rocblas_dot CONJ launcher) ->
  runtime_succeeds R ->
  finished (testing_dot_bad_arg R CONJ arg) = true.
Proof.
  intros Hfn (Hmode & Hcpy & Hmem).
  unfold testing_dot_bad_arg, for_each, EXPECT_ROCBLAS_STATUS,
    CHECK_ROCBLAS_ERROR_set_pointer_mode, CHECK_memcheck.
  rewrite Hfn. rewrite !Hmode, !Hmem. reflexivity.
Qed.

(** The early exit of [testing_dot]: both calls succeed and both stored
    results pass the unit check against [T(0)]. *)
Lemma testing_dot_early_exit
      (R : runtime T) (CONJ : bool) (arg : test_arguments)
      (numerical_test : test (step T) unit) :
  rocblas_dot_template R = (fun CONJ _ => rocblas_dot CONJ launcher) ->
  runtime_succeeds R ->
  arg_N arg <= 0 ->
  testing_dot R CONJ arg numerical_test
  = ([local_handle;
      device_vector d_rocblas_result 1 1;
      memcheck d_rocblas_result hipSuccess;
      host_vector h_rocblas_result 1;
      memcheck h_rocblas_result hipSuccess;
      rocblas_set_pointer_mode rocblas_pointer_mode_device rocblas_status_success;
      api_call (Build_call (Some rocblas_pointer_mode_device) (arg_N arg) None (arg_incx arg)
                  None (arg_incy arg) (Some d_rocblas_result))
        rocblas_status_success (Some (T_of_int 0));
      rocblas_set_pointer_mode rocblas_pointer_mode_host rocblas_status_success;
      api_call (Build_call (Some rocblas_pointer_mode_host) (arg_N arg) None (arg_incx arg)
                  None (arg_incy arg) (Some h_rocblas_result))
        rocblas_status_success (Some (T_of_int 0));
      hipMemcpy gpu_0 d_rocblas_result hipSuccess;
      unit_check_general (T_of_int 0) (T_of_int 0) true;
      unit_check_general (T_of_int 0) (T_of_int 0) true],
     Some tt).
Proof.
  intros Hfn (Hmode & Hcpy & Hmem) HN.
  unfold testing_dot, CHECK_ROCBLAS_ERROR, EXPECT_ROCBLAS_STATUS,
    CHECK_ROCBLAS_ERROR_set_pointer_mode, CHECK_memcheck, CHECK_HIP_ERROR_hipMemcpy, contents.
  cbv zeta.
  replace (arg_N arg <=? 0) with true by (symmetry; apply Z.leb_le; lia).
  rewrite Hfn. rewrite !Hmode, !Hmem, !Hcpy. cbv beta.
  rewrite (rocblas_dot_quick_return CONJ
             (Build_call (Some rocblas_pointer_mode_device) (arg_N arg) None (arg_incx arg)
                None (arg_incy arg) (Some d_rocblas_result))
             rocblas_pointer_mode_device d_rocblas_result eq_refl HN eq_refl).
  rewrite (rocblas_dot_quick_return CONJ
             (Build_call (Some rocblas_pointer_mode_host) (arg_N arg) None (arg_incx arg)
                None (arg_incy arg) (Some h_rocblas_result))
             rocblas_pointer_mode_host h_rocblas_result eq_refl HN eq_refl).
  cbn. rewrite T_unit_check_0. reflexivity.
Qed.

End Validation.

(** Whatever the function under test is, the bad-argument harness runs to
    its end only if the function returns each status the harness expects. *)
Lemma testing_dot_bad_arg_asserts {T : Type} `{Element T}
      (R : runtime T) (CONJ : bool) (arg : test_arguments) :
  finished (testing_dot_bad_arg R CONJ arg) = true ->
  forall pointer_mode : rocblas_pointer_mode,
    failures_expected (rocblas_dot_template R CONJ (arg_fortran arg)) pointer_mode.
Proof.
  unfold testing_dot_bad_arg, for_each, EXPECT_ROCBLAS_STATUS,
    CHECK_ROCBLAS_ERROR_set_pointer_mode, CHECK_memcheck.
  cbv zeta. run_checks. cbn [fst snd]. intros Hall.
  split_checks Hall.
  rewrite status_eqb_eq in *. unfold failures_expected.
  intros [|]; cbv zeta; repeat split; assumption.
Qed.

(** Whatever the function under test is, the early exit of [testing_dot]
    passes only if both calls return success and what each stored through
    the result pointer passes the unit check against [T(0)]. *)
Lemma testing_dot_asserts {T : Type} `{Element T}
      (R : runtime T) (CONJ : bool) (arg : test_arguments)
      (numerical_test : test (step T) unit) :
  arg_N arg <= 0 ->
  passed (testing_dot R CONJ arg numerical_test) = true ->
  let fn := rocblas_dot_template R CONJ (arg_fortran arg) in
  let on_device :=
    fn (Build_call (Some rocblas_pointer_mode_device) (arg_N arg) None (arg_incx arg)
          None (arg_incy arg) (Some d_rocblas_result)) in
  let on_host :=
    fn (Build_call (Some rocblas_pointer_mode_host) (arg_N arg) None (arg_incx arg)
          None (arg_incy arg) (Some h_rocblas_result)) in
  fst on_device = rocblas_status_success
  /\ fst on_host = rocblas_status_success
  /\ T_unit_check (T_of_int 0) (contents R d_rocblas_result (snd on_device)) = true
  /\ T_unit_check (T_of_int 0) (contents R h_rocblas_result (snd on_host)) = true.
Proof.
  intros HN Hpass fn on_device on_host.
  unfold passed in Hpass. apply andb_true_iff in Hpass. destruct Hpass as [Hfin Hsteps].
  unfold testing_dot, CHECK_ROCBLAS_ERROR, EXPECT_ROCBLAS_STATUS,
    CHECK_ROCBLAS_ERROR_set_pointer_mode, CHECK_memcheck, CHECK_HIP_ERROR_hipMemcpy in *.
  cbv zeta in *.
  replace (arg_N arg <=? 0) with true in * by (symmetry; apply Z.leb_le; lia).
  fold fn in Hfin, Hsteps. fold on_device on_host in Hfin, Hsteps.
  revert Hsteps. revert Hfin. run_checks. intros Hfin. split_checks Hfin.
  repeat match goal with
         | Hc : ?b = true |- context [fatal ?b] => rewrite Hc
         end.
  cbn [bind did fatal ret fst snd app forallb step_ok andb].
  intros Hsteps. split_checks Hsteps.
  rewrite status_eqb_eq in *.
  repeat split; assumption.
Qed.

(** C10: for every [N <= 0] and any [incx] and [incy], [rocblas_dot] and
    [rocblas_dotc] (either value of [CONJ]), called with a handle in either
    pointer mode and a result pointer, return [rocblas_status_success] and
    store exactly [T(0)] through the result pointer, whatever [x] and [y]
    are, null included.  The early exit of [testing_dot] at this [N] makes
    the device-mode call and the host-mode call with null [x] and [y], both
    return success and store [T(0)], and both unit checks against [T(0)]
    hold: the test passes.  Whatever function the harness is run on, its
    early exit passes only if both calls return success and what each stored
    passes the unit check against [T(0)]. *)
Theorem rocblas_dot_empty_vector :
  forall (T : Type) (E : Element T) (CONJ : bool)
         (launcher : bool -> call -> rocblas_status * option T)
         (c : call) (pointer_mode : rocblas_pointer_mode) (r : buffer),
    handle c = Some pointer_mode ->
    N c <= 0 ->
    result c = Some r ->
    rocblas_dot CONJ launcher c = (rocblas_status_success, Some (T_of_int 0))
    /\ (forall (R : runtime T) (FORTRAN : bool) (numerical_test : test (step T) unit),
          rocblas_dot_template R = (fun CONJ _ => rocblas_dot CONJ launcher) ->
          runtime_succeeds R ->
          let run :=
            testing_dot R CONJ (Build_test_arguments FORTRAN (N c) (incx c) (incy c))
              numerical_test in
          run
          = ([local_handle;
              device_vector d_rocblas_result 1 1;
              memcheck d_rocblas_result hipSuccess;
              host_vector h_rocblas_result 1;
              memcheck h_rocblas_result hipSuccess;
              rocblas_set_pointer_mode rocblas_pointer_mode_device rocblas_status_success;
              api_call (Build_call (Some rocblas_pointer_mode_device) (N c) None (incx c)
                          None (incy c) (Some d_rocblas_result))
                rocblas_status_success (Some (T_of_int 0));
              rocblas_set_pointer_mode rocblas_pointer_mode_host rocblas_status_success;
              api_call (Build_call (Some rocblas_pointer_mode_host) (N c) None (incx c)
                          None (incy c) (Some h_rocblas_result))
                rocblas_status_success (Some (T_of_int 0));
              hipMemcpy gpu_0 d_rocblas_result hipSuccess;
              unit_check_general (T_of_int 0) (T_of_int 0) true;
              unit_check_general (T_of_int 0) (T_of_int 0) true],
             Some tt)
          /\ passed run = true)
    /\ (forall (R : runtime T) (FORTRAN : bool) (numerical_test : test (step T) unit),
          passed (testing_dot R CONJ (Build_test_arguments FORTRAN (N c) (incx c) (incy c))
                    numerical_test) = true ->
          let on_device :=
            rocblas_dot_template R CONJ FORTRAN
              (Build_call (Some rocblas_pointer_mode_device) (N c) None (incx c)
                 None (incy c) (Some d_rocblas_result)) in
          let on_host :=
            rocblas_dot_template R CONJ FORTRAN
              (Build_call (Some rocblas_pointer_mode_host) (N c) None (incx c)
                 None (incy c) (Some h_rocblas_result)) in
          fst on_device = rocblas_status_success
          /\ fst on_host = rocblas_status_success
          /\ T_unit_check (T_of_int 0) (contents R d_rocblas_result (snd on_device)) = true
          /\ T_unit_check (T_of_int 0) (contents R h_rocblas_result (snd on_host)) = true).
Proof.
  intros T E CONJ launcher c pointer_mode r Hh HN Hr. split; [|split].
  - exact (rocblas_dot_quick_return launcher CONJ c pointer_mode r Hh HN Hr).
  - intros R FORTRAN numerical_test Hfn Hok run.
    assert (Hrun := testing_dot_early_exit launcher R CONJ
                      (Build_test_arguments FORTRAN (N c) (incx c) (incy c))
                      numerical_test Hfn Hok HN).
    cbn [arg_N arg_incx arg_incy] in Hrun. fold run in Hrun.
    split; [exact Hrun|]. rewrite Hrun. reflexivity.
  - intros R FORTRAN numerical_test Hpass.
    exact (testing_dot_asserts R CONJ (Build_test_arguments FORTRAN (N c) (incx c) (incy c))
             numerical_test HN Hpass).
Qed.

Lemma rocblas_dot_empty_vector_witness :
  (handle (Build_call (Some rocblas_pointer_mode_device) (-5) None 3 None 0
             (Some d_rocblas_result))
   = Some rocblas_pointer_mode_device
   /\ N (Build_call (Some rocblas_pointer_mode_device) (-5) None 3 None 0
           (Some d_rocblas_result)) <= 0
   /\ result (Build_call (Some rocblas_pointer_mode_device) (-5) None 3 None 0
                (Some d_rocblas_result))
      = Some d_rocblas_result)
  /\ rocblas_dot true example_launcher
       (Build_call (Some rocblas_pointer_mode_device) (-5) None 3 None 0
          (Some d_rocblas_result))
     = (rocblas_status_success, Some 0).
Proof.
  assert (H1 : handle (Build_call (Some rocblas_pointer_mode_device) (-5) None 3 None 0
                         (Some d_rocblas_result))
               = Some rocblas_pointer_mode_device) by reflexivity.
  assert (H2 : N (Build_call (Some rocblas_pointer_mode_device) (-5) None 3 None 0
                    (Some d_rocblas_result)) <= 0) by (cbn; lia).
  assert (H3 : result (Build_call (Some rocblas_pointer_mode_device) (-5) None 3 None 0
                         (Some d_rocblas_result))
               = Some d_rocblas_result) by reflexivity.
  split; [repeat split; assumption|].
  exact (proj1 (rocblas_dot_empty_vector Z Element_Z true example_launcher _
                  rocblas_pointer_mode_device d_rocblas_result H1 H2 H3)).
Defined.

End DotFacts.

(** ** Validation across the wrappers *)

Module ValidationFacts.

Section Spr2Batched.

Import Spr2Batched.
Context {T : Type} `{Element T}.
Variable launcher : call T -> rocblas_status.

Lemma spr2_batched_null_handle (c : call T) :
  handle c = None ->
  rocblas_spr2_batched launcher c = rocblas_status_invalid_handle.
Proof. intros Hh. unfold rocblas_spr2_batched. now rewrite Hh. Qed.

Lemma spr2_batched_invalid_fill (c : call T) :
  handle c <> None ->
  uplo c = rocblas_fill_full ->
  rocblas_spr2_batched launcher c = rocblas_status_invalid_value.
Proof.
  intros Hh Hu. unfold rocblas_spr2_batched. rewrite Hu.
  destruct (handle c); [reflexivity | congruence].
Qed.

Lemma spr2_batched_past_sizes (c : call T) :
  N c > 0 -> incx c <> 0 -> incy c <> 0 -> batch_count c > 0 ->
  (N c <? 0) || (incx c =? 0) || (incy c =? 0) || (batch_count c <? 0) = false
  /\ (N c =? 0) || (batch_count c =? 0) = false.
Proof.
  intros HN Hx Hy Hb.
  rewrite !orb_false_iff, !Z.ltb_ge, !Z.eqb_neq. lia.
Qed.

Lemma spr2_batched_null_alpha (c : call T) :
  handle c <> None ->
  uplo c <> rocblas_fill_full ->
  N c > 0 -> incx c <> 0 -> incy c <> 0 -> batch_count c > 0 ->
  alpha c = None ->
  rocblas_spr2_batched launcher c = rocblas_status_invalid_pointer.
Proof.
  intros Hh Hu HN Hx Hy Hb Ha.
  destruct (spr2_batched_past_sizes c HN Hx Hy Hb) as [Hsize Hquick].
  unfold rocblas_spr2_batched. rewrite Hsize, Hquick, Ha.
  destruct (handle c); [|congruence].
  destruct (uplo c); [reflexivity | reflexivity | congruence].
Qed.

Lemma spr2_batched_null_data (c : call T) (b : buffer) (value : T) :
  handle c = Some rocblas_pointer_mode_host ->
  uplo c <> rocblas_fill_full ->
  N c > 0 -> incx c <> 0 -> incy c <> 0 -> batch_count c > 0 ->
  alpha c = Some (b, value) ->
  T_is_zero value = false ->
  x c = None \/ y c = None \/ AP c = None ->
  rocblas_spr2_batched launcher c = rocblas_status_invalid_pointer.
Proof.
  intros Hh Hu HN Hx Hy Hb Ha Hz Hnull.
  destruct (spr2_batched_past_sizes c HN Hx Hy Hb) as [Hsize Hquick].
  unfold rocblas_spr2_batched. rewrite Hh, Hsize, Hquick, Ha, Hz.
  destruct (uplo c); [| |congruence];
    (destruct Hnull as [-> | [-> | ->]];
     [ reflexivity
     | destruct (x c); reflexivity
     | destruct (x c); [destruct (y c)|]; reflexivity ]).
Qed.

End Spr2Batched.

(** C5: validation comes before the numerical work and its status tells the
    kind of failure.

    - The TRTRI wrapper returns [rocblas_status_invalid_handle] for a null
      handle before it makes any call, and launches a kernel only after
      [rocblas_trtri_arg_check] returned [rocblas_status_continue].
    - [rocblas_spr2_batched], [rocblas_nrm2], [rocblas_dot] and
      [rocblas_dotc] return [rocblas_status_invalid_handle] for a null
      handle, whatever the other arguments are.
    - [rocblas_spr2_batched] returns [rocblas_status_invalid_value] for
      [rocblas_fill_full].
    - Past the size checks and quick returns, a null [alpha] is
      [rocblas_status_invalid_pointer] in either pointer mode; in host
      pointer mode with a nonzero [alpha], a null [x], [y] or [AP] is
      [rocblas_status_invalid_pointer]; for [rocblas_nrm2] and [rocblas_dot]
      a null vector or result pointer is [rocblas_status_invalid_pointer].
    - The three bad-argument harnesses, run on these validations with a
      runtime whose calls succeed, find every status they expect; and
      whatever functions they are run on, they run to their end only if
      these functions return [rocblas_status_invalid_handle] for the null
      handle, [rocblas_status_invalid_value] for [rocblas_fill_full] and
      [rocblas_status_invalid_pointer] for each null pointer they try. *)
Theorem validation_status_by_failure_kind :
  (forall (L : Trtri.library) (NB : Z) (T : Trtri.element_type) (a : Trtri.trtri_args),
      Trtri.rocblas_trtri_strided_batched_impl L NB T None a
      = ([], Trtri.returned rocblas_status_invalid_handle))
  /\ (forall (L : Trtri.library) (NB : Z) (T : Trtri.element_type)
             (handle : Trtri.rocblas_handle) (a : Trtri.trtri_args),
         existsb Trtri.is_kernel_launch
           (fst (Trtri.rocblas_trtri_strided_batched_impl L NB T handle a)) = true ->
         exists h before after,
           handle = Some h
           /\ fst (Trtri.rocblas_trtri_strided_batched_impl L NB T handle a)
              = before ++ Trtri.call_rocblas_trtri_arg_check a :: after
           /\ existsb Trtri.is_kernel_launch before = false
           /\ Trtri.rocblas_trtri_arg_check L h a = Trtri.returned rocblas_status_continue)
  /\ (forall (T : Type) (E : Element T)
             (launcher : Spr2Batched.call T -> rocblas_status) (c : Spr2Batched.call T),
         (Spr2Batched.handle c = None ->
          Spr2Batched.rocblas_spr2_batched launcher c = rocblas_status_invalid_handle)
         /\ (Spr2Batched.handle c <> None ->
             Spr2Batched.uplo c = rocblas_fill_full ->
             Spr2Batched.rocblas_spr2_batched launcher c = rocblas_status_invalid_value)
         /\ (Spr2Batched.handle c <> None ->
             Spr2Batched.uplo c <> rocblas_fill_full ->
             Spr2Batched.N c > 0 -> Spr2Batched.incx c <> 0 -> Spr2Batched.incy c <> 0 ->
             Spr2Batched.batch_count c > 0 ->
             Spr2Batched.alpha c = None ->
             Spr2Batched.rocblas_spr2_batched launcher c = rocblas_status_invalid_pointer)
         /\ (Spr2Batched.handle c = Some rocblas_pointer_mode_host ->
             Spr2Batched.uplo c <> rocblas_fill_full ->
             Spr2Batched.N c > 0 -> Spr2Batched.incx c <> 0 -> Spr2Batched.incy c <> 0 ->
             Spr2Batched.batch_count c > 0 ->
             forall (b : Spr2Batched.buffer) (value : T),
               Spr2Batched.alpha c = Some (b, value) ->
               T_is_zero value = false ->
               Spr2Batched.x c = None \/ Spr2Batched.y c = None \/ Spr2Batched.AP c = None ->
               Spr2Batched.rocblas_spr2_batched launcher c = rocblas_status_invalid_pointer)
         /\ (forall R : Spr2Batched.runtime T,
                Spr2Batched.rocblas_spr2_batched_fn R
                = Spr2Batched.rocblas_spr2_batched launcher ->
                Spr2Batched.runtime_succeeds R ->
                Client.finished (Spr2Batched.testing_spr2_batched_bad_arg R) = true)
         /\ (forall R : Spr2Batched.runtime T,
                Client.finished (Spr2Batched.testing_spr2_batched_bad_arg R) = true ->
                forall mode : rocblas_pointer_mode,
                  Spr2Batched.failures_expected (Spr2Batched.rocblas_spr2_batched_fn R) mode))
  /\ (forall (F : Type) (Fl : Floating F)
             (launcher : Nrm2.call -> rocblas_status * option F) (c : Nrm2.call),
         (Nrm2.handle c = None ->
          Nrm2.rocblas_nrm2 launcher c = (rocblas_status_invalid_handle, None))
         /\ (Nrm2.handle c <> None ->
             Nrm2.N c > 0 -> Nrm2.incx c > 0 ->
             Nrm2.x c = None \/ Nrm2.result c = None ->
             Nrm2.rocblas_nrm2 launcher c = (rocblas_status_invalid_pointer, None))
         /\ (forall (R : Nrm2.runtime F) (arg : Nrm2.test_arguments),
                Nrm2.rocblas_nrm2_template R = (fun _ => Nrm2.rocblas_nrm2 launcher) ->
                Nrm2.runtime_succeeds R ->
                Client.finished (Nrm2.testing_nrm2_bad_arg R arg) = true)
         /\ (forall (R : Nrm2.runtime F) (arg : Nrm2.test_arguments),
                Client.finished (Nrm2.testing_nrm2_bad_arg R arg) = true ->
                Nrm2.failures_expected (Nrm2.rocblas_nrm2_template R (Nrm2.arg_fortran arg))))
  /\ (forall (T : Type) (E : Element T) (CONJ : bool)
             (launcher : bool -> Dot.call -> rocblas_status * option T) (c : Dot.call),
         (Dot.handle c = None ->
          Dot.rocblas_dot CONJ launcher c = (rocblas_status_invalid_handle, None))
         /\ (Dot.handle c <> None ->
             Dot.N c > 0 ->
             Dot.x c = None \/ Dot.y c = None \/ Dot.result c = None ->
             Dot.rocblas_dot CONJ launcher c = (rocblas_status_invalid_pointer, None))
         /\ (forall (R : Dot.runtime T) (arg : Dot.test_arguments),
                Dot.rocblas_dot_template R = (fun CONJ _ => Dot.rocblas_dot CONJ launcher) ->
                Dot.runtime_succeeds R ->
                Client.finished (Dot.testing_dot_bad_arg R CONJ arg) = true)
         /\ (forall (R : Dot.runtime T) (arg : Dot.test_arguments),
                Client.finished (Dot.testing_dot_bad_arg R CONJ arg) = true ->
                forall mode : rocblas_pointer_mode,
                  Dot.failures_expected
                    (Dot.rocblas_dot_template R CONJ (Dot.arg_fortran arg)) mode)).
Proof.
  split; [|split; [|split; [|split]]].
  - intros L NB T a. apply TrtriFacts.trtri_impl_null_handle.
  - intros L NB T handle a. apply TrtriFacts.trtri_impl_checks_before_kernel.
  - intros T E launcher c. split; [|split; [|split; [|split; [|split]]]].
    + apply spr2_batched_null_handle.
    + apply spr2_batched_invalid_fill.
    + apply spr2_batched_null_alpha.
    + intros Hh Hu HN Hx Hy Hb b value Ha Hz Hnull.
      exact (spr2_batched_null_data launcher c b value Hh Hu HN Hx Hy Hb Ha Hz Hnull).
    + intros R. apply Spr2BatchedFacts.testing_spr2_batched_bad_arg_finishes.
    + intros R Hfin mode.
      exact (proj1 (Spr2BatchedFacts.testing_spr2_batched_bad_arg_asserts R Hfin mode)).
  - intros F Fl launcher c. split; [|split; [|split]].
    + apply Nrm2Facts.rocblas_nrm2_null_handle.
    + intros Hh HN Hincx Hnull. destruct (Nrm2.handle c) as [mode|] eqn:Hm; [|congruence].
      exact (Nrm2Facts.rocblas_nrm2_null_pointer launcher c mode Hm HN Hincx Hnull).
    + intros R arg. apply Nrm2Facts.testing_nrm2_bad_arg_finishes.
    + intros R arg. apply Nrm2Facts.testing_nrm2_bad_arg_asserts.
  - intros T E CONJ launcher c. split; [|split; [|split]].
    + apply DotFacts.rocblas_dot_null_handle.
    + intros Hh HN Hnull. destruct (Dot.handle c) as [mode|] eqn:Hm; [|congruence].
      exact (DotFacts.rocblas_dot_null_pointer launcher CONJ c mode Hm HN Hnull).
    + intros R arg. apply DotFacts.testing_dot_bad_arg_finishes.
    + intros R arg. apply DotFacts.testing_dot_bad_arg_asserts.
Qed.

Lemma validation_status_by_failure_kind_witness :
  (Spr2Batched.handle
     (Spr2Batched.Build_call (Some rocblas_pointer_mode_host) rocblas_fill_upper 100
        (Some (Spr2Batched.alpha_h, 1)) None 1 (Some Spr2Batched.dy) 1
        (Some Spr2Batched.dAp_1) 2)
   = Some rocblas_pointer_mode_host
   /\ T_is_zero 1 = false)
  /\ Spr2Batched.rocblas_spr2_batched Spr2Batched.example_launcher
       (Spr2Batched.Build_call (Some rocblas_pointer_mode_host) rocblas_fill_upper 100
          (Some (Spr2Batched.alpha_h, 1)) None 1 (Some Spr2Batched.dy) 1
          (Some Spr2Batched.dAp_1) 2)
     = rocblas_status_invalid_pointer.
Proof.
  split; [split; reflexivity|].
  destruct (proj1 (proj2 (proj2 validation_status_by_failure_kind))
              Z Element_Z Spr2Batched.example_launcher
              (Spr2Batched.Build_call (Some rocblas_pointer_mode_host) rocblas_fill_upper 100
                 (Some (Spr2Batched.alpha_h, 1)) None 1 (Some Spr2Batched.dy) 1
                 (Some Spr2Batched.dAp_1) 2))
    as (_ & _ & _ & Hdata & _).
  apply Hdata with (b := Spr2Batched.alpha_h) (value := 1).
  - reflexivity.
  - discriminate.
  - reflexivity.
  - discriminate.
  - discriminate.
  - reflexivity.
  - reflexivity.
  - reflexivity.
  - left. reflexivity.
Defined.

End ValidationFacts.

(** ** The 64-bit HPMV launcher: every run *)

Module Hpmv64TraceFacts.
Import Hpmv64 Hpmv64Trace.

Section Loop.

Context {TScal H : Type}.
Variable chunk : Z.
Variable launcher : hpmv_call TScal -> H -> rocblas_status * H.

Lemma firstn_seq_le (i start len : nat) :
  (i <= len)%nat -> firstn i (seq start len) = seq start i.
Proof.
  revert start len. induction i as [|i IH]; intros start len Hi; [reflexivity|].
  destruct len as [|len]; [lia|]. cbn [seq firstn]. f_equal. apply IH. lia.
Qed.

Lemma batches_launched_app (l1 l2 : list (hpmv_call TScal * rocblas_status)) :
  batches_launched (l1 ++ l2) = batches_launched l1 + batches_launched l2.
Proof.
  induction l1 as [|c l1 IH]; cbn [app batches_launched fold_right]; [reflexivity|].
  fold (batches_launched (l1 ++ l2)). fold (batches_launched l1). lia.
Qed.

(** Whatever the arguments are, the loop stops at the first call that does
    not return success. *)
Lemma batch_loop_statuses (a : hpmv_args_64 TScal) :
  forall fuel b made h s cs h',
    batch_loop chunk launcher fuel a b made h = Some (s, cs, h') ->
    exists later,
      cs = rev made ++ later
      /\ (s = rocblas_status_success ->
          Forall (fun launched => snd launched = rocblas_status_success) later)
      /\ (s <> rocblas_status_success ->
          exists before c,
            later = before ++ [(c, s)]
            /\ Forall (fun launched => snd launched = rocblas_status_success) before).
Proof.
  induction fuel as [|fuel IH]; intros b made h s cs h' Hrun;
    cbn [batch_loop] in Hrun; [discriminate|].
  destruct (b <? batch_count_64 a).
  - destruct (launcher (chunk_call chunk a b) h) as [s1 h1].
    destruct (status_eqb s1 rocblas_status_success) eqn:Hs1.
    + apply status_eqb_eq in Hs1. subst s1.
      destruct (IH _ _ _ _ _ _ Hrun) as (later & -> & Hok & Hfail).
      exists ((chunk_call chunk a b, rocblas_status_success) :: later).
      split; [cbn [rev]; now rewrite <- app_assoc|]. split.
      * intros Hs. constructor; [reflexivity | now apply Hok].
      * intros Hs. destruct (Hfail Hs) as (before & c & -> & Hbefore).
        exists ((chunk_call chunk a b, rocblas_status_success) :: before), c.
        split; [reflexivity|]. now constructor.
    + apply status_eqb_neq in Hs1. injection Hrun as <- <- <-.
      exists [(chunk_call chunk a b, s1)]. split; [reflexivity|]. split.
      * congruence.
      * intros _. exists [], (chunk_call chunk a b). split; [reflexivity | constructor].
  - injection Hrun as <- <- <-. exists []. split; [now rewrite app_nil_r|]. split.
    + constructor.
    + congruence.
Qed.

(** Every call of the loop is the call of the loop body at some base. *)
Lemma batch_loop_calls (a : hpmv_args_64 TScal) :
  forall fuel b made h s cs h',
    batch_loop chunk launcher fuel a b made h = Some (s, cs, h') ->
    forall c st, In (c, st) cs ->
      In (c, st) made \/ exists b', b' < batch_count_64 a /\ c = chunk_call chunk a b'.
Proof.
  induction fuel as [|fuel IH]; intros b made h s cs h' Hrun;
    cbn [batch_loop] in Hrun; [discriminate|].
  destruct (b <? batch_count_64 a) eqn:Hb.
  - apply Z.ltb_lt in Hb.
    destruct (launcher (chunk_call chunk a b) h) as [s1 h1].
    destruct (status_eqb s1 rocblas_status_success).
    + intros c st Hin. destruct (IH _ _ _ _ _ _ Hrun c st Hin) as [Hin' | Hlater];
        [|now right].
      cbn [In] in Hin'. destruct Hin' as [Hhere | Hmade]; [|now left].
      right. exists b. split; [exact Hb|]. congruence.
    + injection Hrun as <- <- <-. intros c st Hin.
      apply in_app_or in Hin. destruct Hin as [Hmade | Hhere];
        [left; now rewrite in_rev|].
      cbn [In] in Hhere. destruct Hhere as [Hhere | []].
      right. exists b. split; [exact Hb|]. congruence.
  - injection Hrun as <- <- <-. intros c st Hin. left. now rewrite in_rev.
Qed.

(** Inside [int64_t] the loop visits the chunk bases in turn: started at
    the [i]-th base with [k] chunks left, it makes the calls of the loop
    body at the next [m <= k] bases, all [k] of them when it returns
    success. *)
Lemma batch_loop_bases (a : hpmv_args_64 TScal) :
  0 < chunk ->
  1 <= batch_count_64 a ->
  Z.of_nat (chunk_count chunk (batch_count_64 a)) * chunk <= c_i64_max ->
  forall (k i fuel : nat) made h,
    (i + k)%nat = chunk_count chunk (batch_count_64 a) ->
    (k < fuel)%nat ->
    exists (m : nat) s later h',
      (m <= k)%nat
      /\ batch_loop chunk launcher fuel a (Z.of_nat i * chunk) made h
         = Some (s, rev made ++ later, h')
      /\ map fst later
         = map (fun j => chunk_call chunk a (Z.of_nat j * chunk)) (seq i m)
      /\ (s = rocblas_status_success -> m = k).
Proof.
  intros Hc Hbc Hmax.
  destruct (Hpmv64Facts.chunk_count_bounds chunk (batch_count_64 a) Hc Hbc) as (Hlo & Hhi & _).
  induction k as [|k IH]; intros i fuel made h Hik Hfuel.
  - destruct fuel as [|fuel]; [lia|]. cbn [batch_loop].
    replace (Z.of_nat i * chunk <? batch_count_64 a) with false
      by (symmetry; apply Z.ltb_ge; rewrite <- Hik in Hhi; nia).
    exists 0%nat, rocblas_status_success, [], h.
    repeat split; [lia | now rewrite app_nil_r].
  - destruct fuel as [|fuel]; [lia|]. cbn [batch_loop].
    assert (Hlt : Z.of_nat i * chunk < batch_count_64 a)
      by (rewrite <- Hik in Hlo; nia).
    replace (Z.of_nat i * chunk <? batch_count_64 a) with true
      by (symmetry; apply Z.ltb_lt; exact Hlt).
    destruct (launcher (chunk_call chunk a (Z.of_nat i * chunk)) h) as [s h1].
    destruct (status_eqb s rocblas_status_success) eqn:Hs.
    + replace (to_int64 (Z.of_nat i * chunk + chunk)) with (Z.of_nat (S i) * chunk).
      * destruct (IH (S i) fuel ((chunk_call chunk a (Z.of_nat i * chunk), s) :: made) h1
                    ltac:(lia) ltac:(lia)) as (m & s' & later & h' & Hm & Hrun & Hcalls & Hall).
        exists (S m), s', ((chunk_call chunk a (Z.of_nat i * chunk), s) :: later), h'.
        split; [lia|]. split; [|split].
        -- rewrite Hrun. cbn [rev]. now rewrite <- app_assoc.
        -- cbn [map fst seq]. now rewrite Hcalls.
        -- intros Hs'. now rewrite (Hall Hs').
      * rewrite to_int64_in_range; [lia|].
        unfold in_int64, c_i64_min. rewrite <- Hik in Hmax. nia.
    + apply status_eqb_neq in Hs.
      exists 1%nat, s, [(chunk_call chunk a (Z.of_nat i * chunk), s)], h1.
      split; [lia|]. split; [reflexivity|]. split; [reflexivity|]. congruence.
Qed.

Lemma launched_from_app (h : H) (l1 l2 : list (hpmv_call TScal * rocblas_status)) (h' : H) :
  launched_from launcher h (l1 ++ l2) h'
  <-> exists h1, launched_from launcher h l1 h1 /\ launched_from launcher h1 l2 h'.
Proof.
  revert h. induction l1 as [|[c st] l1 IH]; intros h; cbn [app launched_from].
  - split.
    + intros Hrun. now exists h.
    + intros (h1 & -> & Hrun). exact Hrun.
  - rewrite IH. split.
    + intros (Hst & h1 & H1 & H2). exists h1. tauto.
    + intros (h1 & (Hst & H1) & H2). split; [exact Hst|]. now exists h1.
Qed.

(** The state is handed from each call to the next. *)
Lemma batch_loop_threads_state (a : hpmv_args_64 TScal) (h0 : H) :
  forall fuel b made h s cs h',
    launched_from launcher h0 (rev made) h ->
    batch_loop chunk launcher fuel a b made h = Some (s, cs, h') ->
    launched_from launcher h0 cs h'.
Proof.
  induction fuel as [|fuel IH]; intros b made h s cs h' Hmade Hrun;
    cbn [batch_loop] in Hrun; [discriminate|].
  destruct (b <? batch_count_64 a).
  - destruct (launcher (chunk_call chunk a b) h) as [s1 h1] eqn:Hcall.
    assert (Hnext : launched_from launcher h0 (rev ((chunk_call chunk a b, s1) :: made)) h1).
    { cbn [rev]. apply launched_from_app. exists h. split; [exact Hmade|].
      cbn [launched_from]. rewrite Hcall. now split. }
    destruct (status_eqb s1 rocblas_status_success).
    + exact (IH _ _ _ _ _ _ Hnext Hrun).
    + injection Hrun as <- <- <-. exact Hnext.
  - injection Hrun as <- <- <-. exact Hmade.
Qed.

(** The calls of the loop body at the bases from the [i]-th on cover the
    batches from that base up to the batch count. *)
Lemma batches_launched_bases (a : hpmv_args_64 TScal) :
  0 < chunk <= c_i32_max ->
  1 <= batch_count_64 a <= c_i64_max ->
  forall (j i : nat) (l : list (hpmv_call TScal * rocblas_status)),
    map fst l = map (fun j => chunk_call chunk a (Z.of_nat j * chunk)) (seq i j) ->
    (i + j <= chunk_count chunk (batch_count_64 a))%nat ->
    batches_launched l
    = Z.min (batch_count_64 a) (Z.of_nat (i + j) * chunk)
      - Z.min (batch_count_64 a) (Z.of_nat i * chunk).
Proof.
  intros Hc Hbc.
  destruct (Hpmv64Facts.chunk_count_bounds chunk (batch_count_64 a) ltac:(lia) ltac:(lia))
    as (Hlo & Hhi & _).
  induction j as [|j IH]; intros i l Hl Hij.
  - destruct l; [|discriminate]. cbn [batches_launched fold_right].
    replace (i + 0)%nat with i by lia. lia.
  - destruct l as [|[c st] l]; [discriminate|].
    cbn [map fst seq] in Hl. injection Hl as Hc0 Hl.
    cbn [batches_launched fold_right fst]. fold (batches_launched l).
    rewrite (IH (S i) l Hl ltac:(lia)).
    replace (S i + j)%nat with (i + S j)%nat by lia.
    assert (Hi : Z.of_nat i * chunk < batch_count_64 a) by nia.
    subst c. cbn [chunk_call call_batch_count].
    rewrite (to_int64_in_range (batch_count_64 a - Z.of_nat i * chunk))
      by (unfold in_int64, c_i64_min, c_i64_max in *; nia).
    rewrite to_int32_in_range by (unfold c_i32_max in *; lia).
    nia.
Qed.

End Loop.

(** Within [int64_t] the per-chunk calls partition the batch: each call
    starts at the batch where the one before it ended, all calls before it
    having covered a full chunk; it covers between 1 and [chunk] batches
    and stays inside the batch count; at most one call per chunk is made,
    and when the shim returns success the calls cover exactly
    [batch_count_64] batches. *)
Theorem hpmv_launcher_64_partitions_batch :
  forall (TScal H : Type) (chunk : Z)
         (launcher : hpmv_call TScal -> H -> rocblas_status * H)
         (fuel : nat) (h : H) (a : hpmv_args_64 TScal),
    0 < chunk <= c_i32_max ->
    n_64 a <> 0 ->
    n_64 a <= c_i32_max ->
    1 <= batch_count_64 a ->
    (batch_count_64 a + chunk - 1) / chunk * chunk <= c_i64_max ->
    (chunk_count chunk (batch_count_64 a) < fuel)%nat ->
    exists s made h',
      rocblas_hpmv_launcher_64 chunk launcher fuel h a = Some (s, made, h')
      /\ (length made <= chunk_count chunk (batch_count_64 a))%nat
      /\ (forall (i : nat) c st,
            nth_error made i = Some (c, st) ->
            let before := batches_launched (firstn i made) in
            before = Z.of_nat i * chunk
            /\ call_AP c = AP a + before * strideA a
            /\ call_x c = x a + before * stridex a
            /\ call_y c = y a + before * stridey a
            /\ 1 <= call_batch_count c <= chunk
            /\ before + call_batch_count c <= batch_count_64 a)
      /\ (s = rocblas_status_success ->
          length made = chunk_count chunk (batch_count_64 a)
          /\ batches_launched made = batch_count_64 a).
Proof.
  intros TScal H chunk launcher fuel h a Hc Hn0 Hn Hbc Hmax Hfuel.
  destruct (Hpmv64Facts.chunk_count_bounds chunk (batch_count_64 a) ltac:(lia) Hbc)
    as (Hlo & Hhi & Hcount).
  assert (Hmax' : Z.of_nat (chunk_count chunk (batch_count_64 a)) * chunk <= c_i64_max)
    by (rewrite Hcount; exact Hmax).
  assert (Hbc' : 1 <= batch_count_64 a <= c_i64_max) by lia.
  destruct (batch_loop_bases chunk launcher a ltac:(lia) Hbc Hmax'
              (chunk_count chunk (batch_count_64 a)) 0 fuel [] h eq_refl Hfuel)
    as (m & s & made & h' & Hm & Hrun & Hcalls & Hall).
  cbn [rev app] in Hrun. change (Z.of_nat 0 * chunk) with 0 in Hrun.
  assert (Hlen : length made = m).
  { rewrite <- (length_map fst), Hcalls, length_map, length_seq. reflexivity. }
  exists s, made, h'. split; [|split; [|split]].
  - unfold rocblas_hpmv_launcher_64.
    replace (n_64 a =? 0) with false by (symmetry; now apply Z.eqb_neq).
    replace (batch_count_64 a =? 0) with false by (symmetry; apply Z.eqb_neq; lia).
    replace (n_64 a >? c_i32_max) with false
      by (symmetry; rewrite Z.gtb_ltb; apply Z.ltb_ge; lia).
    exact Hrun.
  - lia.
  - intros i c st Hnth before.
    assert (Hi : (i < m)%nat).
    { rewrite <- Hlen. apply nth_error_Some. congruence. }
    assert (Hcall : c = chunk_call chunk a (Z.of_nat i * chunk)).
    { assert (Hfst : nth_error (map fst made) i = Some c)
        by (rewrite nth_error_map, Hnth; reflexivity).
      rewrite Hcalls, nth_error_map, nth_error_seq in Hfst.
      destruct (Nat.ltb_spec i m); [|lia]. cbn [option_map Nat.add] in Hfst. congruence. }
    assert (Hbefore : before = Z.of_nat i * chunk).
    { subst before.
      rewrite (batches_launched_bases chunk a Hc Hbc' i 0 (firstn i made)).
      - cbn [Nat.add]. change (Z.of_nat 0 * chunk) with 0. nia.
      - rewrite <- firstn_map, Hcalls, firstn_map, firstn_seq_le by lia. reflexivity.
      - lia. }
    assert (Hin : Z.of_nat i * chunk < batch_count_64 a) by nia.
    rewrite Hbefore. subst c. cbn [chunk_call call_AP call_x call_y call_batch_count].
    unfold adjust_ptr_batch.
    rewrite (to_int64_in_range (batch_count_64 a - Z.of_nat i * chunk))
      by (unfold in_int64, c_i64_min, c_i64_max in *; nia).
    rewrite to_int32_in_range by (unfold c_i32_max in *; lia).
    repeat split; lia.
  - intros Hs. specialize (Hall Hs). subst m. split; [exact Hlen|].
    rewrite (batches_launched_bases chunk a Hc Hbc' _ 0 made Hcalls) by lia.
    cbn [Nat.add]. change (Z.of_nat 0 * chunk) with 0. lia.
Qed.

Lemma hpmv_launcher_64_partitions_batch_witness :
  (0 < 3 <= c_i32_max
   /\ n_64 (example_args (-5) 7) <> 0
   /\ n_64 (example_args (-5) 7) <= c_i32_max
   /\ 1 <= batch_count_64 (example_args (-5) 7)
   /\ (batch_count_64 (example_args (-5) 7) + 3 - 1) / 3 * 3 <= c_i64_max
   /\ (chunk_count 3 (batch_count_64 (example_args (-5) 7)) < 4)%nat)
  /\ exists s made h',
      rocblas_hpmv_launcher_64 3 accepting_launcher 4 tt (example_args (-5) 7)
      = Some (s, made, h')
      /\ (s = rocblas_status_success -> batches_launched made = 7).
Proof.
  assert (H1 : 0 < 3 <= c_i32_max) by (vm_compute; split; congruence).
  assert (H2 : n_64 (example_args (-5) 7) <> 0) by (vm_compute; congruence).
  assert (H3 : n_64 (example_args (-5) 7) <= c_i32_max) by (vm_compute; congruence).
  assert (H4 : 1 <= batch_count_64 (example_args (-5) 7)) by (vm_compute; congruence).
  assert (H5 : (batch_count_64 (example_args (-5) 7) + 3 - 1) / 3 * 3 <= c_i64_max)
    by (vm_compute; congruence).
  assert (H6 : (chunk_count 3 (batch_count_64 (example_args (-5) 7)) < 4)%nat)
    by (vm_compute; repeat constructor).
  split; [repeat split; assumption|].
  destruct (hpmv_launcher_64_partitions_batch unit unit 3 accepting_launcher 4 tt
              (example_args (-5) 7) H1 H2 H3 H4 H5 H6)
    as (s & made & h' & Hrun & _ & _ & Hall).
  exists s, made, h'. split; [exact Hrun|].
  intros Hs. exact (proj2 (Hall Hs)).
Defined.

(** Whatever the arguments are, a run of the shim that returns hands the
    state from each call of the 32-bit launcher to the next and stops at
    the first call that does not return success: the status of that call is
    the status of the shim, and the shim returns success exactly when every
    call it made did; it returns another status without a call only for
    [n_64 > c_i32_max]. *)
Theorem hpmv_launcher_64_stops_at_first_failure :
  forall (TScal H : Type) (chunk : Z)
         (launcher : hpmv_call TScal -> H -> rocblas_status * H)
         (fuel : nat) (h : H) (a : hpmv_args_64 TScal) s made h',
    rocblas_hpmv_launcher_64 chunk launcher fuel h a = Some (s, made, h') ->
    launched_from launcher h made h'
    /\ (s = rocblas_status_success ->
        Forall (fun launched => snd launched = rocblas_status_success) made)
    /\ (s <> rocblas_status_success ->
        (made = [] /\ s = rocblas_status_invalid_size /\ n_64 a > c_i32_max)
        \/ exists before c,
             made = before ++ [(c, s)]
             /\ Forall (fun launched => snd launched = rocblas_status_success) before).
Proof.
  intros TScal H chunk launcher fuel h a s made h' Hrun.
  unfold rocblas_hpmv_launcher_64 in Hrun.
  destruct ((n_64 a =? 0) || (batch_count_64 a =? 0)).
  { injection Hrun as <- <- <-. cbn [launched_from]. repeat split; [constructor | congruence]. }
  destruct (n_64 a >? c_i32_max) eqn:Hn.
  { injection Hrun as <- <- <-. cbn [launched_from]. repeat split; [constructor|].
    intros _. left. repeat split. rewrite Z.gtb_ltb in Hn. apply Z.ltb_lt in Hn. lia. }
  split; [|split].
  - exact (batch_loop_threads_state chunk launcher a h fuel 0 [] h s made h' eq_refl Hrun).
  - intros Hs.
    destruct (batch_loop_statuses chunk launcher a _ _ _ _ _ _ _ Hrun) as (later & -> & Hok & _).
    exact (Hok Hs).
  - intros Hs. right.
    destruct (batch_loop_statuses chunk launcher a _ _ _ _ _ _ _ Hrun) as (later & -> & _ & Hfail).
    exact (Hfail Hs).
Qed.

Lemma hpmv_launcher_64_stops_at_first_failure_witness :
  rocblas_hpmv_launcher_64 3 second_call_fails 4 0%nat (example_args 5 7)
  = Some (rocblas_status_internal_error,
          [(chunk_call 3 (example_args 5 7) 0, rocblas_status_success);
           (chunk_call 3 (example_args 5 7) 3, rocblas_status_internal_error)],
          2%nat)
  /\ launched_from second_call_fails 0%nat
       [(chunk_call 3 (example_args 5 7) 0, rocblas_status_success);
        (chunk_call 3 (example_args 5 7) 3, rocblas_status_internal_error)]
       2%nat.
Proof.
  assert (Hrun : rocblas_hpmv_launcher_64 3 second_call_fails 4 0%nat (example_args 5 7)
                 = Some (rocblas_status_internal_error,
                         [(chunk_call 3 (example_args 5 7) 0, rocblas_status_success);
                          (chunk_call 3 (example_args 5 7) 3, rocblas_status_internal_error)],
                         2%nat)) by reflexivity.
  split; [exact Hrun|].
  exact (proj1 (hpmv_launcher_64_stops_at_first_failure unit nat 3 second_call_fails 4 0%nat
                  (example_args 5 7) _ _ _ Hrun)).
Defined.

(** Whatever the arguments are, every call of the 32-bit launcher gets the
    fill mode, the scalars, the offsets, the increments and the strides of
    the caller, the dimension converted to [rocblas_int], which is the
    caller's dimension unless that is below the range of [rocblas_int], and
    the three buffers moved forward by the same number of batches. *)
Theorem hpmv_launcher_64_forwards_arguments :
  forall (TScal H : Type) (chunk : Z)
         (launcher : hpmv_call TScal -> H -> rocblas_status * H)
         (fuel : nat) (h : H) (a : hpmv_args_64 TScal) s made h' c st,
    rocblas_hpmv_launcher_64 chunk launcher fuel h a = Some (s, made, h') ->
    In (c, st) made ->
    call_uplo c = uplo a
    /\ call_n c = to_int32 (n_64 a)
    /\ (- 2 ^ 31 <= n_64 a -> call_n c = n_64 a)
    /\ call_alpha c = alpha a /\ call_beta c = beta a
    /\ call_offseta c = offseta a /\ call_offsetx c = offsetx a /\ call_offsety c = offsety a
    /\ call_incx c = incx_64 a /\ call_incy c = incy_64 a
    /\ call_strideA c = strideA a /\ call_stridex c = stridex a /\ call_stridey c = stridey a
    /\ exists b_base,
         b_base < batch_count_64 a
         /\ call_AP c = AP a + b_base * strideA a
         /\ call_x c = x a + b_base * stridex a
         /\ call_y c = y a + b_base * stridey a.
Proof.
  intros TScal H chunk launcher fuel h a s made h' c st Hrun Hin.
  unfold rocblas_hpmv_launcher_64 in Hrun.
  destruct ((n_64 a =? 0) || (batch_count_64 a =? 0)).
  { injection Hrun as <- <- <-. destruct Hin. }
  destruct (n_64 a >? c_i32_max) eqn:Hn.
  { injection Hrun as <- <- <-. destruct Hin. }
  rewrite Z.gtb_ltb in Hn. apply Z.ltb_ge in Hn.
  destruct (batch_loop_calls chunk launcher a _ _ _ _ _ _ _ Hrun c st Hin)
    as [[] | (b & Hb & ->)].
  cbn [chunk_call call_uplo call_n call_alpha call_beta call_offseta call_offsetx
       call_offsety call_incx call_incy call_strideA call_stridex call_stridey
       call_AP call_x call_y].
  unfold adjust_ptr_batch.
  repeat split; try reflexivity.
  - intros Hlow. apply to_int32_in_range. lia.
  - exists b. repeat split. exact Hb.
Qed.

Lemma hpmv_launcher_64_forwards_arguments_witness :
  (rocblas_hpmv_launcher_64 3 second_call_fails 4 0%nat (example_args 5 7)
   = Some (rocblas_status_internal_error,
           [(chunk_call 3 (example_args 5 7) 0, rocblas_status_success);
            (chunk_call 3 (example_args 5 7) 3, rocblas_status_internal_error)],
           2%nat)
   /\ In (chunk_call 3 (example_args 5 7) 3, rocblas_status_internal_error)
         [(chunk_call 3 (example_args 5 7) 0, rocblas_status_success);
          (chunk_call 3 (example_args 5 7) 3, rocblas_status_internal_error)])
  /\ call_n (chunk_call 3 (example_args 5 7) 3) = to_int32 (n_64 (example_args 5 7)).
Proof.
  assert (Hrun : rocblas_hpmv_launcher_64 3 second_call_fails 4 0%nat (example_args 5 7)
                 = Some (rocblas_status_internal_error,
                         [(chunk_call 3 (example_args 5 7) 0, rocblas_status_success);
                          (chunk_call 3 (example_args 5 7) 3, rocblas_status_internal_error)],
                         2%nat)) by reflexivity.
  assert (Hin : In (chunk_call 3 (example_args 5 7) 3, rocblas_status_internal_error)
                  [(chunk_call 3 (example_args 5 7) 0, rocblas_status_success);
                   (chunk_call 3 (example_args 5 7) 3, rocblas_status_internal_error)])
    by (right; left; reflexivity).
  split; [split; assumption|].
  exact (proj1 (proj2 (hpmv_launcher_64_forwards_arguments unit nat 3 second_call_fails 4 0%nat
                         (example_args 5 7) _ _ _ _ _ Hrun Hin))).
Defined.

(** A batch that fits one chunk goes to the 32-bit launcher as it is: one
    call with the arguments of the caller, whose status and state are those
    of the shim. *)
Theorem hpmv_launcher_64_single_chunk :
  forall (TScal H : Type) (chunk : Z)
         (launcher : hpmv_call TScal -> H -> rocblas_status * H)
         (fuel : nat) (h : H) (a : hpmv_args_64 TScal),
    n_64 a <> 0 ->
    - 2 ^ 31 <= n_64 a <= c_i32_max ->
    1 <= batch_count_64 a <= chunk ->
    chunk <= c_i32_max ->
    (2 <= fuel)%nat ->
    rocblas_hpmv_launcher_64 chunk launcher fuel h a
    = Some (fst (launcher (same_call a) h),
            [(same_call a, fst (launcher (same_call a) h))],
            snd (launcher (same_call a) h)).
Proof.
  intros TScal H chunk launcher fuel h a Hn0 Hn Hbc Hc Hfuel.
  unfold rocblas_hpmv_launcher_64.
  replace (n_64 a =? 0) with false by (symmetry; now apply Z.eqb_neq).
  replace (batch_count_64 a =? 0) with false by (symmetry; apply Z.eqb_neq; lia).
  replace (n_64 a >? c_i32_max) with false
    by (symmetry; rewrite Z.gtb_ltb; apply Z.ltb_ge; lia).
  cbn [orb].
  destruct fuel as [|[|fuel]]; [lia | lia |]. cbn [batch_loop].
  replace (0 <? batch_count_64 a) with true by (symmetry; apply Z.ltb_lt; lia).
  assert (Hcall : chunk_call chunk a 0 = same_call a).
  { unfold chunk_call, same_call, adjust_ptr_batch.
    rewrite (to_int32_in_range (n_64 a)) by lia.
    rewrite to_int64_in_range
      by (unfold in_int64, c_i64_min, c_i64_max, c_i32_max in *; lia).
    rewrite to_int32_in_range by (unfold c_i32_max in *; lia).
    f_equal; lia. }
  rewrite Hcall.
  destruct (launcher (same_call a) h) as [s h1]. cbn [fst snd].
  destruct (status_eqb s rocblas_status_success) eqn:Hs; [|reflexivity].
  apply status_eqb_eq in Hs. subst s.
  rewrite to_int64_in_range
    by (unfold in_int64, c_i64_min, c_i64_max, c_i32_max in *; lia).
  replace (0 + chunk <? batch_count_64 a) with false by (symmetry; apply Z.ltb_ge; lia).
  reflexivity.
Qed.

Lemma hpmv_launcher_64_single_chunk_witness :
  (n_64 (example_args 5 7) <> 0
   /\ - 2 ^ 31 <= n_64 (example_args 5 7) <= c_i32_max
   /\ 1 <= batch_count_64 (example_args 5 7) <= 65535
   /\ 65535 <= c_i32_max
   /\ (2 <= 2)%nat)
  /\ rocblas_hpmv_launcher_64 65535 rejecting_launcher 2 0%nat (example_args 5 7)
     = Some (rocblas_status_memory_error,
             [(same_call (example_args 5 7), rocblas_status_memory_error)], 1%nat).
Proof.
  assert (H1 : n_64 (example_args 5 7) <> 0) by (vm_compute; congruence).
  assert (H2 : - 2 ^ 31 <= n_64 (example_args 5 7) <= c_i32_max)
    by (vm_compute; split; congruence).
  assert (H3 : 1 <= batch_count_64 (example_args 5 7) <= 65535)
    by (vm_compute; split; congruence).
  assert (H4 : 65535 <= c_i32_max) by (vm_compute; congruence).
  assert (H5 : (2 <= 2)%nat) by constructor.
  split; [repeat split; assumption|].
  exact (hpmv_launcher_64_single_chunk unit nat 65535 rejecting_launcher 2 0%nat
           (example_args 5 7) H1 H2 H3 H4 H5).
Defined.

(** A negative batch count is no error of its own: with a dimension other
    than zero the shim makes no call of the 32-bit launcher, and it returns
    success unless the dimension is above [c_i32_max]. *)
Theorem hpmv_launcher_64_negative_batch_count :
  forall (TScal H : Type) (chunk : Z)
         (launcher : hpmv_call TScal -> H -> rocblas_status * H)
         (fuel : nat) (h : H) (a : hpmv_args_64 TScal),
    batch_count_64 a < 0 ->
    n_64 a <> 0 ->
    (1 <= fuel)%nat ->
    rocblas_hpmv_launcher_64 chunk launcher fuel h a
    = Some (if n_64 a >? c_i32_max then rocblas_status_invalid_size
            else rocblas_status_success, [], h).
Proof.
  intros TScal H chunk launcher fuel h a Hbc Hn0 Hfuel.
  unfold rocblas_hpmv_launcher_64.
  replace (n_64 a =? 0) with false by (symmetry; now apply Z.eqb_neq).
  replace (batch_count_64 a =? 0) with false by (symmetry; apply Z.eqb_neq; lia).
  cbn [orb]. destruct (n_64 a >? c_i32_max); [reflexivity|].
  destruct fuel as [|fuel]; [lia|]. cbn [batch_loop].
  replace (0 <? batch_count_64 a) with false by (symmetry; apply Z.ltb_ge; lia).
  reflexivity.
Qed.

Lemma hpmv_launcher_64_negative_batch_count_witness :
  (batch_count_64 (example_args 5 (-7)) < 0
   /\ n_64 (example_args 5 (-7)) <> 0
   /\ (1 <= 1)%nat)
  /\ rocblas_hpmv_launcher_64 65535 rejecting_launcher 1 0%nat (example_args 5 (-7))
     = Some (rocblas_status_success, [], 0%nat).
Proof.
  assert (H1 : batch_count_64 (example_args 5 (-7)) < 0) by reflexivity.
  assert (H2 : n_64 (example_args 5 (-7)) <> 0) by (vm_compute; congruence).
  assert (H3 : (1 <= 1)%nat) by constructor.
  split; [repeat split; assumption|].
  exact (hpmv_launcher_64_negative_batch_count unit nat 65535 rejecting_launcher 1 0%nat
           (example_args 5 (-7)) H1 H2 H3).
Defined.

End Hpmv64TraceFacts.

(** ** Strided-batched TRTRI: every run *)

Module TrtriCallsFacts.
Import Trtri TrtriCalls.

(** [split_last] splits a list given by its elements into its last element
    and what comes before it. *)
Ltac split_last :=
  match goal with
  | |- exists before ev, [?x1] = before ++ [ev] /\ _ => exists [], x1
  | |- exists before ev, [?x1; ?x2] = before ++ [ev] /\ _ => exists [x1], x2
  | |- exists before ev, [?x1; ?x2; ?x3] = before ++ [ev] /\ _ => exists [x1; x2], x3
  | |- exists before ev, [?x1; ?x2; ?x3; ?x4] = before ++ [ev] /\ _ =>
      exists [x1; x2; x3], x4
  | |- exists before ev, [?x1; ?x2; ?x3; ?x4; ?x5] = before ++ [ev] /\ _ =>
      exists [x1; x2; x3; x4], x5
  end.

Section Wrapper.

Variable L : library.

(** The wrapper past the size query, as the sequence of its calls: the two
    logging calls the layer mode asks for, the argument check, and what
    follows the check. *)
Lemma trtri_impl_runs (NB : Z) (T : element_type) (h : _rocblas_handle) (a : trtri_args) :
  is_device_memory_size_query h = false ->
  rocblas_trtri_strided_batched_impl L NB T (Some h) a
  = bind (if negb (Z.land (layer_mode h) (rocblas_layer_mode_log_trace L) =? 0)
          then call (call_log_trace (rocblas_trtri_name T) a)
                    (log_trace L h (rocblas_trtri_name T) a)
          else ret tt)
      (fun _ =>
         bind (if negb (Z.land (layer_mode h) (rocblas_layer_mode_log_profile L) =? 0)
               then call (call_log_profile (rocblas_trtri_name T) a)
                         (log_profile L h (rocblas_trtri_name T) a)
               else ret tt)
           (fun _ =>
              bind (call (call_rocblas_trtri_arg_check a) (rocblas_trtri_arg_check L h a))
                (fun arg_status =>
                   if negb (status_eqb arg_status rocblas_status_continue)
                   then ret arg_status
                   else if n a <=? NB
                   then call (call_rocblas_trtri_small NB T (kernel_args_of a))
                             (rocblas_trtri_small L NB T h (kernel_args_of a))
                   else bind (call (call_device_malloc (temp_size_in_bytes L NB T a))
                                   (device_malloc L h (temp_size_in_bytes L NB T a)))
                          (fun w_C_tmp =>
                             match w_C_tmp with
                             | None => ret rocblas_status_memory_error
                             | Some w =>
                                 call (call_rocblas_trtri_large NB T (kernel_args_of a) w)
                                      (rocblas_trtri_large L NB T h (kernel_args_of a) w)
                             end)))).
Proof.
  intros Hquery. unfold rocblas_trtri_strided_batched_impl. rewrite Hquery. reflexivity.
Qed.

(** A kernel is launched only by a run that got through everything before
    it: a handle outside a size query, logging that returned, an argument
    check that returned [rocblas_status_continue] and, for [n > NB], an
    allocation that returned memory; the launch is the last call of the run
    and the only launch. *)
Theorem trtri_impl_kernel_only_after_checks :
  forall (NB : Z) (T : element_type) (handle : rocblas_handle) (a : trtri_args),
    existsb is_kernel_launch (fst (rocblas_trtri_strided_batched_impl L NB T handle a)) = true ->
    exists h,
      handle = Some h
      /\ is_device_memory_size_query h = false
      /\ logging_returns L T h a
      /\ rocblas_trtri_arg_check L h a = returned rocblas_status_continue
      /\ existsb is_kernel_launch
           (logging_calls L T h a ++ [call_rocblas_trtri_arg_check a]) = false
      /\ ((n a <= NB
           /\ fst (rocblas_trtri_strided_batched_impl L NB T handle a)
              = logging_calls L T h a
                  ++ [call_rocblas_trtri_arg_check a;
                      call_rocblas_trtri_small NB T (kernel_args_of a)])
          \/ (n a > NB
              /\ exists w,
                   device_malloc L h (temp_size_in_bytes L NB T a) = returned (Some w)
                   /\ fst (rocblas_trtri_strided_batched_impl L NB T handle a)
                      = logging_calls L T h a
                          ++ [call_rocblas_trtri_arg_check a;
                              call_device_malloc (temp_size_in_bytes L NB T a);
                              call_rocblas_trtri_large NB T (kernel_args_of a) w])).
Proof.
  intros NB T [h|] a; [|discriminate].
  destruct (is_device_memory_size_query h) eqn:Hquery.
  { unfold rocblas_trtri_strided_batched_impl. rewrite Hquery. cbv zeta.
    destruct ((n a <=? NB) || (batch_count a =? 0)); discriminate. }
  rewrite (trtri_impl_runs NB T h a Hquery).
  intros Hlaunch. exists h. unfold logging_returns, logging_calls.
  destruct (Z.eqb_spec (Z.land (layer_mode h) (rocblas_layer_mode_log_trace L)) 0)
    as [Hbit1|Hbit1];
    destruct (Z.eqb_spec (Z.land (layer_mode h) (rocblas_layer_mode_log_profile L)) 0)
    as [Hbit2|Hbit2];
    cbn [negb] in *;
    try (destruct (log_trace L h (rocblas_trtri_name T) a) as [[]|e1]; [|discriminate]);
    try (destruct (log_profile L h (rocblas_trtri_name T) a) as [[]|e2]; [|discriminate]);
    (destruct (rocblas_trtri_arg_check L h a) as [status|e3]; [|discriminate]);
    (destruct (rocblas_status_eq_dec status rocblas_status_continue) as [->|Hne];
     [|apply status_eqb_neq in Hne; unfold bind, call, ret in Hlaunch;
       rewrite Hne in Hlaunch; discriminate]);
    unfold bind, call, ret in *;
    replace (negb (status_eqb rocblas_status_continue rocblas_status_continue))
      with false in * by reflexivity;
    (destruct (Z.leb_spec (n a) NB) as [Hn|Hn];
     [|destruct (device_malloc L h _) as [[w|]|e4] eqn:Hmalloc]);
    cbn [app fst snd existsb is_kernel_launch orb] in *;
    try discriminate;
    (split; [reflexivity|]); (split; [exact Hquery|]);
    (split; [split; intros; (reflexivity || contradiction)|]);
    (split; [reflexivity|]); (split; [reflexivity|]);
    first [ left; split; [exact Hn | reflexivity]
          | right; split; [lia|]; exists w; split; reflexivity ].
Qed.

(** An exception leaves the wrapper only out of the library call it made
    last: the call recorded last is the one that threw it, and no call
    follows.  The C entry point then returns the status
    [exception_to_rocblas_status] makes of it. *)
Theorem trtri_impl_exception_from_last_call :
  forall (NB : Z) (T : element_type) (handle : rocblas_handle) (a : trtri_args)
         (t : list event) (e : cxx_exception),
    rocblas_trtri_strided_batched_impl L NB T handle a = (t, thrown e) ->
    try_catch_all L (rocblas_trtri_strided_batched_impl L NB T handle a)
    = (t, exception_to_rocblas_status L e)
    /\ exists h,
         handle = Some h
         /\ exists before ev, t = before ++ [ev] /\ raises L h ev e.
Proof.
  intros NB T handle a t e Hrun. split; [rewrite Hrun; reflexivity|].
  destruct handle as [h|]; [|discriminate]. exists h. split; [reflexivity|].
  destruct (is_device_memory_size_query h) eqn:Hquery.
  { unfold rocblas_trtri_strided_batched_impl in Hrun. rewrite Hquery in Hrun.
    cbv zeta in Hrun.
    destruct ((n a <=? NB) || (batch_count a =? 0)); [discriminate|].
    unfold call in Hrun. injection Hrun as <- Hset.
    split_last. split; [reflexivity | exact Hset]. }
  rewrite (trtri_impl_runs NB T h a Hquery) in Hrun.
  destruct (Z.land (layer_mode h) (rocblas_layer_mode_log_trace L) =? 0);
    destruct (Z.land (layer_mode h) (rocblas_layer_mode_log_profile L) =? 0);
    cbn [negb] in Hrun;
    try (destruct (log_trace L h (rocblas_trtri_name T) a) as [[]|e1] eqn:Htrace);
    try (destruct (log_profile L h (rocblas_trtri_name T) a) as [[]|e2] eqn:Hprofile);
    try (destruct (rocblas_trtri_arg_check L h a) as [status|e3] eqn:Hcheck;
         [destruct (status_eqb status rocblas_status_continue) eqn:Hst;
          [destruct (n a <=? NB);
           [destruct (rocblas_trtri_small L NB T h (kernel_args_of a)) as [s1|e4] eqn:Hsmall
           |destruct (device_malloc L h (temp_size_in_bytes L NB T a)) as [[w|]|e5] eqn:Hmalloc;
            [destruct (rocblas_trtri_large L NB T h (kernel_args_of a) w) as [s2|e6] eqn:Hlarge
            | | ]]|]|]);
    unfold bind, call, ret in Hrun; try rewrite Hst in Hrun; cbn [negb app] in Hrun;
    try rewrite Hlarge in Hrun;
    try discriminate;
    injection Hrun as <- <-; split_last; (split; [reflexivity|]);
    cbn [raises]; assumption.
Qed.

(** [rocblas_status_continue], by which the argument check tells the
    wrapper to go on, is not handed to the caller by the wrapper itself: a
    call returns it only if [set_optimal_device_memory_size] or the kernel
    launcher it called returned it. *)
Theorem trtri_impl_continue_not_from_check :
  forall (NB : Z) (T : element_type) (handle : rocblas_handle) (a : trtri_args)
         (t : list event),
    rocblas_trtri_strided_batched_impl L NB T handle a
    = (t, returned rocblas_status_continue) ->
    exists h,
      handle = Some h
      /\ ((is_device_memory_size_query h = true
           /\ set_optimal_device_memory_size L h (temp_size_in_bytes L NB T a)
              = returned rocblas_status_continue)
          \/ (is_device_memory_size_query h = false
              /\ n a <= NB
              /\ rocblas_trtri_small L NB T h (kernel_args_of a)
                 = returned rocblas_status_continue)
          \/ (is_device_memory_size_query h = false
              /\ n a > NB
              /\ exists w,
                   device_malloc L h (temp_size_in_bytes L NB T a) = returned (Some w)
                   /\ rocblas_trtri_large L NB T h (kernel_args_of a) w
                      = returned rocblas_status_continue)).
Proof.
  intros NB T handle a t Hrun.
  destruct handle as [h|]; [|discriminate]. exists h. split; [reflexivity|].
  destruct (is_device_memory_size_query h) eqn:Hquery.
  { unfold rocblas_trtri_strided_batched_impl in Hrun. rewrite Hquery in Hrun.
    cbv zeta in Hrun.
    destruct ((n a <=? NB) || (batch_count a =? 0)); [discriminate|].
    unfold call in Hrun. injection Hrun as _ Hset. left. split; [reflexivity | exact Hset]. }
  right.
  rewrite (trtri_impl_runs NB T h a Hquery) in Hrun.
  destruct (Z.land (layer_mode h) (rocblas_layer_mode_log_trace L) =? 0);
    destruct (Z.land (layer_mode h) (rocblas_layer_mode_log_profile L) =? 0);
    cbn [negb] in Hrun;
    try (destruct (log_trace L h (rocblas_trtri_name T) a) as [[]|e1] eqn:Htrace);
    try (destruct (log_profile L h (rocblas_trtri_name T) a) as [[]|e2] eqn:Hprofile);
    try (destruct (rocblas_trtri_arg_check L h a) as [status|e3] eqn:Hcheck;
         [destruct (status_eqb status rocblas_status_continue) eqn:Hst;
          [destruct (Z.leb_spec (n a) NB) as [Hn|Hn];
           [destruct (rocblas_trtri_small L NB T h (kernel_args_of a)) as [s1|e4] eqn:Hsmall
           |destruct (device_malloc L h (temp_size_in_bytes L NB T a)) as [[w|]|e5] eqn:Hmalloc;
            [destruct (rocblas_trtri_large L NB T h (kernel_args_of a) w) as [s2|e6] eqn:Hlarge
            | | ]]
          |apply status_eqb_neq in Hst]|]);
    unfold bind, call, ret in Hrun; try rewrite Hst in Hrun;
    try (replace (status_eqb status rocblas_status_continue) with false in Hrun
          by (symmetry; now apply status_eqb_neq));
    cbn [negb app] in Hrun;
    try rewrite Hlarge in Hrun;
    try discriminate;
    injection Hrun as _ Hs;
    try congruence;
    first [ left; split; [reflexivity|]; split; [exact Hn|]; congruence
          | right; split; [reflexivity|]; split; [lia|]; exists w;
            split; [reflexivity | congruence] ].
Qed.

(** Arguments that the check rejects are an error of the call, whatever
    [n] is: the status of the check is returned, and the check is the last
    call made; nothing is allocated and no kernel is launched. *)
Theorem trtri_impl_rejected_arguments :
  forall (NB : Z) (T : element_type) (h : _rocblas_handle) (a : trtri_args)
         (status : rocblas_status),
    is_device_memory_size_query h = false ->
    logging_returns L T h a ->
    rocblas_trtri_arg_check L h a = returned status ->
    status <> rocblas_status_continue ->
    rocblas_trtri_strided_batched_impl L NB T (Some h) a
    = (logging_calls L T h a ++ [call_rocblas_trtri_arg_check a], returned status).
Proof.
  intros NB T h a status Hquery [Htrace Hprofile] Hcheck Hne.
  rewrite (trtri_impl_runs NB T h a Hquery). unfold logging_calls. rewrite Hcheck.
  apply status_eqb_neq in Hne.
  destruct (Z.eqb_spec (Z.land (layer_mode h) (rocblas_layer_mode_log_trace L)) 0)
    as [_|Hbit1];
    destruct (Z.eqb_spec (Z.land (layer_mode h) (rocblas_layer_mode_log_profile L)) 0)
    as [_|Hbit2];
    cbn [negb];
    try rewrite (Htrace Hbit1); try rewrite (Hprofile Hbit2);
    unfold bind, call, ret; rewrite Hne; reflexivity.
Qed.

(** Whatever a run logs is logged under the name of the instantiated
    element type and with the arguments of the caller. *)
Lemma trtri_impl_logs_as (NB : Z) (T : element_type) (handle : rocblas_handle)
      (a : trtri_args) :
  Forall (logs_as (rocblas_trtri_name T) a)
    (fst (rocblas_trtri_strided_batched_impl L NB T handle a)).
Proof.
  destruct handle as [h|]; [|constructor].
  destruct (is_device_memory_size_query h) eqn:Hquery.
  { unfold rocblas_trtri_strided_batched_impl. rewrite Hquery. cbv zeta.
    destruct ((n a <=? NB) || (batch_count a =? 0)); repeat constructor. }
  rewrite (trtri_impl_runs NB T h a Hquery).
  destruct (Z.land (layer_mode h) (rocblas_layer_mode_log_trace L) =? 0);
    destruct (Z.land (layer_mode h) (rocblas_layer_mode_log_profile L) =? 0);
    cbn [negb];
    try (destruct (log_trace L h (rocblas_trtri_name T) a) as [[]|e1]);
    try (destruct (log_profile L h (rocblas_trtri_name T) a) as [[]|e2]);
    try (destruct (rocblas_trtri_arg_check L h a) as [status|e3];
         [destruct (status_eqb status rocblas_status_continue) eqn:Hst;
          [destruct (n a <=? NB);
           [destruct (rocblas_trtri_small L NB T h (kernel_args_of a)) as [s1|e4]
           |destruct (device_malloc L h (temp_size_in_bytes L NB T a)) as [[w|]|e5];
            [destruct (rocblas_trtri_large L NB T h (kernel_args_of a) w) as [s2|e6]
            | | ]]|]|]);
    unfold bind, call, ret; try rewrite Hst; cbn [negb app fst];
    repeat constructor; reflexivity.
Qed.

Lemma fst_try_catch_all (m : M rocblas_status) : fst (try_catch_all L m) = fst m.
Proof. destruct m as [t [status|e]]; reflexivity. Qed.

(** Each C entry point logs under its own name, with the arguments it was
    called with, and the four names differ. *)
Theorem trtri_entry_points_log_their_name :
  forall handle uplo diag n A lda bsa invA ldinvA bsinvA batch_count,
    let a := Build_trtri_args uplo diag n A lda bsa invA ldinvA bsinvA batch_count in
    Forall (logs_as "rocblas_strtri_strided_batched" a)
      (fst (rocblas_strtri_strided_batched L handle uplo diag n A lda bsa invA ldinvA bsinvA
              batch_count))
    /\ Forall (logs_as "rocblas_dtrtri_strided_batched" a)
         (fst (rocblas_dtrtri_strided_batched L handle uplo diag n A lda bsa invA ldinvA
                 bsinvA batch_count))
    /\ Forall (logs_as "rocblas_ctrtri_strided_batched" a)
         (fst (rocblas_ctrtri_strided_batched L handle uplo diag n A lda bsa invA ldinvA
                 bsinvA batch_count))
    /\ Forall (logs_as "rocblas_ztrtri_strided_batched" a)
         (fst (rocblas_ztrtri_strided_batched L handle uplo diag n A lda bsa invA ldinvA
                 bsinvA batch_count))
    /\ (forall T1 T2, rocblas_trtri_name T1 = rocblas_trtri_name T2 -> T1 = T2).
Proof.
  intros handle uplo diag n A lda bsa invA ldinvA bsinvA batch_count a.
  unfold rocblas_strtri_strided_batched, rocblas_dtrtri_strided_batched,
    rocblas_ctrtri_strided_batched, rocblas_ztrtri_strided_batched.
  cbv zeta. rewrite !fst_try_catch_all. fold a.
  split; [exact (trtri_impl_logs_as 16 float handle a)|].
  split; [exact (trtri_impl_logs_as 16 double handle a)|].
  split; [exact (trtri_impl_logs_as 16 rocblas_float_complex handle a)|].
  split; [exact (trtri_impl_logs_as 16 rocblas_double_complex handle a)|].
  intros [] []; cbn [rocblas_trtri_name]; intros Hname;
    first [reflexivity | discriminate Hname].
Qed.

End Wrapper.

Lemma trtri_impl_kernel_only_after_checks_witness :
  existsb is_kernel_launch
    (fst (rocblas_trtri_strided_batched_impl example_library 16 float
            (Some (Build_handle false 5)) (example_args 32 3))) = true
  /\ exists h,
       Some (Build_handle false 5) = Some h
       /\ rocblas_trtri_arg_check example_library h (example_args 32 3)
          = returned rocblas_status_continue.
Proof.
  assert (H1 : existsb is_kernel_launch
                 (fst (rocblas_trtri_strided_batched_impl example_library 16 float
                         (Some (Build_handle false 5)) (example_args 32 3))) = true)
    by reflexivity.
  split; [exact H1|].
  destruct (trtri_impl_kernel_only_after_checks example_library 16 float
              (Some (Build_handle false 5)) (example_args 32 3) H1)
    as (h & Hh & _ & _ & Hcheck & _).
  exists h. split; assumption.
Defined.

Lemma trtri_impl_exception_from_last_call_witness :
  rocblas_trtri_strided_batched_impl out_of_memory_library 16 float
    (Some (Build_handle false 0)) (example_args 32 3)
  = ([call_rocblas_trtri_arg_check (example_args 32 3); call_device_malloc 12288],
     thrown (exception 7))
  /\ try_catch_all out_of_memory_library
       (rocblas_trtri_strided_batched_impl out_of_memory_library 16 float
          (Some (Build_handle false 0)) (example_args 32 3))
     = ([call_rocblas_trtri_arg_check (example_args 32 3); call_device_malloc 12288],
        rocblas_status_memory_error).
Proof.
  assert (H1 : rocblas_trtri_strided_batched_impl out_of_memory_library 16 float
                 (Some (Build_handle false 0)) (example_args 32 3)
               = ([call_rocblas_trtri_arg_check (example_args 32 3);
                   call_device_malloc 12288],
                  thrown (exception 7))) by reflexivity.
  split; [exact H1|].
  exact (proj1 (trtri_impl_exception_from_last_call out_of_memory_library 16 float
                  (Some (Build_handle false 0)) (example_args 32 3) _ _ H1)).
Defined.

Lemma trtri_impl_continue_not_from_check_witness :
  rocblas_trtri_strided_batched_impl (library_returning rocblas_status_continue) 16 float
    (Some (Build_handle false 0)) (example_args 8 3)
  = ([call_rocblas_trtri_arg_check (example_args 8 3);
      call_rocblas_trtri_small 16 float (kernel_args_of (example_args 8 3))],
     returned rocblas_status_continue)
  /\ exists h,
       Some (Build_handle false 0) = Some h
       /\ ((is_device_memory_size_query h = true
            /\ set_optimal_device_memory_size (library_returning rocblas_status_continue) h
                 (temp_size_in_bytes (library_returning rocblas_status_continue) 16 float
                    (example_args 8 3))
               = returned rocblas_status_continue)
           \/ (is_device_memory_size_query h = false
               /\ n (example_args 8 3) <= 16
               /\ rocblas_trtri_small (library_returning rocblas_status_continue) 16 float h
                    (kernel_args_of (example_args 8 3))
                  = returned rocblas_status_continue)
           \/ (is_device_memory_size_query h = false
               /\ n (example_args 8 3) > 16
               /\ exists w,
                    device_malloc (library_returning rocblas_status_continue) h
                      (temp_size_in_bytes (library_returning rocblas_status_continue) 16 float
                         (example_args 8 3))
                    = returned (Some w)
                    /\ rocblas_trtri_large (library_returning rocblas_status_continue) 16
                         float h (kernel_args_of (example_args 8 3)) w
                       = returned rocblas_status_continue)).
Proof.
  assert (H1 : rocblas_trtri_strided_batched_impl (library_returning rocblas_status_continue)
                 16 float (Some (Build_handle false 0)) (example_args 8 3)
               = ([call_rocblas_trtri_arg_check (example_args 8 3);
                   call_rocblas_trtri_small 16 float (kernel_args_of (example_args 8 3))],
                  returned rocblas_status_continue)) by reflexivity.
  split; [exact H1|].
  exact (trtri_impl_continue_not_from_check (library_returning rocblas_status_continue)
           16 float (Some (Build_handle false 0)) (example_args 8 3) _ H1).
Defined.

Lemma trtri_impl_rejected_arguments_witness :
  (is_device_memory_size_query (Build_handle false 1) = false
   /\ logging_returns checking_library double (Build_handle false 1) (null_invA_args 32 3)
   /\ rocblas_trtri_arg_check checking_library (Build_handle false 1) (null_invA_args 32 3)
      = returned rocblas_status_invalid_pointer
   /\ rocblas_status_invalid_pointer <> rocblas_status_continue)
  /\ rocblas_trtri_strided_batched_impl checking_library 16 double
       (Some (Build_handle false 1)) (null_invA_args 32 3)
     = ([call_log_trace "rocblas_dtrtri_strided_batched" (null_invA_args 32 3);
         call_rocblas_trtri_arg_check (null_invA_args 32 3)],
        returned rocblas_status_invalid_pointer).
Proof.
  assert (H1 : is_device_memory_size_query (Build_handle false 1) = false) by reflexivity.
  assert (H2 : logging_returns checking_library double (Build_handle false 1)
                 (null_invA_args 32 3)) by (split; intros _; reflexivity).
  assert (H3 : rocblas_trtri_arg_check checking_library (Build_handle false 1)
                 (null_invA_args 32 3) = returned rocblas_status_invalid_pointer)
    by reflexivity.
  assert (H4 : rocblas_status_invalid_pointer <> rocblas_status_continue) by discriminate.
  split; [repeat split; assumption|].
  exact (trtri_impl_rejected_arguments checking_library 16 double (Build_handle false 1)
           (null_invA_args 32 3) rocblas_status_invalid_pointer H1 H2 H3 H4).
Defined.

End TrtriCallsFacts.

(** ** Strided-batched TRTRI: the size query and the allocation *)

Module TrtriSizeFacts.
Import Trtri TrtriCalls.

Section Wrapper.

Variable L : library.

(** [find_call H] looks for the call of [H : In ev t] among the elements
    of [t]. *)
Ltac find_call H :=
  cbn [In app fst] in H;
  repeat (destruct H as [H | H]; [try discriminate H|]);
  try contradiction.

(** Memory is asked of [device_malloc] only outside a size query and for
    [n > NB], and only in the size the wrapper computes. *)
Lemma trtri_impl_allocates (NB : Z) (T : element_type) (h : _rocblas_handle)
      (a : trtri_args) (size : Z) :
  In (call_device_malloc size) (fst (rocblas_trtri_strided_batched_impl L NB T (Some h) a)) ->
  is_device_memory_size_query h = false
  /\ n a > NB
  /\ size = temp_size_in_bytes L NB T a.
Proof.
  destruct (is_device_memory_size_query h) eqn:Hquery.
  { unfold rocblas_trtri_strided_batched_impl. rewrite Hquery. cbv zeta.
    destruct ((n a <=? NB) || (batch_count a =? 0)); intros Hin; find_call Hin. }
  rewrite (TrtriCallsFacts.trtri_impl_runs L NB T h a Hquery).
  destruct (Z.land (layer_mode h) (rocblas_layer_mode_log_trace L) =? 0);
    destruct (Z.land (layer_mode h) (rocblas_layer_mode_log_profile L) =? 0);
    cbn [negb];
    try (destruct (log_trace L h (rocblas_trtri_name T) a) as [[]|e1]);
    try (destruct (log_profile L h (rocblas_trtri_name T) a) as [[]|e2]);
    try (destruct (rocblas_trtri_arg_check L h a) as [status|e3];
         [destruct (status_eqb status rocblas_status_continue) eqn:Hst;
          [destruct (Z.leb_spec (n a) NB) as [Hn|Hn];
           [destruct (rocblas_trtri_small L NB T h (kernel_args_of a)) as [s1|e4]
           |destruct (device_malloc L h (temp_size_in_bytes L NB T a)) as [[w|]|e5];
            [destruct (rocblas_trtri_large L NB T h (kernel_args_of a) w) as [s2|e6]
            | | ]]|]|]);
    unfold bind, call, ret; try rewrite Hst; cbn [negb app fst];
    intros Hin; find_call Hin;
    injection Hin as <-; (split; [reflexivity|]); (split; [lia | reflexivity]).
Qed.

(** A size is reported to [set_optimal_device_memory_size] only in a
    size query, for [n > NB] and a batch that is not empty, and it is the
    size the wrapper computes. *)
Lemma trtri_impl_reports (NB : Z) (T : element_type) (h : _rocblas_handle)
      (a : trtri_args) (size : Z) :
  In (call_set_optimal_device_memory_size size)
    (fst (rocblas_trtri_strided_batched_impl L NB T (Some h) a)) ->
  is_device_memory_size_query h = true
  /\ n a > NB
  /\ batch_count a <> 0
  /\ size = temp_size_in_bytes L NB T a.
Proof.
  destruct (is_device_memory_size_query h) eqn:Hquery.
  { unfold rocblas_trtri_strided_batched_impl. rewrite Hquery. cbv zeta.
    fold (temp_size_in_bytes L NB T a).
    destruct (Z.leb_spec (n a) NB) as [Hn|Hn];
      destruct (Z.eqb_spec (batch_count a) 0) as [Hb|Hb];
      cbn [orb]; intros Hin; find_call Hin.
    injection Hin as <-. repeat split; [lia | exact Hb]. }
  rewrite (TrtriCallsFacts.trtri_impl_runs L NB T h a Hquery).
  destruct (Z.land (layer_mode h) (rocblas_layer_mode_log_trace L) =? 0);
    destruct (Z.land (layer_mode h) (rocblas_layer_mode_log_profile L) =? 0);
    cbn [negb];
    try (destruct (log_trace L h (rocblas_trtri_name T) a) as [[]|e1]);
    try (destruct (log_profile L h (rocblas_trtri_name T) a) as [[]|e2]);
    try (destruct (rocblas_trtri_arg_check L h a) as [status|e3];
         [destruct (status_eqb status rocblas_status_continue) eqn:Hst;
          [destruct (Z.leb_spec (n a) NB) as [Hn|Hn];
           [destruct (rocblas_trtri_small L NB T h (kernel_args_of a)) as [s1|e4]
           |destruct (device_malloc L h (temp_size_in_bytes L NB T a)) as [[w|]|e5];
            [destruct (rocblas_trtri_large L NB T h (kernel_args_of a) w) as [s2|e6]
            | | ]]|]|]);
    unfold bind, call, ret; try rewrite Hst; cbn [negb app fst];
    intros Hin; find_call Hin.
Qed.

(** The size query answers for the run: the size a run asks of
    [device_malloc] is the size a size query with the same arguments and
    element type reports to [set_optimal_device_memory_size], and a run that
    allocates for a batch that is not empty has a size query that reports
    instead of returning [rocblas_status_size_unchanged]. *)
Theorem trtri_size_query_matches_allocation :
  forall (NB : Z) (T : element_type) (query run : _rocblas_handle) (a : trtri_args)
         (size_asked : Z),
    is_device_memory_size_query query = true ->
    In (call_device_malloc size_asked)
      (fst (rocblas_trtri_strided_batched_impl L NB T (Some run) a)) ->
    (forall size_reported,
        In (call_set_optimal_device_memory_size size_reported)
          (fst (rocblas_trtri_strided_batched_impl L NB T (Some query) a)) ->
        size_reported = size_asked)
    /\ (batch_count a <> 0 ->
        rocblas_trtri_strided_batched_impl L NB T (Some query) a
        = ([call_set_optimal_device_memory_size size_asked],
           set_optimal_device_memory_size L query size_asked)).
Proof.
  intros NB T query run a size_asked Hquery Hasked.
  destruct (trtri_impl_allocates NB T run a size_asked Hasked) as (_ & Hn & ->).
  split.
  - intros size_reported Hreported.
    now destruct (trtri_impl_reports NB T query a size_reported Hreported) as (_ & _ & _ & ->).
  - intros Hbatch.
    unfold rocblas_trtri_strided_batched_impl. rewrite Hquery. cbv zeta.
    fold (temp_size_in_bytes L NB T a).
    replace ((n a <=? NB) || (batch_count a =? 0)) with false; [reflexivity|].
    symmetry. apply orb_false_iff. split; [apply Z.leb_gt | apply Z.eqb_neq]; lia.
Qed.

End Wrapper.

Lemma trtri_size_query_matches_allocation_witness :
  (is_device_memory_size_query (Build_handle true 0) = true
   /\ In (call_device_malloc 12288)
        (fst (rocblas_trtri_strided_batched_impl example_library 16 float
                (Some (Build_handle false 5)) (example_args 32 3)))
   /\ batch_count (example_args 32 3) <> 0)
  /\ rocblas_trtri_strided_batched_impl example_library 16 float
       (Some (Build_handle true 0)) (example_args 32 3)
     = ([call_set_optimal_device_memory_size 12288],
        set_optimal_device_memory_size example_library (Build_handle true 0) 12288).
Proof.
  assert (H1 : is_device_memory_size_query (Build_handle true 0) = true) by reflexivity.
  assert (H2 : In (call_device_malloc 12288)
                 (fst (rocblas_trtri_strided_batched_impl example_library 16 float
                         (Some (Build_handle false 5)) (example_args 32 3))))
    by (vm_compute; tauto).
  assert (H3 : batch_count (example_args 32 3) <> 0) by (vm_compute; discriminate).
  split; [exact (conj H1 (conj H2 H3))|].
  exact (proj2 (trtri_size_query_matches_allocation example_library 16 float
                  (Build_handle true 0) (Build_handle false 5) (example_args 32 3) 12288
                  H1 H2) H3).
Defined.

End TrtriSizeFacts.

(** ** The NRM2 client: every run *)

Module ClientLoopFacts.
Import Client.

Lemma for_each_trace {step X : Type} (l : list X) (t : list step) :
  for_each l (fun _ => (t, Some tt)) = (concat (repeat t (length l)), Some tt).
Proof.
  induction l as [|v l IH]; [reflexivity|].
  cbn [for_each length repeat concat]. rewrite IH. reflexivity.
Qed.

(** A loop whose body cannot stop the test runs the body [count] times,
    and not at all for a negative [count]. *)
Lemma for_iter_trace {step : Type} (count : Z) (t : list step) :
  for_iter count (t, Some tt) = (concat (repeat t (Z.to_nat count)), Some tt).
Proof.
  unfold for_iter. rewrite (for_each_trace (seq 0 (Z.to_nat count)) t).
  now rewrite length_seq.
Qed.

Lemma Forall_bind {step X Y : Type} (P : step -> Prop)
      (m : test step X) (f : X -> test step Y) :
  Forall P (fst m) -> (forall v, Forall P (fst (f v))) -> Forall P (fst (bind m f)).
Proof.
  intros Hm Hf. destruct m as [t [v|]]; cbn [bind fst] in *; [|exact Hm].
  specialize (Hf v). destruct (f v) as [t' r]. cbn [fst] in *.
  apply Forall_app. now split.
Qed.

Lemma Forall_for_each {step X : Type} (P : step -> Prop)
      (l : list X) (body : X -> test step unit) :
  (forall v, Forall P (fst (body v))) -> Forall P (fst (for_each l body)).
Proof.
  intros Hbody. induction l as [|v l IH]; cbn [for_each]; [constructor|].
  apply Forall_bind; [apply Hbody | intros _; exact IH].
Qed.

Lemma In_did_here {step Y : Type} (s : step) (k : unit -> test step Y) :
  In s (fst (bind (did s) k)).
Proof. unfold did. cbn [bind]. destruct (k tt) as [t r]. now left. Qed.

Lemma In_bind_did {step Y : Type} (s s' : step) (k : unit -> test step Y) :
  In s (fst (k tt)) -> In s (fst (bind (did s') k)).
Proof. unfold did. cbn [bind]. destruct (k tt) as [t r]. intros Hin. now right. Qed.

Lemma In_bind_fatal {step Y : Type} (s : step) (k : unit -> test step Y) :
  In s (fst (k tt)) -> In s (fst (bind (fatal true) k)).
Proof. unfold fatal. cbn [bind]. destruct (k tt) as [t r]. intros Hin. exact Hin. Qed.

Lemma ends_with_cons {step : Type} (s x : step) (l : list step) :
  (exists before, l = before ++ [s]) -> exists before, x :: l = before ++ [s].
Proof. intros [before ->]. now exists (x :: before). Qed.

Lemma ends_with_app {step : Type} (s : step) (l1 l2 : list step) :
  (exists before, l2 = before ++ [s]) -> exists before, l1 ++ l2 = before ++ [s].
Proof. intros [before ->]. exists (l1 ++ before). now rewrite app_assoc. Qed.

End ClientLoopFacts.

(** [forall_steps] proves a property of every step of a harness from the
    property of each step it can take. *)
Ltac forall_steps :=
  repeat first
    [ apply ClientLoopFacts.Forall_bind; [|intros ?]
    | apply ClientLoopFacts.Forall_for_each; intros ?
    | match goal with
      | |- Forall _ (fst (if ?b then _ else _)) => destruct b
      | |- Forall _ (fst (Client.did _)) => apply Forall_cons; [|apply Forall_nil]
      | |- Forall _ (fst (Client.fatal _)) => apply Forall_nil
      | |- Forall _ (fst (Client.ret _)) => apply Forall_nil
      end ].

Module Nrm2CallsFacts.
Import Client Nrm2 Nrm2Calls.

Section Harness.

Context {F : Type} `{Floating F}.
Variable R : runtime F.

Lemma api_calls_app (t1 t2 : list (step F)) :
  api_calls (t1 ++ t2) = api_calls t1 ++ api_calls t2.
Proof. unfold api_calls. apply flat_map_app. Qed.

Lemma api_calls_repeat (c : call) (s : rocblas_status) (st : option F) (k : nat) :
  api_calls (concat (repeat [api_call c s st] k)) = repeat c k.
Proof.
  induction k as [|k IH]; [reflexivity|].
  cbn [repeat concat]. rewrite api_calls_app, IH. reflexivity.
Qed.

Lemma step_ok_repeat (c : call) (s : rocblas_status) (st : option F) (k : nat) :
  forallb step_ok (concat (repeat [api_call c s st] k)) = true.
Proof.
  induction k as [|k IH]; [reflexivity|].
  cbn [repeat concat]. rewrite forallb_app, IH. reflexivity.
Qed.

Lemma api_calls_cons (s : step F) (t : list (step F)) :
  api_calls (s :: t)
  = match s with
    | api_call c _ _ => [c]
    | _ => []
    end ++ api_calls t.
Proof. reflexivity. Qed.

(** An unchecked call in a timing loop: a step that cannot stop the
    test. *)
Lemma timed_call_trace (FORTRAN : bool) (c : call) :
  (_ <- rocblas_nrm2_fn R FORTRAN c ;; ret tt)
  = ([api_call c (fst (rocblas_nrm2_template R FORTRAN c))
        (snd (rocblas_nrm2_template R FORTRAN c))],
     Some tt).
Proof. reflexivity. Qed.

End Harness.

(** With sizes that fit their types, [testing_nrm2] allocates [N * incx]
    elements for the device vector [dx] and for the host vector [hx], and
    the copy from [hx] to [dx] moves [sizeof(T)] bytes for each of them: as
    many bytes as each vector holds.  A run that gets to its end has made
    that copy. *)
Theorem testing_nrm2_moves_whole_vector :
  forall (F : Type) (Fl : Floating F) (R : runtime F) (arg : test_arguments),
    0 < arg_N arg <= c_i32_max ->
    0 < arg_incx arg <= c_i32_max ->
    0 < sizeof_T R ->
    sizeof_T R * arg_N arg * arg_incx arg < 2 ^ 64 ->
    Forall (moves_whole_vector (arg_N arg * arg_incx arg) (sizeof_T R))
      (fst (testing_nrm2 R arg))
    /\ (finished (testing_nrm2 R arg) = true ->
        In (hipMemcpy dx hx (sizeof_T R * (arg_N arg * arg_incx arg)) hipSuccess)
          (fst (testing_nrm2 R arg))).
Proof.
  intros F Fl R arg HN Hincx Hsize Hbytes.
  assert (Hprod : 0 < arg_N arg * arg_incx arg < 2 ^ 64) by nia.
  assert (Hx : to_size_t (arg_N arg * to_size_t (arg_incx arg)) = arg_N arg * arg_incx arg).
  { unfold to_size_t. rewrite (Z.mod_small (arg_incx arg)) by (unfold c_i32_max in *; lia).
    apply Z.mod_small. lia. }
  assert (Hcopy : to_size_t (to_size_t (sizeof_T R * arg_N arg) * arg_incx arg)
                  = sizeof_T R * (arg_N arg * arg_incx arg)).
  { unfold to_size_t. rewrite (Z.mod_small (sizeof_T R * arg_N arg)) by nia.
    rewrite Z.mod_small by nia. lia. }
  unfold testing_nrm2. cbv zeta.
  replace ((arg_N arg <=? 0) || (arg_incx arg <=? 0)) with false
    by (symmetry; apply orb_false_iff; split; apply Z.leb_gt; lia).
  rewrite Hx, Hcopy. split.
  - unfold CHECK_ROCBLAS_ERROR, EXPECT_ROCBLAS_STATUS, rocblas_nrm2_fn,
      CHECK_ROCBLAS_ERROR_set_pointer_mode, CHECK_HIP_ERROR_hipMemcpy, CHECK_memcheck,
      for_iter.
    cbv zeta. forall_steps; cbn [moves_whole_vector]; try exact I; reflexivity.
  - unfold CHECK_HIP_ERROR_hipMemcpy, CHECK_memcheck.
    run_checks. intros Hall. split_checks Hall.
    rewrite Hcheck, Hcheck0.
    destruct (hipMemcpy_status R dx hx); try discriminate.
    repeat first [ rewrite ClientFacts.bind_assoc
                 | apply ClientLoopFacts.In_did_here
                 | apply ClientLoopFacts.In_bind_did
                 | apply ClientLoopFacts.In_bind_fatal ].
Qed.

Lemma testing_nrm2_moves_whole_vector_witness :
  (0 < arg_N (Build_test_arguments false 5 2 true false false 1 2) <= c_i32_max
   /\ 0 < arg_incx (Build_test_arguments false 5 2 true false false 1 2) <= c_i32_max
   /\ 0 < sizeof_T (example_runtime (rocblas_nrm2 example_launcher))
   /\ sizeof_T (example_runtime (rocblas_nrm2 example_launcher))
      * arg_N (Build_test_arguments false 5 2 true false false 1 2)
      * arg_incx (Build_test_arguments false 5 2 true false false 1 2) < 2 ^ 64)
  /\ In (hipMemcpy dx hx 40 hipSuccess)
       (fst (testing_nrm2 (example_runtime (rocblas_nrm2 example_launcher))
               (Build_test_arguments false 5 2 true false false 1 2))).
Proof.
  assert (H1 : 0 < arg_N (Build_test_arguments false 5 2 true false false 1 2) <= c_i32_max)
    by (vm_compute; split; congruence).
  assert (H2 : 0 < arg_incx (Build_test_arguments false 5 2 true false false 1 2)
               <= c_i32_max)
    by (vm_compute; split; congruence).
  assert (H3 : 0 < sizeof_T (example_runtime (rocblas_nrm2 example_launcher)))
    by reflexivity.
  assert (H4 : sizeof_T (example_runtime (rocblas_nrm2 example_launcher))
               * arg_N (Build_test_arguments false 5 2 true false false 1 2)
               * arg_incx (Build_test_arguments false 5 2 true false false 1 2) < 2 ^ 64)
    by reflexivity.
  split; [exact (conj H1 (conj H2 (conj H3 H4)))|].
  exact (proj2 (testing_nrm2_moves_whole_vector Z Floating_Z
                  (example_runtime (rocblas_nrm2 example_launcher))
                  (Build_test_arguments false 5 2 true false false 1 2) H1 H2 H3 H4)
           eq_refl).
Defined.

(** For [N <= 0] or [incx <= 0] the harness allocates no device memory:
    it makes one call of the function under test, in host pointer mode, with
    a null [x] and the host result [res], and it gets to its end exactly
    when the allocation of [res], the change of pointer mode and that call
    succeed. *)
Theorem testing_nrm2_empty_input :
  forall (F : Type) (Fl : Floating F) (R : runtime F) (arg : test_arguments),
    arg_N arg <= 0 \/ arg_incx arg <= 0 ->
    let c := Build_call (Some rocblas_pointer_mode_host) (arg_N arg) None (arg_incx arg)
               (Some res) in
    let returned := rocblas_nrm2_template R (arg_fortran arg) c in
    finished (testing_nrm2 R arg)
    = hip_ok (memcheck_status R res)
      && (status_eqb (set_pointer_mode_status R rocblas_pointer_mode_host)
            rocblas_status_success
          && status_eqb (fst returned) rocblas_status_success)
    /\ (finished (testing_nrm2 R arg) = true ->
        fst (testing_nrm2 R arg)
        = [local_handle;
           host_vector res 1;
           memcheck res hipSuccess;
           rocblas_set_pointer_mode rocblas_pointer_mode_host rocblas_status_success;
           api_call c rocblas_status_success (snd returned)]).
Proof.
  intros F Fl R arg Hempty c returned. subst returned c.
  unfold testing_nrm2. cbv zeta.
  replace ((arg_N arg <=? 0) || (arg_incx arg <=? 0)) with true
    by (symmetry; apply orb_true_iff; destruct Hempty; [left | right]; now apply Z.leb_le).
  unfold CHECK_ROCBLAS_ERROR, EXPECT_ROCBLAS_STATUS, rocblas_nrm2_fn,
    CHECK_ROCBLAS_ERROR_set_pointer_mode, CHECK_memcheck.
  cbv zeta.
  match goal with
  | |- context [rocblas_nrm2_template R ?f ?c] =>
      destruct (rocblas_nrm2_template R f c) as [s st]
  end.
  cbn [fst snd].
  destruct (memcheck_status R res);
    (destruct (rocblas_status_eq_dec
                 (set_pointer_mode_status R rocblas_pointer_mode_host)
                 rocblas_status_success) as [Hmode|Hmode];
     [rewrite Hmode | apply status_eqb_neq in Hmode; rewrite Hmode]);
    (destruct (rocblas_status_eq_dec s rocblas_status_success) as [->|Hs];
     [|apply status_eqb_neq in Hs]);
    unfold bind, did, ret, fatal, finished; cbn [fst snd app hip_ok];
    try rewrite Hs;
    split; try reflexivity; try discriminate.
Qed.

Lemma testing_nrm2_empty_input_witness :
  (arg_N (Build_test_arguments false 0 1 true false true 1 2) <= 0
   \/ arg_incx (Build_test_arguments false 0 1 true false true 1 2) <= 0)
  /\ finished (testing_nrm2 (example_runtime (rocblas_nrm2 example_launcher))
                 (Build_test_arguments false 0 1 true false true 1 2))
     = true.
Proof.
  assert (H1 : arg_N (Build_test_arguments false 0 1 true false true 1 2) <= 0
               \/ arg_incx (Build_test_arguments false 0 1 true false true 1 2) <= 0)
    by (left; vm_compute; congruence).
  split; [exact H1|].
  exact (proj1 (testing_nrm2_empty_input Z Floating_Z
                  (example_runtime (rocblas_nrm2 example_launcher))
                  (Build_test_arguments false 0 1 true false true 1 2) H1)).
Defined.

(** [to_trace] runs a harness whose checks have been decided. *)
Ltac to_trace :=
  repeat (cbn [bind did fatal ret fst snd app hip_ok];
          progress change (status_eqb rocblas_status_success rocblas_status_success)
            with true);
  cbn [bind did fatal ret fst snd app hip_ok];
  rewrite ?ClientLoopFacts.for_iter_trace;
  cbn [bind did fatal ret fst snd app hip_ok].

Ltac count_calls :=
  repeat first [ rewrite api_calls_cons
               | rewrite api_calls_app
               | rewrite api_calls_repeat ];
  cbn [app api_calls flat_map].

(** The calls of the function under test that [testing_nrm2] makes on a
    vector that is not empty, when the runtime calls succeed: with a unit or
    norm check, one call in host pointer mode and one in device pointer mode,
    each of which has to return success; with timing, [cold_iters] and then
    [iters] more calls in device pointer mode, none for a negative count.
    The run gets to its end. *)
Theorem testing_nrm2_calls :
  forall (F : Type) (Fl : Floating F) (R : runtime F) (arg : test_arguments),
    arg_N arg > 0 ->
    arg_incx arg > 0 ->
    runtime_succeeds R ->
    let host_call :=
      Build_call (Some rocblas_pointer_mode_host) (arg_N arg) (Some dx) (arg_incx arg)
        (Some rocblas_result_1) in
    let device_call :=
      Build_call (Some rocblas_pointer_mode_device) (arg_N arg) (Some dx) (arg_incx arg)
        (Some d_rocblas_result_2) in
    (arg_unit_check arg || arg_norm_check arg = true ->
     fst (rocblas_nrm2_template R (arg_fortran arg) host_call) = rocblas_status_success
     /\ fst (rocblas_nrm2_template R (arg_fortran arg) device_call) = rocblas_status_success) ->
    finished (testing_nrm2 R arg) = true
    /\ api_calls (fst (testing_nrm2 R arg))
       = (if arg_unit_check arg || arg_norm_check arg then [host_call; device_call] else [])
         ++ (if arg_timing arg
             then repeat device_call
                    (Z.to_nat (arg_cold_iters arg) + Z.to_nat (arg_iters arg))
             else []).
Proof.
  intros F Fl R arg HN Hincx (Hmode & Hcpy & Hmem & Hstream) host_call device_call Hok.
  subst host_call device_call.
  unfold testing_nrm2. cbv zeta.
  replace ((arg_N arg <=? 0) || (arg_incx arg <=? 0)) with false
    by (symmetry; apply orb_false_iff; split; apply Z.leb_gt; lia).
  unfold CHECK_ROCBLAS_ERROR, EXPECT_ROCBLAS_STATUS, rocblas_nrm2_fn,
    CHECK_ROCBLAS_ERROR_set_pointer_mode, CHECK_HIP_ERROR_hipMemcpy, CHECK_memcheck.
  cbv zeta. rewrite !Hmode, !Hmem, !Hcpy, ?Hstream.
  change (status_eqb rocblas_status_success rocblas_status_success) with true.
  destruct (arg_unit_check arg || arg_norm_check arg) eqn:Hchecks.
  - destruct (Hok eq_refl) as [Hs1 Hs2]. rewrite Hs1, Hs2.
    change (status_eqb rocblas_status_success rocblas_status_success) with true.
    destruct (arg_unit_check arg); destruct (arg_norm_check arg); try discriminate;
      destruct (arg_timing arg); to_trace;
      (split; [reflexivity|]); count_calls; rewrite ?repeat_app, ?app_nil_r; reflexivity.
  - destruct (arg_timing arg); to_trace;
      (split; [reflexivity|]); count_calls; rewrite ?repeat_app, ?app_nil_r; reflexivity.
Qed.

Lemma testing_nrm2_calls_witness :
  (arg_N (Build_test_arguments false 5 2 false true true (-1) 3) > 0
   /\ arg_incx (Build_test_arguments false 5 2 false true true (-1) 3) > 0
   /\ runtime_succeeds (example_runtime (rocblas_nrm2 example_launcher)))
  /\ api_calls (fst (testing_nrm2 (example_runtime (rocblas_nrm2 example_launcher))
                       (Build_test_arguments false 5 2 false true true (-1) 3)))
     = [Build_call (Some rocblas_pointer_mode_host) 5 (Some dx) 2 (Some rocblas_result_1);
        Build_call (Some rocblas_pointer_mode_device) 5 (Some dx) 2 (Some d_rocblas_result_2);
        Build_call (Some rocblas_pointer_mode_device) 5 (Some dx) 2 (Some d_rocblas_result_2);
        Build_call (Some rocblas_pointer_mode_device) 5 (Some dx) 2 (Some d_rocblas_result_2);
        Build_call (Some rocblas_pointer_mode_device) 5 (Some dx) 2 (Some d_rocblas_result_2)].
Proof.
  assert (H1 : arg_N (Build_test_arguments false 5 2 false true true (-1) 3) > 0)
    by reflexivity.
  assert (H2 : arg_incx (Build_test_arguments false 5 2 false true true (-1) 3) > 0)
    by reflexivity.
  assert (H3 : runtime_succeeds (example_runtime (rocblas_nrm2 example_launcher)))
    by (repeat split).
  split; [exact (conj H1 (conj H2 H3))|].
  exact (proj2 (testing_nrm2_calls Z Floating_Z
                  (example_runtime (rocblas_nrm2 example_launcher))
                  (Build_test_arguments false 5 2 false true true (-1) 3)
                  H1 H2 H3 (fun _ => conj eq_refl eq_refl))).
Defined.

(** A run that only measures time checks nothing about the function under
    test: without unit check and norm check, on a vector that is not empty
    and with runtime calls that succeed, [testing_nrm2] passes whatever the
    function returns, and the two errors it hands to [log_args] are those of
    variables that were never assigned. *)
Theorem testing_nrm2_timing_only :
  forall (F : Type) (Fl : Floating F) (R : runtime F) (arg : test_arguments),
    arg_N arg > 0 ->
    arg_incx arg > 0 ->
    arg_unit_check arg = false ->
    arg_norm_check arg = false ->
    runtime_succeeds R ->
    passed (testing_nrm2 R arg) = true
    /\ (arg_timing arg = true ->
        exists before,
          fst (testing_nrm2 R arg)
          = before ++ [log_args (uninitialized R) (uninitialized R)]).
Proof.
  intros F Fl R arg HN Hincx Hunit Hnorm (Hmode & Hcpy & Hmem & Hstream).
  unfold passed, testing_nrm2. cbv zeta.
  replace ((arg_N arg <=? 0) || (arg_incx arg <=? 0)) with false
    by (symmetry; apply orb_false_iff; split; apply Z.leb_gt; lia).
  unfold CHECK_ROCBLAS_ERROR, EXPECT_ROCBLAS_STATUS, rocblas_nrm2_fn,
    CHECK_ROCBLAS_ERROR_set_pointer_mode, CHECK_HIP_ERROR_hipMemcpy, CHECK_memcheck.
  cbv zeta. rewrite !Hmode, !Hmem, !Hcpy, ?Hstream, Hunit, Hnorm.
  change (status_eqb rocblas_status_success rocblas_status_success) with true.
  cbn [orb].
  destruct (arg_timing arg); to_trace; unfold finished; cbn [snd andb forallb step_ok].
  - split.
    + repeat (progress (rewrite ?forallb_app, ?step_ok_repeat;
                          cbn [andb forallb step_ok])).
      reflexivity.
    + intros _.
      repeat first [ solve [exists []; reflexivity]
                   | apply ClientLoopFacts.ends_with_app
                   | apply ClientLoopFacts.ends_with_cons ].
  - split; [reflexivity | discriminate].
Qed.

Lemma testing_nrm2_timing_only_witness :
  (arg_N (Build_test_arguments false 5 2 false false true 1 2) > 0
   /\ arg_incx (Build_test_arguments false 5 2 false false true 1 2) > 0
   /\ arg_unit_check (Build_test_arguments false 5 2 false false true 1 2) = false
   /\ arg_norm_check (Build_test_arguments false 5 2 false false true 1 2) = false
   /\ runtime_succeeds (example_runtime failing_launcher))
  /\ passed (testing_nrm2 (example_runtime failing_launcher)
               (Build_test_arguments false 5 2 false false true 1 2)) = true.
Proof.
  assert (H1 : arg_N (Build_test_arguments false 5 2 false false true 1 2) > 0)
    by reflexivity.
  assert (H2 : arg_incx (Build_test_arguments false 5 2 false false true 1 2) > 0)
    by reflexivity.
  assert (H3 : arg_unit_check (Build_test_arguments false 5 2 false false true 1 2) = false)
    by reflexivity.
  assert (H4 : arg_norm_check (Build_test_arguments false 5 2 false false true 1 2) = false)
    by reflexivity.
  assert (H5 : runtime_succeeds (example_runtime failing_launcher)) by (repeat split).
  split; [exact (conj H1 (conj H2 (conj H3 (conj H4 H5))))|].
  exact (proj1 (testing_nrm2_timing_only Z Floating_Z (example_runtime failing_launcher)
                  (Build_test_arguments false 5 2 false false true 1 2) H1 H2 H3 H4 H5)).
Defined.

End Nrm2CallsFacts.

(** ** The numerical test of the DOT client *)

Module ClientValueFacts.
Import Client.

(** The value a test ends with is decided by its fatal checks. *)
Lemma snd_bind_did {step Y : Type} (s : step) (k : unit -> test step Y) :
  snd (bind (did s) k) = snd (k tt).
Proof. unfold did. cbn [bind]. destruct (k tt) as [t r]. reflexivity. Qed.

Lemma snd_bind_fatal {step Y : Type} (ok : bool) (k : unit -> test step Y) :
  snd (bind (fatal ok) k) = if ok then snd (k tt) else None.
Proof.
  unfold fatal. destruct ok; cbn [bind snd]; [|reflexivity].
  destruct (k tt) as [t r]. reflexivity.
Qed.

Lemma snd_bind_ret {step X Y : Type} (v : X) (k : X -> test step Y) :
  snd (bind (ret v) k) = snd (k v).
Proof. unfold ret. cbn [bind]. destruct (k v) as [t r]. reflexivity. Qed.

End ClientValueFacts.

(** [value_of H] computes the value of a test in [H] up to its fatal
    checks. *)
Ltac value_of H :=
  repeat (cbv beta in H;
          first [ rewrite ClientFacts.bind_assoc in H
                | rewrite ClientValueFacts.snd_bind_did in H
                | rewrite ClientValueFacts.snd_bind_fatal in H
                | rewrite ClientValueFacts.snd_bind_ret in H ]).

Module DotNumericalFacts.
Import Client DotNumerical.

Section Harness.

Context {T D : Type} `{Element T} `{Floating D}.
Variable R : runtime T D.

Lemma passed_did {Y : Type} (s : step T D) (k : unit -> test (step T D) Y) :
  passed (bind (did s) k) = step_ok s && passed (k tt).
Proof.
  unfold passed, finished, did. cbn [bind]. destruct (k tt) as [t r].
  cbn [fst snd app forallb]. destruct r; destruct (step_ok s); reflexivity.
Qed.

Lemma passed_fatal {Y : Type} (ok : bool) (k : unit -> test (step T D) Y) :
  passed (bind (fatal ok) k) = ok && passed (k tt).
Proof.
  unfold passed, finished, fatal. destruct ok; cbn [bind andb fst snd]; [|reflexivity].
  destruct (k tt) as [t r]. reflexivity.
Qed.

Lemma passed_ret {X Y : Type} (v : X) (k : X -> test (step T D) Y) :
  passed (bind (ret v) k) = passed (k v).
Proof. unfold passed, finished, ret. cbn [bind]. destruct (k v) as [t r]. reflexivity. Qed.

(** A test that passes got through its first part, which passed, and the
    rest passed on the value of the first part. *)
Lemma passed_bind {X Y : Type} (m : test (step T D) X) (k : X -> test (step T D) Y) :
  passed (bind m k) = true ->
  exists v, snd m = Some v /\ passed m = true /\ passed (k v) = true.
Proof.
  unfold passed, finished. destruct m as [t [v|]]; cbn [bind fst snd]; [|discriminate].
  destruct (k v) as [t' r] eqn:Hk. cbn [fst snd]. rewrite forallb_app.
  intros Hall. apply andb_true_iff in Hall. destruct Hall as [Hr Hall].
  apply andb_true_iff in Hall. destruct Hall as [Ht Ht'].
  exists v. split; [reflexivity|]. split; [exact Ht|].
  rewrite Hk. cbn [fst snd]. now rewrite Hr, Ht'.
Qed.

Lemma passed_check_result {Y : Type} (N : Z) (cpu_result gpu_result : T)
      (k : unit -> test (step T D) Y) :
  passed (bind (check_result R N cpu_result gpu_result) k)
  = result_matches R N cpu_result gpu_result && passed (k tt).
Proof.
  unfold check_result, result_matches.
  destruct (T_is_rocblas_half R && (N >? 10000)); cbv zeta; apply passed_did.
Qed.

End Harness.

(** [walk H] takes a passed test [H] through its leading steps and
    checks. *)
Ltac walk H :=
  repeat (cbv beta in H;
          first [ rewrite ClientFacts.bind_assoc in H
                | rewrite passed_did in H
                | rewrite passed_fatal in H
                | rewrite passed_ret in H
                | rewrite passed_check_result in H ]);
  repeat match type of H with
         | (_ && _) = true =>
             let Hc := fresh "Hcheck" in
             apply andb_true_iff in H; destruct H as [Hc H]
         end.

(** Every call of the function under test, the call of the internal
    template and the reference call work on the same pair of vectors: the
    first is [dx] ([hx] on the host) with [arg.incx]; the second is [dy]
    ([hy]) with [arg.incy] or, with [arg.algo] set, the first vector itself
    with [arg.incx].  The internal template gets each pointer moved forward
    and the opposite shift. *)
Theorem testing_dot_numerical_names_vectors :
  forall (T D : Type) (E : Element T) (Fl : Floating D) (R : runtime T D)
         (CONJ : bool) (arg : test_arguments),
    Forall (names_vectors (arg_N arg) (arg_incx arg)
              (if arg_algo arg then dx else dy)
              (if arg_algo arg then hx else hy)
              (if arg_algo arg then arg_incx arg else arg_incy arg))
      (fst (testing_dot_numerical R CONJ arg)).
Proof.
  intros T D E Fl R CONJ arg.
  unfold testing_dot_numerical, CHECK_ROCBLAS_ERROR, CHECK_ROCBLAS_ERROR_internal,
    rocblas_dot_fn, check_result, CHECK_ROCBLAS_ERROR_set_pointer_mode,
    CHECK_DEVICE_ALLOCATION, CHECK_HIP_ERROR_transfer_from, CHECK_HIP_ERROR_hipMemcpy,
    for_iter.
  cbv zeta.
  forall_steps; cbn [names_vectors N x incx y incy i_n i_x i_incx i_y i_incy i_shiftx
                      i_shifty fst snd];
    try exact I; repeat split; lia.
Qed.

Lemma api_eqb_eq (a b : rocblas_client_api) : api_eqb a b = true <-> a = b.
Proof. destruct a, b; cbn [api_eqb]; split; congruence. Qed.

(** A numerical test with [unit_check] that passes has seen the function
    under test return success and store a result that matches the
    reference, in each pointer mode the arguments ask for: in host pointer
    mode through [&rocblas_result_1], in device pointer mode through
    [d_rocblas_result_2], where for [arg.api == INTERNAL] and [T] being
    [float] the call is one of the internal template. *)
Theorem testing_dot_numerical_pass_means_match :
  forall (T D : Type) (E : Element T) (Fl : Floating D) (R : runtime T D)
         (CONJ : bool) (arg : test_arguments),
    passed (testing_dot_numerical R CONJ arg) = true ->
    arg_unit_check arg = true ->
    let N := arg_N arg in
    let incx := arg_incx arg in
    let dy_ptr := if arg_algo arg then dx else dy in
    let hy_ptr := if arg_algo arg then hx else hy in
    let incy := if arg_algo arg then arg_incx arg else arg_incy arg in
    let cpu_result := cblas_dot_value R CONJ N incx hy_ptr incy in
    let rocblas_dot_fn := rocblas_dot_template R CONJ (api_eqb (arg_api arg) FORTRAN) in
    (arg_pointer_mode_host arg = true ->
     let on_host :=
       rocblas_dot_fn
         (Build_call rocblas_pointer_mode_host N dx incx dy_ptr incy rocblas_result_1) in
     fst on_host = rocblas_status_success
     /\ result_matches R N cpu_result (contents R rocblas_result_1 (snd on_host)) = true)
    /\ (arg_pointer_mode_device arg = true ->
        arg_api arg <> INTERNAL ->
        let on_device :=
          rocblas_dot_fn
            (Build_call rocblas_pointer_mode_device N dx incx dy_ptr incy
               d_rocblas_result_2) in
        fst on_device = rocblas_status_success
        /\ result_matches R N cpu_result (contents R d_rocblas_result_2 (snd on_device))
           = true)
    /\ (arg_pointer_mode_device arg = true ->
        arg_api arg = INTERNAL ->
        T_is_float R = true ->
        let on_device :=
          rocblas_internal_dot_template R
            (Build_internal_call rocblas_pointer_mode_device N
               (dx, arg_lda arg) (- arg_lda arg) incx (arg_stride_x arg)
               (dy_ptr, arg_ldb arg) (- arg_ldb arg) incy (arg_stride_y arg)
               1 d_rocblas_result_2 None) in
        fst on_device = rocblas_status_success
        /\ result_matches R N cpu_result (contents R d_rocblas_result_2 (snd on_device))
           = true).
Proof.
  intros T D E Fl R CONJ arg Hpass Hunit N incx dy_ptr hy_ptr incy cpu_result rocblas_dot_fn.
  subst N incx dy_ptr hy_ptr incy cpu_result rocblas_dot_fn.
  unfold testing_dot_numerical in Hpass. cbv zeta in Hpass.
  unfold CHECK_DEVICE_ALLOCATION, CHECK_HIP_ERROR_transfer_from in Hpass.
  walk Hpass.
  apply passed_bind in Hpass. destruct Hpass as (errors & _ & Hchecks & _).
  rewrite Hunit in Hchecks. cbn [orb] in Hchecks.
  apply passed_bind in Hchecks. destruct Hchecks as (result_1 & Hhost & _ & Hrest).
  apply passed_bind in Hrest. destruct Hrest as (on_dev & Hdev & _ & Hrest).
  walk Hrest.
  apply passed_bind in Hrest. destruct Hrest as (error_1 & _ & Hcmp1 & Hrest).
  apply passed_bind in Hrest. destruct Hrest as (error_2 & _ & Hcmp2 & _).
  unfold CHECK_ROCBLAS_ERROR_set_pointer_mode, CHECK_ROCBLAS_ERROR,
    CHECK_ROCBLAS_ERROR_internal, DotNumerical.rocblas_dot_fn in Hhost, Hdev.
  cbv zeta in Hhost, Hdev.
  split; [|split].
  - intros Hpmh on_host. subst on_host.
    rewrite Hpmh in Hhost, Hcmp1.
    value_of Hhost. cbn [fst snd] in Hhost.
    destruct (status_eqb (set_pointer_mode_status R rocblas_pointer_mode_host)
                rocblas_status_success); [|discriminate].
    match type of Hhost with
    | (if status_eqb ?s _ then _ else _) = _ =>
        destruct (status_eqb s rocblas_status_success) eqn:Hs; [|discriminate]
    end.
    apply status_eqb_eq in Hs. injection Hhost as <-.
    split; [exact Hs|].
    walk Hcmp1. assumption.
  - intros Hpmd Hapi on_device. subst on_device.
    rewrite Hpmd in Hdev, Hcmp2.
    replace (api_eqb (arg_api arg) INTERNAL) with false in Hdev
      by (symmetry; destruct (api_eqb (arg_api arg) INTERNAL) eqn:Heq;
          [apply api_eqb_eq in Heq; contradiction | reflexivity]).
    cbn [negb] in Hdev.
    value_of Hdev. cbn [fst snd] in Hdev.
    destruct (status_eqb (set_pointer_mode_status R rocblas_pointer_mode_device)
                rocblas_status_success); [|discriminate].
    match type of Hdev with
    | (if status_eqb ?s _ then _ else _) = _ =>
        destruct (status_eqb s rocblas_status_success) eqn:Hs; [|discriminate]
    end.
    apply status_eqb_eq in Hs. injection Hdev as <-.
    split; [exact Hs|].
    unfold CHECK_HIP_ERROR_hipMemcpy in Hcmp2. walk Hcmp2. assumption.
  - intros Hpmd Hapi Hfloat on_device. subst on_device.
    rewrite Hpmd in Hdev, Hcmp2.
    rewrite Hapi, Hfloat in Hdev. cbn [api_eqb negb] in Hdev.
    value_of Hdev. cbn [fst snd] in Hdev.
    destruct (status_eqb (set_pointer_mode_status R rocblas_pointer_mode_device)
                rocblas_status_success); [|discriminate].
    match type of Hdev with
    | (if status_eqb ?s _ then _ else _) = _ =>
        destruct (status_eqb s rocblas_status_success) eqn:Hs; [|discriminate]
    end.
    apply status_eqb_eq in Hs. injection Hdev as <-.
    split; [exact Hs|].
    unfold CHECK_HIP_ERROR_hipMemcpy in Hcmp2. walk Hcmp2. assumption.
Qed.

(** With [arg.api == INTERNAL] and an element type other than [float]
    the device-pointer-mode phase calls nothing, yet the result is
    compared: a numerical test with [unit_check] passes only if the memory
    of [d_rocblas_result_2], which no call has written, matches the
    reference. *)
Theorem testing_dot_numerical_internal_without_float :
  forall (T D : Type) (E : Element T) (Fl : Floating D) (R : runtime T D)
         (CONJ : bool) (arg : test_arguments),
    passed (testing_dot_numerical R CONJ arg) = true ->
    arg_unit_check arg = true ->
    arg_pointer_mode_device arg = true ->
    arg_api arg = INTERNAL ->
    T_is_float R = false ->
    result_matches R (arg_N arg)
      (cblas_dot_value R CONJ (arg_N arg) (arg_incx arg)
         (if arg_algo arg then hx else hy)
         (if arg_algo arg then arg_incx arg else arg_incy arg))
      (uninitialized R d_rocblas_result_2)
    = true.
Proof.
  intros T D E Fl R CONJ arg Hpass Hunit Hpmd Hapi Hfloat.
  unfold testing_dot_numerical in Hpass. cbv zeta in Hpass.
  unfold CHECK_DEVICE_ALLOCATION, CHECK_HIP_ERROR_transfer_from in Hpass.
  walk Hpass.
  apply passed_bind in Hpass. destruct Hpass as (errors & _ & Hchecks & _).
  rewrite Hunit in Hchecks. cbn [orb] in Hchecks.
  apply passed_bind in Hchecks. destruct Hchecks as (result_1 & _ & _ & Hrest).
  apply passed_bind in Hrest. destruct Hrest as (on_dev & Hdev & _ & Hrest).
  walk Hrest.
  apply passed_bind in Hrest. destruct Hrest as (error_1 & _ & _ & Hrest).
  apply passed_bind in Hrest. destruct Hrest as (error_2 & _ & Hcmp2 & _).
  unfold CHECK_ROCBLAS_ERROR_set_pointer_mode in Hdev.
  rewrite Hpmd in Hdev, Hcmp2.
  rewrite Hapi, Hfloat in Hdev. cbn [api_eqb negb] in Hdev.
  value_of Hdev.
  destruct (status_eqb (set_pointer_mode_status R rocblas_pointer_mode_device)
              rocblas_status_success); [|discriminate].
  injection Hdev as <-. cbn [contents] in Hcmp2.
  unfold CHECK_HIP_ERROR_hipMemcpy in Hcmp2. walk Hcmp2. assumption.
Qed.

Lemma testing_dot_numerical_pass_means_match_witness :
  (passed (testing_dot_numerical (example_runtime example_launcher false) false
             (example_arguments C true true)) = true
   /\ arg_unit_check (example_arguments C true true) = true
   /\ arg_pointer_mode_host (example_arguments C true true) = true)
  /\ fst (rocblas_dot_template (example_runtime example_launcher false) false
            (api_eqb (arg_api (example_arguments C true true)) FORTRAN)
            (Build_call rocblas_pointer_mode_host 5 dx 1 dx 1 rocblas_result_1))
     = rocblas_status_success.
Proof.
  assert (H1 : passed (testing_dot_numerical (example_runtime example_launcher false) false
                         (example_arguments C true true)) = true) by reflexivity.
  assert (H2 : arg_unit_check (example_arguments C true true) = true) by reflexivity.
  assert (H3 : arg_pointer_mode_host (example_arguments C true true) = true)
    by reflexivity.
  split; [exact (conj H1 (conj H2 H3))|].
  exact (proj1 (proj1 (testing_dot_numerical_pass_means_match Z Z Element_Z Floating_Z
                         (example_runtime example_launcher false) false
                         (example_arguments C true true) H1 H2) H3)).
Defined.

Lemma testing_dot_numerical_internal_without_float_witness :
  (passed (testing_dot_numerical (example_runtime example_launcher false) false
             (Build_test_arguments INTERNAL 77 1 2 false false true false false true
                false 1 2 3 4 0 0)) = true
   /\ T_is_float (example_runtime example_launcher false) = false)
  /\ result_matches (example_runtime example_launcher false) 77
       (cblas_dot_value (example_runtime example_launcher false) false 77 1 hy 2)
       (uninitialized (example_runtime example_launcher false) d_rocblas_result_2)
     = true.
Proof.
  assert (H1 : passed (testing_dot_numerical (example_runtime example_launcher false) false
                         (Build_test_arguments INTERNAL 77 1 2 false false true false false
                            true false 1 2 3 4 0 0)) = true) by reflexivity.
  assert (H2 : T_is_float (example_runtime example_launcher false) = false) by reflexivity.
  split; [exact (conj H1 H2)|].
  exact (testing_dot_numerical_internal_without_float Z Z Element_Z Floating_Z
           (example_runtime example_launcher false) false
           (Build_test_arguments INTERNAL 77 1 2 false false true false false true
              false 1 2 3 4 0 0) H1 eq_refl eq_refl eq_refl H2).
Defined.

End DotNumericalFacts.

(** ** The numerical test of the SPR2-batched client *)

Module ClientIndexedLoopFacts.
Import Client.

Lemma for_each_app {step X : Type} (l1 l2 : list X) (body : X -> test step unit) :
  for_each (l1 ++ l2) body = bind (for_each l1 body) (fun _ => for_each l2 body).
Proof.
  induction l1 as [|v l1 IH]; cbn [app for_each].
  - unfold ret. cbn [bind]. destruct (for_each l2 body) as [t r]. reflexivity.
  - rewrite IH, ClientFacts.bind_assoc. reflexivity.
Qed.

(** A loop whose body takes the one step [s] at each of its indices takes
    that step once per index. *)
Lemma for_each_same_step {step X : Type} (l : list X) (body : X -> test step unit)
      (s : step) :
  (forall v, In v l -> body v = did s) ->
  for_each l body = (repeat s (length l), Some tt).
Proof.
  induction l as [|v l IH]; intros Hbody; cbn [for_each length repeat]; [reflexivity|].
  rewrite (Hbody v) by now left.
  rewrite IH by (intros w Hw; apply Hbody; now right).
  reflexivity.
Qed.

End ClientIndexedLoopFacts.

Module Spr2BatchedNumericalFacts.
Import Client Spr2BatchedNumerical.

Section Harness.

Context {T : Type}.
Variable R : runtime.

Lemma spr2_api_calls_app (t1 t2 : list (step T)) :
  api_calls (t1 ++ t2) = api_calls t1 ++ api_calls t2.
Proof. unfold api_calls. apply flat_map_app. Qed.

Lemma spr2_api_calls_cons (s : step T) (t : list (step T)) :
  api_calls (s :: t)
  = match s with
    | api_call c _ => [c]
    | _ => []
    end ++ api_calls t.
Proof. reflexivity. Qed.

Lemma spr2_api_calls_repeat (c : call) (status : rocblas_status) (k : nat) :
  api_calls (repeat (api_call (T := T) c status) k) = repeat c k.
Proof.
  induction k as [|k IH]; [reflexivity|].
  cbn [repeat]. rewrite spr2_api_calls_cons, IH. reflexivity.
Qed.

Lemma spr2_api_calls_concat_repeat (t : list (step T)) (c : call) (k : nat) :
  api_calls t = [c] -> api_calls (concat (repeat t k)) = repeat c k.
Proof.
  intros Ht. induction k as [|k IH]; [reflexivity|].
  cbn [repeat concat]. rewrite spr2_api_calls_app, Ht, IH. reflexivity.
Qed.

Lemma time_samples_app (t1 t2 : list (step T)) :
  time_samples (t1 ++ t2) = (time_samples t1 + time_samples t2)%nat.
Proof. unfold time_samples. now rewrite filter_app, length_app. Qed.

Lemma time_samples_cons (s : step T) (t : list (step T)) :
  time_samples (s :: t)
  = (match s with
     | get_time_us_sync => 1
     | _ => 0
     end + time_samples t)%nat.
Proof. unfold time_samples. cbn [filter]. destruct s; reflexivity. Qed.

Lemma time_samples_repeat (c : call) (status : rocblas_status) (k : nat) :
  time_samples (repeat (api_call (T := T) c status) k) = 0%nat.
Proof. induction k as [|k IH]; [reflexivity | exact IH]. Qed.

(** The loop of the timing block: [cold] calls, and when hot calls follow,
    the clock of the stream is read before the first of them. *)
Lemma timing_loop_trace (cold : Z) (total : nat) (s : step T) :
  0 <= cold ->
  for_each (seq 0 total)
    (fun iter =>
       _ <- (if Z.of_nat iter =? cold then did get_time_us_sync else ret tt) ;;
       did s)
  = (if (Z.to_nat cold <? total)%nat
     then repeat s (Z.to_nat cold) ++ get_time_us_sync :: repeat s (total - Z.to_nat cold)
     else repeat s total,
     Some tt).
Proof.
  intros Hcold.
  assert (Hbefore : forall n, (n <= Z.to_nat cold)%nat ->
            for_each (seq 0 n)
              (fun iter =>
                 _ <- (if Z.of_nat iter =? cold then did (step := step T) get_time_us_sync
                       else ret tt) ;;
                 did s)
            = (repeat s n, Some tt)).
  { intros n Hn.
    rewrite (ClientIndexedLoopFacts.for_each_same_step (seq 0 n) _ s).
    - now rewrite length_seq.
    - intros v Hv. apply in_seq in Hv.
      replace (Z.of_nat v =? cold) with false by (symmetry; apply Z.eqb_neq; lia).
      reflexivity. }
  destruct (Nat.ltb_spec (Z.to_nat cold) total) as [Hlt|Hge]; [|now apply Hbefore].
  remember (total - Z.to_nat cold - 1)%nat as k eqn:Hk.
  assert (Hhot : (total - Z.to_nat cold)%nat = S k) by lia.
  assert (Htotal : total = (Z.to_nat cold + S k)%nat) by lia.
  rewrite Hhot, Htotal.
  rewrite seq_app, ClientIndexedLoopFacts.for_each_app, Hbefore by lia.
  cbn [Nat.add seq for_each].
  replace (Z.of_nat (Z.to_nat cold) =? cold) with true
    by (symmetry; apply Z.eqb_eq; lia).
  rewrite (ClientIndexedLoopFacts.for_each_same_step (seq (S (Z.to_nat cold)) k) _ s).
  - rewrite length_seq. reflexivity.
  - intros v Hv. apply in_seq in Hv.
    replace (Z.of_nat v =? cold) with false by (symmetry; apply Z.eqb_neq; lia).
    reflexivity.
Qed.

End Harness.

Ltac run_harness :=
  repeat (cbn [bind did fatal ret fst snd app hip_ok];
          progress change (status_eqb rocblas_status_success rocblas_status_success)
            with true);
  cbn [bind did fatal ret fst snd app hip_ok].

(** The steps of a list up to the end of its first loop. *)
Ltac up_to_loop l :=
  match l with
  | ?s :: ?tl => let p := up_to_loop tl in constr:(s :: p)
  | repeat ?s ?n ++ _ => constr:(repeat s n)
  end.

Ltac count_steps :=
  repeat first [ rewrite spr2_api_calls_cons
               | rewrite spr2_api_calls_app
               | rewrite spr2_api_calls_repeat
               | rewrite time_samples_cons
               | rewrite time_samples_app
               | rewrite time_samples_repeat ];
  cbn [app api_calls flat_map time_samples filter length Nat.add].

(** A timing-only run of the numerical test (no unit check, no norm
    check, runtime calls that succeed, [0 <= cold_iters] and
    [cold_iters + iters] within [int]) gets to its end whatever the function
    under test returns.  It makes [cold_iters + iters] calls, none when the
    sum is negative.  With [iters > 0] it reads the clock of the stream
    once after exactly [cold_iters] calls and once after the last call; with
    [iters <= 0] it reads the clock only once, at the end, so that the start
    time is never taken. *)
Theorem testing_spr2_batched_timing_loop :
  forall (T : Type) (R : runtime) (arg : test_arguments T),
    arg_unit_check arg = false ->
    arg_norm_check arg = false ->
    arg_timing arg = true ->
    runtime_succeeds R ->
    0 <= arg_cold_iters arg ->
    - 2 ^ 31 <= arg_cold_iters arg + arg_iters arg <= c_i32_max ->
    let c :=
      Build_call rocblas_pointer_mode_host (arg_uplo arg) (arg_N arg) h_alpha dx
        (arg_incx arg) dy (arg_incy arg) dAp_1 (arg_batch_count arg) in
    let trace := fst (testing_spr2_batched_numerical R arg) in
    finished (testing_spr2_batched_numerical R arg) = true
    /\ api_calls trace = repeat c (Z.to_nat (arg_cold_iters arg + arg_iters arg))
    /\ (0 < arg_iters arg ->
        exists before after,
          trace = before ++ get_time_us_sync :: after
          /\ api_calls before = repeat c (Z.to_nat (arg_cold_iters arg))
          /\ time_samples before = 0%nat
          /\ api_calls after = repeat c (Z.to_nat (arg_iters arg))
          /\ time_samples after = 1%nat)
    /\ (arg_iters arg <= 0 -> time_samples trace = 1%nat).
Proof.
  intros T R arg Hunit Hnorm Htiming (Hmode & Hmem & Hcpy & Hstream) Hcold Hsum c trace.
  subst trace c.
  unfold testing_spr2_batched_numerical, timing_block. cbv zeta.
  rewrite Hunit, Hnorm, Htiming. cbn [orb].
  unfold CHECK_ROCBLAS_ERROR_set_pointer_mode, CHECK_memcheck,
    CHECK_HIP_ERROR_transfer_from, DAPI_DISPATCH.
  rewrite !Hmode, !Hmem, !Hcpy, ?Hstream.
  rewrite to_int32_in_range by lia.
  rewrite timing_loop_trace by exact Hcold.
  destruct (Nat.ltb_spec (Z.to_nat (arg_cold_iters arg))
              (Z.to_nat (arg_cold_iters arg + arg_iters arg))) as [Hhot|Hnone];
    run_harness; unfold finished; cbn [snd].
  - split; [reflexivity|]. split; [|split].
    + count_steps. rewrite ?app_nil_r, <- repeat_app. f_equal. lia.
    + intros Hiters. rewrite <- ?app_assoc, <- ?app_comm_cons.
      match goal with
      | |- exists before after, ?l = _ /\ _ =>
          let b := up_to_loop l in exists b
      end.
      eexists. split; [cbn [app]; reflexivity|].
      split; [count_steps; rewrite ?app_nil_r; reflexivity|].
      split; [count_steps; reflexivity|].
      split; [count_steps; rewrite ?app_nil_r; f_equal; lia|].
      count_steps. reflexivity.
    + intros Hiters. lia.
  - split; [reflexivity|]. split; [|split].
    + count_steps. rewrite ?app_nil_r. reflexivity.
    + intros Hiters. lia.
    + intros _. count_steps. reflexivity.
Qed.

Lemma testing_spr2_batched_timing_loop_witness :
  (arg_unit_check (Build_test_arguments 4 1 1 3 7 rocblas_fill_upper false false false true 2 0)
   = false
   /\ arg_norm_check
        (Build_test_arguments 4 1 1 3 7 rocblas_fill_upper false false false true 2 0)
      = false
   /\ arg_timing (Build_test_arguments 4 1 1 3 7 rocblas_fill_upper false false false true 2 0)
      = true
   /\ runtime_succeeds (example_runtime failing_launcher)
   /\ 0 <= arg_cold_iters
             (Build_test_arguments 4 1 1 3 7 rocblas_fill_upper false false false true 2 0)
   /\ arg_iters (Build_test_arguments 4 1 1 3 7 rocblas_fill_upper false false false true 2 0)
      <= 0)
  /\ time_samples
       (fst (testing_spr2_batched_numerical (example_runtime failing_launcher)
               (Build_test_arguments 4 1 1 3 7 rocblas_fill_upper false false false true
                  2 0)))
     = 1%nat.
Proof.
  assert (H1 : arg_unit_check
                 (Build_test_arguments 4 1 1 3 7 rocblas_fill_upper false false false true 2 0)
               = false) by reflexivity.
  assert (H2 : arg_norm_check
                 (Build_test_arguments 4 1 1 3 7 rocblas_fill_upper false false false true 2 0)
               = false) by reflexivity.
  assert (H3 : arg_timing
                 (Build_test_arguments 4 1 1 3 7 rocblas_fill_upper false false false true 2 0)
               = true) by reflexivity.
  assert (H4 : runtime_succeeds (example_runtime failing_launcher)) by (repeat split).
  assert (H5 : 0 <= arg_cold_iters
                      (Build_test_arguments 4 1 1 3 7 rocblas_fill_upper false false false
                         true 2 0)) by (vm_compute; congruence).
  assert (H6 : - 2 ^ 31
               <= arg_cold_iters
                    (Build_test_arguments 4 1 1 3 7 rocblas_fill_upper false false false
                       true 2 0)
                  + arg_iters
                      (Build_test_arguments 4 1 1 3 7 rocblas_fill_upper false false false
                         true 2 0)
               <= c_i32_max) by (vm_compute; split; congruence).
  assert (H7 : arg_iters
                 (Build_test_arguments 4 1 1 3 7 rocblas_fill_upper false false false true 2 0)
               <= 0) by (vm_compute; congruence).
  split; [exact (conj H1 (conj H2 (conj H3 (conj H4 (conj H5 H7)))))|].
  exact (proj2 (proj2 (proj2 (testing_spr2_batched_timing_loop Z
                                (example_runtime failing_launcher)
                                (Build_test_arguments 4 1 1 3 7 rocblas_fill_upper false
                                   false false true 2 0)
                                H1 H2 H3 H4 H5 H6))) H7).
Defined.

(** With [arg.repeatability_check] the numerical test leaves after the
    reruns: whatever happens, it makes no reference run, no norm check and
    no timing, even with [arg.timing] set.  When the runtime calls and the
    calls of the function under test succeed, it gets to its end after one
    call in host pointer mode on [dAp_1], one in device pointer mode on
    [dAp_2], and [arg.iters] reruns of the latter, each followed by the copy
    of [dAp_2] to [hAp_copy] and its comparison with [hAp_2]. *)
Theorem testing_spr2_batched_repeatability_check :
  forall (T : Type) (R : runtime) (arg : test_arguments T),
    arg_unit_check arg || arg_norm_check arg = true ->
    arg_repeatability_check arg = true ->
    let host_call :=
      Build_call rocblas_pointer_mode_host (arg_uplo arg) (arg_N arg) h_alpha dx
        (arg_incx arg) dy (arg_incy arg) dAp_1 (arg_batch_count arg) in
    let device_call :=
      Build_call rocblas_pointer_mode_device (arg_uplo arg) (arg_N arg) d_alpha dx
        (arg_incx arg) dy (arg_incy arg) dAp_2 (arg_batch_count arg) in
    let size_A := to_size_t (rocblas_packed_matrix_size R (arg_N arg)) in
    let trace := fst (testing_spr2_batched_numerical R arg) in
    Forall (fun s => is_reference_or_timing s = false) trace
    /\ (runtime_succeeds R ->
        rocblas_spr2_batched_fn R host_call = rocblas_status_success ->
        rocblas_spr2_batched_fn R device_call = rocblas_status_success ->
        finished (testing_spr2_batched_numerical R arg) = true
        /\ api_calls trace
           = host_call :: device_call :: repeat device_call (Z.to_nat (arg_iters arg))
        /\ exists before,
             trace
             = before
                 ++ concat
                      (repeat
                         [api_call device_call rocblas_status_success;
                          transfer_from hAp_copy dAp_2 hipSuccess;
                          unit_check_general 1 size_A 1 hAp_2 hAp_copy (arg_batch_count arg)]
                         (Z.to_nat (arg_iters arg)))).
Proof.
  intros T R arg Hchecks Hrepeat host_call device_call size_A trace.
  subst trace size_A host_call device_call.
  unfold testing_spr2_batched_numerical. cbv zeta.
  rewrite Hchecks, Hrepeat. cbv iota.
  unfold CHECK_ROCBLAS_ERROR_set_pointer_mode, CHECK_memcheck,
    CHECK_HIP_ERROR_transfer_from, DAPI_CHECK.
  split.
  - unfold for_iter. forall_steps; reflexivity.
  - intros (Hmode & Hmem & Hcpy & Hstream) Hhost Hdevice.
    rewrite !Hmode, !Hmem, !Hcpy, !Hhost, !Hdevice.
    run_harness. rewrite ClientLoopFacts.for_iter_trace. run_harness.
    unfold finished. cbn [snd].
    split; [reflexivity|]. split.
    + count_steps. rewrite spr2_api_calls_concat_repeat with (c := Build_call
        rocblas_pointer_mode_device (arg_uplo arg) (arg_N arg) d_alpha dx
        (arg_incx arg) dy (arg_incy arg) dAp_2 (arg_batch_count arg)) by reflexivity.
      reflexivity.
    + rewrite <- ?app_comm_cons.
      repeat match goal with
             | |- exists before, ?s :: ?l = before ++ ?loop =>
                 let Hl := fresh "Hl" in
                 assert (Hl : exists before, l = before ++ loop);
                 [|destruct Hl as [before Hl]; exists (s :: before);
                   cbn [app]; f_equal; exact Hl]
             end.
      exists []. cbn [app]. rewrite ?app_nil_r. reflexivity.
Qed.

Lemma testing_spr2_batched_repeatability_check_witness :
  (arg_unit_check (Build_test_arguments 4 1 1 3 7 rocblas_fill_upper true false true true 1 2)
   || arg_norm_check
        (Build_test_arguments 4 1 1 3 7 rocblas_fill_upper true false true true 1 2)
   = true
   /\ arg_repeatability_check
        (Build_test_arguments 4 1 1 3 7 rocblas_fill_upper true false true true 1 2)
      = true
   /\ runtime_succeeds (example_runtime example_launcher))
  /\ api_calls
       (fst (testing_spr2_batched_numerical (example_runtime example_launcher)
               (Build_test_arguments 4 1 1 3 7 rocblas_fill_upper true false true true 1 2)))
     = [Build_call rocblas_pointer_mode_host rocblas_fill_upper 4 h_alpha dx 1 dy 1 dAp_1 3;
        Build_call rocblas_pointer_mode_device rocblas_fill_upper 4 d_alpha dx 1 dy 1 dAp_2 3;
        Build_call rocblas_pointer_mode_device rocblas_fill_upper 4 d_alpha dx 1 dy 1 dAp_2 3;
        Build_call rocblas_pointer_mode_device rocblas_fill_upper 4 d_alpha dx 1 dy 1 dAp_2 3].
Proof.
  assert (H1 : arg_unit_check
                 (Build_test_arguments 4 1 1 3 7 rocblas_fill_upper true false true true 1 2)
               || arg_norm_check
                    (Build_test_arguments 4 1 1 3 7 rocblas_fill_upper true false true true
                       1 2)
               = true) by reflexivity.
  assert (H2 : arg_repeatability_check
                 (Build_test_arguments 4 1 1 3 7 rocblas_fill_upper true false true true 1 2)
               = true) by reflexivity.
  assert (H3 : runtime_succeeds (example_runtime example_launcher)) by (repeat split).
  split; [exact (conj H1 (conj H2 H3))|].
  exact (proj1 (proj2 (proj2 (testing_spr2_batched_repeatability_check Z
                                (example_runtime example_launcher)
                                (Build_test_arguments 4 1 1 3 7 rocblas_fill_upper true
                                   false true true 1 2) H1 H2)
                         H3 eq_refl eq_refl))).
Defined.

(** With a unit check or a norm check, the numerical test gets to its
    end only if every allocation and copy before the GPU runs succeeded and
    the function under test returned success in host pointer mode, with
    [&h_alpha] and [dAp_1], and in device pointer mode, with [d_alpha] and
    [dAp_2]. *)
Theorem testing_spr2_batched_numerical_asserts :
  forall (T : Type) (R : runtime) (arg : test_arguments T),
    finished (testing_spr2_batched_numerical R arg) = true ->
    arg_unit_check arg || arg_norm_check arg = true ->
    rocblas_spr2_batched_fn R
      (Build_call rocblas_pointer_mode_host (arg_uplo arg) (arg_N arg) h_alpha dx
         (arg_incx arg) dy (arg_incy arg) dAp_1 (arg_batch_count arg))
    = rocblas_status_success
    /\ rocblas_spr2_batched_fn R
         (Build_call rocblas_pointer_mode_device (arg_uplo arg) (arg_N arg) d_alpha dx
            (arg_incx arg) dy (arg_incy arg) dAp_2 (arg_batch_count arg))
       = rocblas_status_success
    /\ (forall b, In b [hA; hAp_1; hAp_2; hAp_gold; hx; hy; dAp_1; dAp_2; dx; dy; d_alpha] ->
        memcheck_status R b = hipSuccess)
    /\ (forall dst src,
          In (dst, src) [(dAp_1, hAp_1); (dx, hx); (dy, hy); (dAp_2, hAp_1); (d_alpha, halpha)] ->
          transfer_status R dst src = hipSuccess).
Proof.
  intros T R arg Hrun Hchecks.
  unfold testing_spr2_batched_numerical in Hrun. cbv zeta in Hrun.
  rewrite Hchecks in Hrun. cbv iota in Hrun.
  unfold CHECK_ROCBLAS_ERROR_set_pointer_mode, CHECK_memcheck,
    CHECK_HIP_ERROR_transfer_from, DAPI_CHECK in Hrun.
  revert Hrun. run_checks. intros Hrun. split_checks Hrun.
  rewrite status_eqb_eq in *.
  assert (Hok : forall e, hip_ok e = true -> e = hipSuccess)
    by (intros []; (reflexivity || discriminate)).
  split; [assumption|]. split; [assumption|]. split.
  - intros b Hb. cbn [In] in Hb. apply Hok.
    repeat (destruct Hb as [<- | Hb]; [assumption|]). destruct Hb.
  - intros dst src Hb. cbn [In] in Hb. apply Hok.
    repeat (destruct Hb as [Heq | Hb]; [injection Heq as <- <-; assumption|]). destruct Hb.
Qed.

Lemma testing_spr2_batched_numerical_asserts_witness :
  (finished (testing_spr2_batched_numerical (example_runtime example_launcher)
               (Build_test_arguments 4 1 1 3 7 rocblas_fill_upper true false false false 1 2))
   = true
   /\ arg_unit_check
        (Build_test_arguments 4 1 1 3 7 rocblas_fill_upper true false false false 1 2)
      || arg_norm_check
           (Build_test_arguments 4 1 1 3 7 rocblas_fill_upper true false false false 1 2)
      = true)
  /\ rocblas_spr2_batched_fn (example_runtime example_launcher)
       (Build_call rocblas_pointer_mode_host rocblas_fill_upper 4 h_alpha dx 1 dy 1 dAp_1 3)
     = rocblas_status_success.
Proof.
  assert (H1 : finished (testing_spr2_batched_numerical (example_runtime example_launcher)
                           (Build_test_arguments 4 1 1 3 7 rocblas_fill_upper true false
                              false false 1 2)) = true) by reflexivity.
  assert (H2 : arg_unit_check
                 (Build_test_arguments 4 1 1 3 7 rocblas_fill_upper true false false false
                    1 2)
               || arg_norm_check
                    (Build_test_arguments 4 1 1 3 7 rocblas_fill_upper true false false
                       false 1 2)
               = true) by reflexivity.
  split; [exact (conj H1 H2)|].
  exact (proj1 (testing_spr2_batched_numerical_asserts Z (example_runtime example_launcher)
                  (Build_test_arguments 4 1 1 3 7 rocblas_fill_upper true false false
                     false 1 2) H1 H2)).
Defined.

End Spr2BatchedNumericalFacts.
